(** * For-mix: the retrying HTTP request runners

    A shallow embedding of [http_runner.py] (transport: the [requests]
    library) and [http_runner_stdlib.py] (transport: [urllib]), followed by
    the properties of the request engine: pair and header parsing, body
    resolution, file-name sanitisation, the per-target retry loop, the
    JSON Lines sink and the exit codes of [main].

    Conventions.
    - A Python [str] is a [string] whose characters are the code points
      U+0000..U+00FF, one [ascii] per code point; [bytes] is a list of
      [byte].
    - A Python [int] is a [Z].
    - A [Dict[str, str]] is an insertion-ordered association list with
      unique keys ([Py.dict]), as iteration order is observable (cookie
      jar, JSON output).
    - Everything the programs obtain from outside (the network, the
      clock, the scheduler, the JSON and URL parsers of the Python
      library) is an explicit oracle; the file system and the log of
      observable actions form the state that is threaded through. *)

From Stdlib Require Import ZArith Lia Bool Ascii String List.
From stdpp Require Import gmap strings list.
Import ListNotations.
Local Open Scope Z_scope.

(* ===================================================================== *)
(** * Python values and builtins *)
(* ===================================================================== *)

Module Py.

(** ** Exceptions *)

(** The classes that occur in the two programs.  [KeyboardInterrupt] and
    [SystemExit] derive from [BaseException] only, so [except Exception]
    lets them through.  [Diverged] is not a Python exception: it marks a
    loop of the model that ran out of fuel. *)
Inductive exn_class :=
| ValueError | TypeError | FileNotFoundError | FileExistsError | OSError
| RuntimeError | UnicodeDecodeError | JSONDecodeError | RequestException
| OverflowError | IsADirectoryError
| KeyboardInterrupt | SystemExit | Diverged.

(** An exception object: its class and [str(exc)]. *)
Record exn := Exn { exn_cls : exn_class; exn_str : string }.

Definition is_Exception (e : exn) : bool :=
  match exn_cls e with
  | KeyboardInterrupt | SystemExit | Diverged => false
  | _ => true
  end.

(** The result of an expression that may raise. *)
Inductive res (A : Type) :=
| Ok (a : A)
| Raise (e : exn).
Arguments Ok {A} a.
Arguments Raise {A} e.

Definition res_bind {A B} (r : res A) (k : A -> res B) : res B :=
  match r with Ok a => k a | Raise e => Raise e end.

(** ** Characters *)

Definition code (c : ascii) : N := N_of_ascii c.

(** [str.isspace] on U+0000..U+00FF: TAB, LF, VT, FF, CR, the separators
    FS, GS, RS, US, SPACE, NEL and NO-BREAK SPACE. *)
Definition isspace (c : ascii) : bool :=
  let n := code c in
  ((9 <=? n) && (n <=? 13) || (28 <=? n) && (n <=? 32)
   || (n =? 133) || (n =? 160))%N.

(** [str.isalnum] on U+0000..U+00FF: the ASCII digits and letters, and the
    Latin-1 letters, superscript digits and vulgar fractions. *)
Definition isalnum (c : ascii) : bool :=
  let n := code c in
  ((48 <=? n) && (n <=? 57) || (65 <=? n) && (n <=? 90)
   || (97 <=? n) && (n <=? 122)
   || (n =? 170) || (n =? 178) || (n =? 179) || (n =? 181)
   || (n =? 185) || (n =? 186) || (188 <=? n) && (n <=? 190)
   || (192 <=? n) && (n <=? 214) || (216 <=? n) && (n <=? 246)
   || (248 <=? n) && (n <=? 255))%N.

(** ** Strings *)

Definition chars (s : string) : list ascii := list_ascii_of_string s.
Definition str (l : list ascii) : string := string_of_list_ascii l.

(** [len(s)] *)
Definition len (s : string) : nat := String.length s.

(** [s.startswith(p)] *)
Fixpoint startswith (p s : string) : bool :=
  match p, s with
  | EmptyString, _ => true
  | String a p', String b s' => if Ascii.eqb a b then startswith p' s' else false
  | String _ _, EmptyString => false
  end.

(** [s[n:]] *)
Fixpoint drop_str (n : nat) (s : string) : string :=
  match n, s with
  | O, _ => s
  | S n', String _ s' => drop_str n' s'
  | S _, EmptyString => EmptyString
  end.

(** [s[:n]] *)
Fixpoint take_str (n : nat) (s : string) : string :=
  match n, s with
  | O, _ => EmptyString
  | S n', String c s' => String c (take_str n' s')
  | S _, EmptyString => EmptyString
  end.

(** [sep in s] *)
Fixpoint contains (sep s : string) : bool :=
  startswith sep s ||
  match s with
  | EmptyString => false
  | String _ s' => contains sep s'
  end.

(** [s.find(sep)] for a non-empty [sep] that occurs: the text before the
    first occurrence and the text after it. *)
Fixpoint partition (sep s : string) : option (string * string) :=
  if startswith sep s then Some (EmptyString, drop_str (len sep) s)
  else match s with
       | EmptyString => None
       | String c s' =>
           match partition sep s' with
           | Some (a, b) => Some (String c a, b)
           | None => None
           end
       end.

(** [s.split(sep, 1)]: at most one split, at the first occurrence of
    [sep]; an empty separator is a [ValueError]. *)
Definition split1 (sep s : string) : res (list string) :=
  match sep with
  | EmptyString => Raise (Exn ValueError "empty separator")
  | _ => match partition sep s with
         | Some (a, b) => Ok [a; b]
         | None => Ok [s]
         end
  end.

(** [s.strip(set)]: the characters of [set] are removed from both ends. *)
Fixpoint lstrip_by (drop : ascii -> bool) (s : string) : string :=
  match s with
  | EmptyString => EmptyString
  | String c s' => if drop c then lstrip_by drop s' else s
  end.

Fixpoint rstrip_by (drop : ascii -> bool) (s : string) : string :=
  match s with
  | EmptyString => EmptyString
  | String c s' =>
      match rstrip_by drop s' with
      | EmptyString => if drop c then EmptyString else String c EmptyString
      | t => String c t
      end
  end.

Definition strip_by (drop : ascii -> bool) (s : string) : string :=
  rstrip_by drop (lstrip_by drop s).

(** [s.strip()] *)
Definition strip (s : string) : string := strip_by isspace s.

(** [sep.join(l)] *)
Fixpoint join (sep : string) (l : list string) : string :=
  match l with
  | [] => ""
  | [x] => x
  | x :: rest => x +:+ sep +:+ join sep rest
  end.

(** [str(n)] for a non-negative [n]: decimal digits, most significant
    first.  The fuel is the bit length of [n], which bounds its number of
    decimal digits. *)
Definition digit (n : N) : ascii := ascii_of_N (48 + n mod 10).

Fixpoint digits_of (fuel : nat) (n : N) (acc : string) : string :=
  let acc' := String (digit n) acc in
  match fuel with
  | O => acc'
  | S fuel' => if (n / 10 =? 0)%N then acc' else digits_of fuel' (n / 10)%N acc'
  end.

Definition str_of_N (n : N) : string := digits_of (N.size_nat n) n "".

(** [str(z)] for an [int]. *)
Definition str_of_int (z : Z) : string :=
  match z with
  | Zneg p => "-" +:+ str_of_N (Npos p)
  | _ => str_of_N (Z.to_N z)
  end.

(** ** Floats *)

(** A [float] is represented by its [repr()], which determines it.  The
    text of a [repr] is made of digits, a point, an exponent mark, signs
    and the letters of [inf] and [nan]. *)
Definition float_char (c : ascii) : bool :=
  isalnum c || Ascii.eqb c "." || Ascii.eqb c "+" || Ascii.eqb c "-".

Record float := Float {
  float_repr : string;
  float_repr_wf : forallb float_char (chars float_repr) = true
}.

(** ** Dictionaries *)

(** A [dict] keeps its keys in insertion order; assigning to a key that is
    present replaces the value where the key stands. *)
Definition dict (V : Type) := list (string * V).

Fixpoint dict_set {V} (k : string) (v : V) (d : dict V) : dict V :=
  match d with
  | [] => [(k, v)]
  | (k', v') :: d' =>
      if String.eqb k' k then (k', v) :: d' else (k', v') :: dict_set k v d'
  end.

Fixpoint dict_get {V} (k : string) (d : dict V) : option V :=
  match d with
  | [] => None
  | (k', v') :: d' => if String.eqb k' k then Some v' else dict_get k d'
  end.

(** [dict(items)] and [{k: v for k, v in items}] *)
Definition dict_of_items {V} (items : list (string * V)) : dict V :=
  fold_left (fun d kv => dict_set (fst kv) (snd kv) d) items [].

(** [d.update(e)] *)
Definition dict_update {V} (d e : dict V) : dict V :=
  fold_left (fun d kv => dict_set (fst kv) (snd kv) d) e d.

(** Truth value of a [str], of a container, of an optional [str]. *)
Definition truthy_str (s : string) : bool := negb (String.eqb s "").
Definition truthy_list {A} (l : list A) : bool :=
  match l with [] => false | _ => true end.
Definition truthy_opt_str (o : option string) : bool :=
  match o with Some s => truthy_str s | None => false end.

(** ** Bytes *)

Definition bytes := list Byte.byte.

Definition byte_of_N (n : N) : Byte.byte :=
  match Byte.of_N n with Some b => b | None => Byte.x00 end.

(** [s.encode("utf-8")]: one byte below U+0080, two bytes from U+0080 to
    U+00FF. *)
Definition utf8_char (c : ascii) : bytes :=
  let n := code c in
  if (n <? 128)%N then [byte_of_N n]
  else [byte_of_N (192 + n / 64); byte_of_N (128 + n mod 64)].

Definition encode_utf8 (s : string) : bytes := flat_map utf8_char (chars s).

(** [b.decode("utf-8")] for text made of the code points U+0000..U+00FF;
    a malformed sequence is a [UnicodeDecodeError]. *)
Fixpoint decode_utf8_list (b : bytes) : option (list ascii) :=
  match b with
  | [] => Some []
  | x :: rest =>
      let n := Byte.to_N x in
      if (n <? 128)%N then
        option_map (cons (ascii_of_N n)) (decode_utf8_list rest)
      else
        match rest with
        | y :: rest' =>
            let m := Byte.to_N y in
            if ((n =? 194) || (n =? 195))%N && (128 <=? m)%N && (m <? 192)%N
            then option_map (cons (ascii_of_N ((n - 192) * 64 + (m - 128))))
                            (decode_utf8_list rest')
            else None
        | [] => None
        end
  end.

Definition decode_utf8 (b : bytes) : res string :=
  match decode_utf8_list b with
  | Some l => Ok (str l)
  | None => Raise (Exn UnicodeDecodeError "'utf-8' codec can't decode bytes")
  end.

End Py.

(* ===================================================================== *)
(** * The [json] module of the Python library *)
(* ===================================================================== *)

Module Json.
Import Py.

(** ** Values *)

#[warnings="-register-all"]
Inductive json :=
| JNull
| JBool (b : bool)
| JInt (z : Z)
| JFloat (f : float)
| JStr (s : string)
| JArr (items : list json)
| JObj (members : list (string * json)).

(** ** [json.dumps(obj, ensure_ascii=False)] *)

Definition hex_digit (n : N) : ascii :=
  if (n <? 10)%N then ascii_of_N (48 + n) else ascii_of_N (87 + n).

(** The double quote. *)
Definition quote : string := String (ascii_of_N 34) "".

(** The replacement of one character inside a string literal: the
    backslash, the quote and the control characters are escaped. *)
Definition escape_char (c : ascii) : string :=
  let n := code c in
  if (n =? 92)%N then "\\"
  else if (n =? 34)%N then String "\" quote
  else if (n =? 8)%N then "\b"
  else if (n =? 12)%N then "\f"
  else if (n =? 10)%N then "\n"
  else if (n =? 13)%N then "\r"
  else if (n =? 9)%N then "\t"
  else if (n <? 32)%N then
    "\u00" +:+ String (hex_digit (n / 16)) (String (hex_digit (n mod 16)) "")
  else String c "".

Fixpoint escape (s : string) : string :=
  match s with
  | EmptyString => ""
  | String c s' => escape_char c +:+ escape s'
  end.

Definition encode_str (s : string) : string := quote +:+ escape s +:+ quote.

Definition encode_float (f : float) : string :=
  let r := float_repr f in
  if String.eqb r "nan" then "NaN"
  else if String.eqb r "inf" then "Infinity"
  else if String.eqb r "-inf" then "-Infinity"
  else r.

Definition newline : string := String (ascii_of_N 10) "".

Fixpoint spaces (n : nat) : string :=
  match n with O => "" | S n' => String " " (spaces n') end.

(** The layout of containers: compact ([indent=None]) or one item per
    line, [indent] spaces per level. *)
Definition item_break (indent : option nat) (level : nat) : string :=
  match indent with
  | None => ""
  | Some k => newline +:+ spaces (k * level)
  end.

Definition item_sep (indent : option nat) (level : nat) : string :=
  match indent with
  | None => ", "
  | Some _ => "," +:+ item_break indent level
  end.

Definition container (indent : option nat) (level : nat)
    (open close : string) (items : list string) : string :=
  match items with
  | [] => open +:+ close
  | _ => open +:+ item_break indent (S level)
         +:+ join (item_sep indent (S level)) items
         +:+ item_break indent level +:+ close
  end.

Fixpoint dumps_at (indent : option nat) (level : nat) (j : json) : string :=
  match j with
  | JNull => "null"
  | JBool true => "true"
  | JBool false => "false"
  | JInt z => str_of_int z
  | JFloat f => encode_float f
  | JStr s => encode_str s
  | JArr items =>
      container indent level "[" "]" (map (dumps_at indent (S level)) items)
  | JObj members =>
      container indent level "{" "}"
        (map (fun kv => encode_str (fst kv) +:+ ": "
                        +:+ dumps_at indent (S level) (snd kv)) members)
  end.

Definition dumps (j : json) : string := dumps_at None 0 j.
Definition dumps_indent (k : nat) (j : json) : string := dumps_at (Some k) 0 j.

(** A [Dict[str, str]] as a JSON object. *)
Definition of_str_dict (d : dict string) : json :=
  JObj (map (fun kv => (fst kv, JStr (snd kv))) d).

End Json.

(* ===================================================================== *)
(** * The world of a run: oracles, file system, log, effects *)
(* ===================================================================== *)

Module World.
Import Py Json.

(** ** What the two transports are asked *)

(** The arguments of [requests.request(...)]. *)
Record requests_call := RequestsCall {
  rc_method : string;
  rc_url : string;
  rc_params : option (dict string);
  rc_headers : option (dict string);
  rc_cookies : option (dict string);
  rc_timeout : float;
  rc_allow_redirects : bool;
  rc_verify : bool;
  rc_proxies : option (dict string);
  rc_data : option string;
  rc_json : json                     (** [JNull] is [None] *)
}.

(** The [urllib] request handed to [opener.open(req, timeout=...)], with
    the settings of the opener it is sent through. *)
Record urlopen_call := UrlopenCall {
  uc_url : string;
  uc_data : option bytes;
  uc_method : string;
  uc_headers : dict string;
  uc_timeout : float;
  uc_verify_tls : bool;
  uc_proxies : option (dict string);
  uc_follow_redirects : bool
}.

Inductive net_call :=
| ViaRequests (c : requests_call)
| ViaUrllib (c : urlopen_call).

(** ** What the transports answer *)

Record response := Response {
  resp_status : Z;
  resp_headers : list (string * string);
  resp_content : bytes
}.

(** [requests.request] returns a response, of any status, or raises.  The
    float is the time the call took, in milliseconds, as measured around
    it with [time.perf_counter]. *)
Inductive requests_reply :=
| Replied (r : response) (elapsed_ms : float)
| RequestFailed (e : exn).

(** [opener.open] returns a response, or raises [HTTPError] (a status the
    opener does not return as a response: 4xx, 5xx, and 3xx when
    redirects are not followed; reading its body may fail), or raises
    [URLError], or raises something else (a socket timeout while reading,
    a reset connection). *)
Inductive urlopen_reply :=
| Opened (r : response) (elapsed_ms : float)
| HTTPError (code : Z) (headers : list (string * string))
            (body : option bytes) (elapsed_ms : float)
| URLError (text : string)
| OpenFailed (e : exn).

(** ** Library functions taken as given *)

Record Lib := {
  (** [json.loads(text)]: the value, or the text of the
      [JSONDecodeError] *)
  json_loads : string -> string + json;
  (** [round(x, 2)] *)
  round2 : float -> float;
  (** [urlsplit(url).query] *)
  url_query : string -> string;
  (** [parse_qsl(query, keep_blank_values=True)] *)
  parse_qsl : string -> list (string * string);
  (** [urlencode(d, doseq=True)] *)
  urlencode : dict string -> string;
  (** [urlunsplit] of the parts of a URL with its query replaced *)
  url_replace_query : string -> string -> string;
  (** [s.title()] *)
  title : string -> string;
  (** [s.capitalize()], which [Request.add_header] applies to the name
      of a header *)
  capitalize : string -> string;
  (** [time.sleep(ms / 1000.0)] for a positive [ms]: [None] when the
      call sleeps and returns, else the text of the [OverflowError] it
      raises, the delay being too large for the clock of the platform or
      for a [float] *)
  sleep_error : Z -> option string;
  (** [attach_params_to_url(url, params)] followed by
      [urlrequest.Request(final_url, ...)]: [None] when the request is
      built, else the text of the [ValueError] raised, by [urlsplit] for
      a URL it cannot split when there are parameters, or by [Request]
      for a URL without a scheme *)
  request_error : string -> dict string -> option string;
  (** [holds_directory path d]: [path] names the directory [d] or a
      directory above it, one of those [os.makedirs(d)] makes when they
      are missing *)
  holds_directory : string -> string -> bool
}.

(** ** State *)

Inductive event :=
| EvSleep (ms : Z)                       (** [time.sleep(ms / 1000.0)] *)
| EvCall (c : net_call)                  (** one request handed to the transport *)
| EvMakedirs (path : string)
| EvWrite (path : string) (data : bytes)
| EvPrint (line : string).

Record world := World {
  (** the regular files *)
  files : gmap string bytes;
  (** the paths the operating system refuses to create or open for
      writing whatever the run does, with the text of the [OSError] it
      raises; the directories the run makes are in the log, and the
      output file is refused as well when its path names one of them
      ([write_output]) *)
  denied : string -> option string;
  (** what happened so far, oldest first *)
  log : list event
}.

Definition log_event (ev : event) (w : world) : world :=
  World (files w) (denied w) (log w ++ [ev]).

(** ** Effectful computations *)

Definition M (A : Type) := world -> res A * world.

Definition ret {A} (a : A) : M A := fun w => (Ok a, w).

Definition bind {A B} (m : M A) (k : A -> M B) : M B :=
  fun w => match m w with
           | (Ok a, w') => k a w'
           | (Raise e, w') => (Raise e, w')
           end.

Definition raise {A} (e : exn) : M A := fun w => (Raise e, w).

Definition lift {A} (r : res A) : M A := fun w => (r, w).

(** [try: m  except Exception as exc: handler(exc)] *)
Definition try_except {A} (m : M A) (handler : exn -> M A) : M A :=
  fun w => match m w with
           | (Ok a, w') => (Ok a, w')
           | (Raise e, w') =>
               if is_Exception e then handler e w' else (Raise e, w')
           end.

Definition when (b : bool) (m : M unit) : M unit :=
  if b then m else ret tt.

Definition emit (ev : event) : M unit := fun w => (Ok tt, log_event ev w).

Module Import Notations.
  Notation "x <- m ;; k" := (bind m (fun x => k))
    (at level 100, m at next level, right associativity).
  Notation "m ;; k" := (bind m (fun _ => k))
    (at level 100, right associativity).
End Notations.

(** ** System calls *)

(** [time.sleep(ms / 1000.0)], called with a positive [ms] only: it
    sleeps, or raises [OverflowError] at once. *)
Definition sleep_ms (l : Lib) (ms : Z) : M unit :=
  match sleep_error l ms with
  | Some text => raise (Exn OverflowError text)
  | None => emit (EvSleep ms)
  end.

(** [print(line)] *)
Definition print (line : string) : M unit := emit (EvPrint line).

(** [os.path.isfile(path)] *)
Definition isfile (path : string) : M bool :=
  fun w => (Ok (bool_decide (is_Some (files w !! path))), w).

(** [open(path, "rb").read()] *)
Definition read_bytes (path : string) : M bytes :=
  fun w => match files w !! path with
           | Some b => (Ok b, w)
           | None => (Raise (Exn FileNotFoundError
                        ("[Errno 2] No such file or directory: '" +:+ path +:+ "'")), w)
           end.

(** [open(path, "r", encoding="utf-8").read()] *)
Definition read_text (path : string) : M string :=
  b <- read_bytes path ;; lift (decode_utf8 b).

(** [open(path, "wb").write(data)] *)
Definition write_bytes (path : string) (data : bytes) : M unit :=
  fun w => match denied w path with
           | Some text => (Raise (Exn OSError text), w)
           | None => (Ok tt, World (<[path := data]> (files w)) (denied w)
                                   (log w ++ [EvWrite path data]))
           end.

(** [open(path, "w", encoding="utf-8").write(text)] *)
Definition write_text (path : string) (text : string) : M unit :=
  write_bytes path (encode_utf8 text).

(** [path] names a directory that [os.makedirs] made so far. *)
Definition made_directory (l : Lib) (events : list event) (path : string) : bool :=
  existsb (fun ev => match ev with
                     | EvMakedirs d => holds_directory l path d
                     | _ => false
                     end) events.

(** [with open(path, "w", encoding="utf-8") as f: f.write(text)] for the
    output file, which is opened once the records have been saved: a
    path that names a directory made for them cannot be opened as a
    file.  (The files of a record lie below the directory made for
    them.) *)
Definition write_output (l : Lib) (path : string) (text : string) : M unit :=
  fun w =>
    if made_directory l (log w) path
    then (Raise (Exn IsADirectoryError
                   ("[Errno 21] Is a directory: '" +:+ path +:+ "'")), w)
    else write_text path text w.

(** [os.makedirs(path, exist_ok=True)] *)
Definition makedirs (path : string) : M unit :=
  fun w => match files w !! path with
           | Some _ => (Raise (Exn FileExistsError
                          ("[Errno 17] File exists: '" +:+ path +:+ "'")), w)
           | None => match denied w path with
                     | Some text => (Raise (Exn OSError text), w)
                     | None => (Ok tt, log_event (EvMakedirs path) w)
                     end
           end.

(** [os.path.join(a, b)] *)
Definition path_join (a b : string) : string :=
  if startswith "/" b then b
  else if negb (truthy_str a) || startswith "/" (str (rev (chars a)))
       then a +:+ b
       else a +:+ "/" +:+ b.

(** ** The command line and the outcome of a target *)

(** The [argparse.Namespace] built by [build_arg_parser]. *)
Record Args := {
  url : string;
  method : string;
  param : option (list string);
  cookie : option (list string);
  header : option (list string);
  session_file : option string;
  session_header_name : option string;
  session_cookie_name : option string;
  name : option string;
  json : option string;
  data : option string;
  timeout : float;
  proxy : option string;
  no_verify : bool;
  follow_redirects : bool;
  concurrency : Z;
  retries : Z;
  backoff_ms : Z;
  delay_ms : Z;
  output : option string;
  save_dir : option string;
  save_body : bool
}.

(** The record returned for a target: the dictionary with the keys
    [name], [status], [elapsed_ms], [response_headers], or the one with
    the keys [name], [error]. *)
Inductive Outcome :=
| Success (name : string) (status : Z) (elapsed_ms : float)
          (response_headers : dict string)
| Failure (name : string) (error : string).

Definition outcome_name (o : Outcome) : string :=
  match o with Success n _ _ _ => n | Failure n _ => n end.

(** ["error" in result] *)
Definition has_error (o : Outcome) : bool :=
  match o with Failure _ _ => true | Success _ _ _ _ => false end.

(** The record as the value [json.dumps] sees. *)
Definition outcome_json (o : Outcome) : Json.json :=
  match o with
  | Success n s e h =>
      JObj [("name", JStr n); ("status", JInt s); ("elapsed_ms", JFloat e);
            ("response_headers", of_str_dict h)]
  | Failure n err => JObj [("name", JStr n); ("error", JStr err)]
  end.

(** ** The thread pool *)

(** The order in which [as_completed] yields the futures is the
    scheduler's: each time, it picks one of the futures not yet yielded.
    [pick k] is its [k]-th choice, read modulo the number of futures
    left. *)
Fixpoint take_out {A} (i : nat) (l : list A) {struct l}
    : option (A * list A) :=
  match l with
  | [] => None
  | x :: l' =>
      match i with
      | O => Some (x, l')
      | S i' => match take_out i' l' with
                | Some (y, r) => Some (y, x :: r)
                | None => None
                end
      end
  end.

Fixpoint as_completed_from {A} (pick : nat -> nat) (k : nat) (n : nat)
    (futures : list A) : list A :=
  match n with
  | O => []
  | S n' =>
      match take_out (pick k mod length futures)%nat futures with
      | Some (x, rest) => x :: as_completed_from pick (S k) n' rest
      | None => []
      end
  end.

Definition as_completed {A} (pick : nat -> nat) (futures : list A) : list A :=
  as_completed_from pick 0 (length futures) futures.

End World.

(* ===================================================================== *)
(** * Code shared by the two programs in the model *)
(* ===================================================================== *)

Module Common.
Import Py Json World World.Notations.

(** The oracles of one run. *)
Record Env := {
  lib : Lib;
  (** the answer of [requests.request] to the [k]-th call of the run *)
  requests_net : nat -> requests_call -> requests_reply;
  (** the answer of [opener.open] to the [k]-th call of the run *)
  urllib_net : nat -> urlopen_call -> urlopen_reply;
  (** the choices of the scheduler, see [as_completed] *)
  pick : nat -> nat;
  (** [Some k]: the main thread receives [KeyboardInterrupt] while it
      waits for the completion number [k] *)
  interrupt_at : option nat
}.

(** The number of requests handed to the transport so far. *)
Definition is_call (ev : event) : bool :=
  match ev with EvCall _ => true | _ => false end.

Definition calls_made (l : list event) : nat := length (List.filter is_call l).

(** The lines of a text file as [for line in f] yields them, without
    their terminators: text mode ends a line at LF, CR LF or CR. *)
Fixpoint file_lines_from (cur : list ascii) (s : list ascii) : list string :=
  match s with
  | [] => match cur with [] => [] | _ => [str (rev cur)] end
  | c :: s' =>
      if (code c =? 10)%N then str (rev cur) :: file_lines_from [] s'
      else if (code c =? 13)%N then
        match s' with
        | c' :: s'' =>
            if (code c' =? 10)%N then str (rev cur) :: file_lines_from [] s''
            else str (rev cur) :: file_lines_from [] s'
        | [] => [str (rev cur)]
        end
      else file_lines_from (c :: cur) s'
  end.

Definition file_lines (text : string) : list string :=
  file_lines_from [] (chars text).

(** A task handed to [executor.submit]: it runs to its end, and what it
    returned or raised is kept in its future. *)
Definition submit {A} (task : M A) : M (res A) :=
  fun w => let (r, w') := task w in (Ok r, w').

(** The loop [while attempt <= retries: try: body(attempt); except
    Exception as exc: last_exc = exc; attempt += 1], followed by
    [otherwise(last_exc)] when the loop is left.  [body] returns from the
    enclosing function.  The loop runs at most [retries + 1] times, which
    [fuel] covers. *)
Fixpoint retry_while {A} (fuel : nat) (retries : Z)
    (body : Z -> M A) (otherwise : option exn -> M A)
    (attempt : Z) (last_exc : option exn) : M A :=
  if attempt <=? retries then
    match fuel with
    | O => raise (Exn Diverged "retry loop")
    | S fuel' =>
        try_except (body attempt)
          (fun exc => retry_while fuel' retries body otherwise
                        (attempt + 1) (Some exc))
    end
  else otherwise last_exc.

Definition retry_fuel (retries : Z) : nat := Z.to_nat (retries + 1).

(** [str(last_exc) if last_exc else "Unknown error"]: an exception object
    is always true. *)
Definition failure_message (last_exc : option exn) : string :=
  match last_exc with
  | Some exc => exn_str exc
  | None => "Unknown error"
  end.

(** [args.param or []], as the list of entries handed to the parsers. *)
Definition entries (o : option (list string)) : option (list (option string)) :=
  Some (map Some (default [] o)).

(** The targets read from the lines of a session file: blank lines are
    skipped, a token names its target. *)
Fixpoint session_targets (lines : list string) : list (string * option string) :=
  match lines with
  | [] => []
  | line :: rest =>
      let token := strip line in
      if negb (truthy_str token) then session_targets rest
      else (token, Some token) :: session_targets rest
  end.

(** [for x in l: body(x)], collecting what the bodies return. *)
Fixpoint for_each {A B} (l : list A) (body : A -> M B) : M (list B) :=
  match l with
  | [] => ret []
  | x :: rest => y <- body x ;; ys <- for_each rest body ;; ret (y :: ys)
  end.

(** The lines printed and the records collected by the loop over
    [as_completed]: [results] holds the records received so far, [k] is
    their number. *)
Fixpoint collect (interrupt_at : option nat) (k : nat)
    (completed : list (res Outcome * string)) (results : list Outcome)
    : M (list Outcome) :=
  match completed with
  | [] => ret results
  | (future, name) :: rest =>
      if bool_decide (interrupt_at = Some k) then
        raise (Exn KeyboardInterrupt "")
      else
        result <-
          match future with
          | Ok r => ret r
          | Raise exc =>
              if is_Exception exc then ret (Failure name (exn_str exc))
              else raise exc
          end ;;
        (match result with
         | Failure _ error => print ("[!] " +:+ name +:+ ": ERROR -> " +:+ error)
         | Success _ status elapsed_ms _ =>
             print ("[+] " +:+ name +:+ ": " +:+ str_of_int status +:+ " in "
                    +:+ float_repr elapsed_ms +:+ "ms")
         end) ;;
        collect interrupt_at (S k) rest (results ++ [result])
  end.

(** The text written to the output path: one [json.dumps] per record,
    each followed by a line feed. *)
Definition jsonl (results : list Outcome) : string :=
  fold_right (fun item text => dumps (outcome_json item) +:+ newline +:+ text)
             "" results.

(** [try: m  except KeyboardInterrupt: on_interrupt  except Exception as
    exc: on_error(exc)] *)
Definition try_main {A} (m : M A) (on_interrupt : M A) (on_error : exn -> M A)
    : M A :=
  fun w => match m w with
           | (Ok a, w') => (Ok a, w')
           | (Raise e, w') =>
               match exn_cls e with
               | KeyboardInterrupt => on_interrupt w'
               | _ => if is_Exception e then on_error e w' else (Raise e, w')
               end
           end.

End Common.

(* ===================================================================== *)
(** * [http_runner.py] *)
(* ===================================================================== *)

Module HttpRunner.
Import Py Json World World.Notations Common.

(** [parse_key_value_pairs]: the loop over the entries, with the
    dictionary built so far. *)
Fixpoint parse_key_value_items (sep : string) (items : list (option string))
    (result : dict string) : res (dict string) :=
  match items with
  | [] => Ok result
  | None :: rest => parse_key_value_items sep rest result
  | Some item :: rest =>
      if negb (contains sep item) then
        Raise (Exn ValueError
          ("Invalid pair '" +:+ item +:+ "'. Expected format key" +:+ sep +:+ "value"))
      else
        res_bind (split1 sep item) (fun parts =>
          match parts with
          | [key; value] =>
              let key := strip key in
              let value := strip value in
              if negb (truthy_str key) then
                Raise (Exn ValueError ("Invalid pair '" +:+ item +:+ "'. Key is empty"))
              else parse_key_value_items sep rest (dict_set key value result)
          | _ => Raise (Exn ValueError "not enough values to unpack (expected 2, got 1)")
          end)
  end.

Definition parse_key_value_pairs (pairs : option (list (option string)))
    (sep : string) : res (dict string) :=
  match pairs with
  | None | Some [] => Ok []
  | Some items => parse_key_value_items sep items []
  end.

(** [parse_header_pairs]: the loop over the entries.  There is no test for
    [None] here, so [":" not in item] raises on such an entry. *)
Fixpoint parse_header_items (items : list (option string))
    (headers : dict string) : res (dict string) :=
  match items with
  | [] => Ok headers
  | None :: _ =>
      Raise (Exn TypeError "argument of type 'NoneType' is not iterable")
  | Some item :: rest =>
      if negb (contains ":" item) then
        Raise (Exn ValueError
          ("Invalid header '" +:+ item +:+ "'. Expected format 'Name: Value'"))
      else
        res_bind (split1 ":" item) (fun parts =>
          match parts with
          | [name; value] =>
              let name := strip name in
              let value := strip value in
              if negb (truthy_str name) then
                Raise (Exn ValueError ("Invalid header '" +:+ item +:+ "'. Name is empty"))
              else parse_header_items rest (dict_set name value headers)
          | _ => Raise (Exn ValueError "not enough values to unpack (expected 2, got 1)")
          end)
  end.

Definition parse_header_pairs (pairs : option (list (option string)))
    : res (dict string) :=
  match pairs with
  | None | Some [] => Ok []
  | Some items => parse_header_items items []
  end.

(** A decoded JSON document is a Python value; [null] is [None]. *)
Definition load_json_from_file (l : Lib) (file_path : string) : M Json.json :=
  text <- read_text file_path ;;
  match json_loads l text with
  | inr v => ret v
  | inl msg => raise (Exn JSONDecodeError msg)
  end.

(** [parse_body]: [(data, json_body)], the second being the decoded
    document, [JNull] when there is none. *)
Definition parse_body (l : Lib) (args : Args) : M (option string * Json.json) :=
  match json args, data args with
  | Some _, Some _ =>
      raise (Exn ValueError "Provide either --json or --data, not both")
  | _, _ =>
      json_body <-
        match json args with
        | Some src =>
            is_file <- isfile src ;;
            if is_file then load_json_from_file l src
            else match json_loads l src with
                 | inr v => ret v
                 | inl msg =>
                     raise (Exn ValueError ("--json is not valid JSON: " +:+ msg))
                 end
        | None => ret JNull
        end ;;
      data <-
        match data args with
        | Some src =>
            is_file <- isfile src ;;
            if is_file then (text <- read_text src ;; ret (Some text))
            else ret (Some src)
        | None => ret None
        end ;;
      ret (data, json_body)
  end.

Definition build_proxies (args : Args) : option (dict string) :=
  if negb (truthy_opt_str (proxy args)) then None
  else match proxy args with
       | Some p => Some [("http", p); ("https", p)]
       | None => None
       end.

(** [d or None] *)
Definition or_None {V} (d : dict V) : option (dict V) :=
  if truthy_list d then Some d else None.

(** The keyword arguments [build_request] passes to [requests.request]. *)
Definition request_kwargs (url method : string)
    (params headers cookies : dict string) (timeout : float)
    (allow_redirects verify_tls : bool) (proxies : option (dict string))
    (data : option string) (json_body : Json.json) : requests_call :=
  {| rc_method := method; rc_url := url;
     rc_params := or_None params; rc_headers := or_None headers;
     rc_cookies := or_None cookies; rc_timeout := timeout;
     rc_allow_redirects := allow_redirects; rc_verify := verify_tls;
     rc_proxies := proxies; rc_data := data; rc_json := json_body |}.

Definition build_request (env : Env) (url method : string)
    (params headers cookies : dict string) (timeout : float)
    (allow_redirects verify_tls : bool) (proxies : option (dict string))
    (data : option string) (json_body : Json.json)
    : M (response * float) :=
  fun w =>
    let call := request_kwargs url method params headers cookies timeout
                  allow_redirects verify_tls proxies data json_body in
    let w' := log_event (EvCall (ViaRequests call)) w in
    match requests_net env (calls_made (log w)) call with
    | Replied response elapsed => (Ok (response, elapsed), w')
    | RequestFailed e => (Raise e, w')
    end.

Definition keeps (ch : ascii) : bool :=
  isalnum ch || Ascii.eqb ch "-" || Ascii.eqb ch "_" || Ascii.eqb ch ".".

Definition safe_filename (value : string) : string :=
  take_str 128 (str (map (fun ch => if keeps ch then ch else "_"%char) (chars value))).

(** The session token of a target put into the headers and cookies. *)
Definition with_session (session_value session_name : option string)
    (d : dict string) : dict string :=
  match session_value, session_name with
  | Some v, Some n =>
      if truthy_str v && truthy_str n then dict_set n v d else d
  | _, _ => d
  end.

(** What is written under [save_dir] for a record. *)
Definition save_record (save_dir name : string) (record : Outcome)
    (save_body : bool) (content : bytes) : M unit :=
  makedirs save_dir ;;
  let file_base := safe_filename name in
  let meta_path := path_join save_dir (file_base +:+ ".meta.json") in
  write_text meta_path (dumps_indent 2 (outcome_json record)) ;;
  when save_body
    (let body_path := path_join save_dir (file_base +:+ ".body") in
     write_bytes body_path content).

(** The body of the [try] of [perform_request_with_retries]. *)
Definition attempt_once (env : Env) (name url method : string)
    (params headers cookies : dict string) (timeout : float)
    (allow_redirects verify_tls : bool) (proxies : option (dict string))
    (data : option string) (json_body : Json.json)
    (backoff_base_ms delay_between_ms : Z)
    (save_dir : option string) (save_body : bool) (attempt : Z) : M Outcome :=
  when ((0 <? attempt) && (0 <? backoff_base_ms))
    (let sleep := backoff_base_ms * 2 ^ (attempt - 1) in
     sleep_ms (lib env) sleep) ;;
  when (0 <? delay_between_ms) (sleep_ms (lib env) delay_between_ms) ;;
  reply <- build_request env url method params headers cookies timeout
             allow_redirects verify_tls proxies data json_body ;;
  let response := fst reply in
  let elapsed_ms := snd reply in
  let record := Success name (resp_status response)
                  (round2 (lib env) elapsed_ms)
                  (dict_of_items (resp_headers response)) in
  match save_dir with
  | Some dir =>
      when (truthy_str dir)
        (save_record dir name record save_body (resp_content response))
  | None => ret tt
  end ;;
  ret record.

Definition perform_request_with_retries (env : Env) (name url method : string)
    (params base_headers base_cookies : dict string)
    (session_value session_header_name session_cookie_name : option string)
    (timeout : float) (allow_redirects verify_tls : bool)
    (proxies : option (dict string))
    (data : option string) (json_body : Json.json)
    (retries backoff_base_ms delay_between_ms : Z)
    (save_dir : option string) (save_body : bool) : M Outcome :=
  let headers := with_session session_value session_header_name base_headers in
  let cookies := with_session session_value session_cookie_name base_cookies in
  retry_while (retry_fuel retries) retries
    (attempt_once env name url method params headers cookies timeout
       allow_redirects verify_tls proxies data json_body
       backoff_base_ms delay_between_ms save_dir save_body)
    (fun last_exc => ret (Failure name (failure_message last_exc)))
    0 None.

Definition names_and_sessions (args : Args) : M (list (string * option string)) :=
  if truthy_opt_str (session_file args) then
    match session_file args with
    | Some path =>
        is_file <- isfile path ;;
        if negb is_file then
          raise (Exn FileNotFoundError ("Session file not found: " +:+ path))
        else
          text <- read_text path ;;
          ret (session_targets (file_lines text))
    | None => ret []
    end
  else
    ret [(if truthy_opt_str (name args) then default "" (name args) else "request",
          None)].

Definition run_concurrent_requests (env : Env) (args : Args) : M (list Outcome) :=
  base_params <- lift (parse_key_value_pairs (entries (param args)) "=") ;;
  base_cookies <- lift (parse_key_value_pairs (entries (cookie args)) "=") ;;
  base_headers <- lift (parse_header_pairs (entries (header args))) ;;
  body <- parse_body (lib env) args ;;
  let data := fst body in
  let json_body := snd body in
  let proxies := build_proxies args in
  targets <- names_and_sessions args ;;
  (if concurrency args <=? 0
   then raise (Exn ValueError "max_workers must be greater than 0")
   else ret tt) ;;
  future_to_name <-
    for_each targets (fun target =>
      let name := fst target in
      let session_value := snd target in
      future <- submit
        (perform_request_with_retries env name (url args) (method args)
           base_params base_headers base_cookies
           session_value (session_header_name args) (session_cookie_name args)
           (timeout args) (follow_redirects args) (negb (no_verify args))
           proxies data json_body
           (retries args) (backoff_ms args) (delay_ms args)
           (save_dir args) (save_body args)) ;;
      ret (future, name)) ;;
  results <- collect (interrupt_at env) 0
               (as_completed (pick env) future_to_name) [] ;;
  (match output args with
   | Some path =>
       when (truthy_str path) (write_output (lib env) path (jsonl results))
   | None => ret tt
   end) ;;
  ret results.

(** [main]: [parsed] is what [parser.parse_args(argv)] returns or raises
    ([SystemExit] on a malformed command line). *)
Definition main (env : Env) (parsed : res Args) : M Z :=
  try_main
    (args <- lift parsed ;;
     _ <- run_concurrent_requests env args ;;
     ret 0)
    (print "Interrupted" ;; ret 130)
    (fun exc => print ("ERROR: " +:+ exn_str exc) ;; ret 1).

End HttpRunner.

(* ===================================================================== *)
(** * [http_runner_stdlib.py] *)
(* ===================================================================== *)

Module HttpRunnerStdlib.
Import Py Json World World.Notations Common.

(** [parse_key_value_pairs]: the loop over the entries, with the
    dictionary built so far. *)
Fixpoint parse_key_value_items (sep : string) (items : list (option string))
    (result : dict string) : res (dict string) :=
  match items with
  | [] => Ok result
  | None :: rest => parse_key_value_items sep rest result
  | Some item :: rest =>
      if negb (contains sep item) then
        Raise (Exn ValueError
          ("Invalid pair '" +:+ item +:+ "'. Expected format key" +:+ sep +:+ "value"))
      else
        res_bind (split1 sep item) (fun parts =>
          match parts with
          | [key; value] =>
              let key := strip key in
              let value := strip value in
              if negb (truthy_str key) then
                Raise (Exn ValueError ("Invalid pair '" +:+ item +:+ "'. Key is empty"))
              else parse_key_value_items sep rest (dict_set key value result)
          | _ => Raise (Exn ValueError "not enough values to unpack (expected 2, got 1)")
          end)
  end.

Definition parse_key_value_pairs (pairs : option (list (option string)))
    (sep : string) : res (dict string) :=
  match pairs with
  | None | Some [] => Ok []
  | Some items => parse_key_value_items sep items []
  end.

(** [parse_header_pairs]: the loop over the entries.  There is no test for
    [None] here, so [":" not in item] raises on such an entry. *)
Fixpoint parse_header_items (items : list (option string))
    (headers : dict string) : res (dict string) :=
  match items with
  | [] => Ok headers
  | None :: _ =>
      Raise (Exn TypeError "argument of type 'NoneType' is not iterable")
  | Some item :: rest =>
      if negb (contains ":" item) then
        Raise (Exn ValueError
          ("Invalid header '" +:+ item +:+ "'. Expected format 'Name: Value'"))
      else
        res_bind (split1 ":" item) (fun parts =>
          match parts with
          | [name; value] =>
              let name := strip name in
              let value := strip value in
              if negb (truthy_str name) then
                Raise (Exn ValueError ("Invalid header '" +:+ item +:+ "'. Name is empty"))
              else parse_header_items rest (dict_set name value headers)
          | _ => Raise (Exn ValueError "not enough values to unpack (expected 2, got 1)")
          end)
  end.

Definition parse_header_pairs (pairs : option (list (option string)))
    : res (dict string) :=
  match pairs with
  | None | Some [] => Ok []
  | Some items => parse_header_items items []
  end.

Definition load_json_from_file (l : Lib) (file_path : string) : M Json.json :=
  text <- read_text file_path ;;
  match json_loads l text with
  | inr v => ret v
  | inl msg => raise (Exn JSONDecodeError msg)
  end.

(** [parse_body]: [(data_bytes, json_bytes)]; the JSON document is
    serialised here. *)
Definition parse_body (l : Lib) (args : Args) : M (option bytes * option bytes) :=
  match json args, data args with
  | Some _, Some _ =>
      raise (Exn ValueError "Provide either --json or --data, not both")
  | _, _ =>
      json_bytes <-
        match json args with
        | Some src =>
            is_file <- isfile src ;;
            obj <- (if is_file then load_json_from_file l src
                    else match json_loads l src with
                         | inr v => ret v
                         | inl msg =>
                             raise (Exn ValueError
                                      ("--json is not valid JSON: " +:+ msg))
                         end) ;;
            ret (Some (encode_utf8 (dumps obj)))
        | None => ret None
        end ;;
      data_bytes <-
        match data args with
        | Some src =>
            is_file <- isfile src ;;
            if is_file then (b <- read_bytes src ;; ret (Some b))
            else ret (Some (encode_utf8 src))
        | None => ret None
        end ;;
      ret (data_bytes, json_bytes)
  end.

Definition build_proxies (args : Args) : option (dict string) :=
  if negb (truthy_opt_str (proxy args)) then None
  else match proxy args with
       | Some p => Some [("http", p); ("https", p)]
       | None => None
       end.

(** [merge_cookies_into_header]: the headers after the call. *)
Definition merge_cookies_into_header (headers cookies : dict string) : dict string :=
  if negb (truthy_list cookies) then headers
  else
    let existing := strip (default "" (dict_get "Cookie" headers)) in
    let jar := join "; " (map (fun kv => fst kv +:+ "=" +:+ snd kv) cookies) in
    let drop c := Ascii.eqb c ";" || Ascii.eqb c " " in
    dict_set "Cookie" (strip (strip_by drop (existing +:+ "; " +:+ jar))) headers.

Definition attach_params_to_url (l : Lib) (url : string) (params : dict string)
    : string :=
  if negb (truthy_list params) then url
  else
    let current_query := dict_of_items (parse_qsl l (url_query l url)) in
    let current_query := dict_update current_query params in
    url_replace_query l url (urlencode l current_query).

(** ["Content-Type" not in {k.title(): v for k, v in final_headers.items()}] *)
Definition lacks_content_type (l : Lib) (final_headers : dict string) : bool :=
  negb (existsb (fun kv => String.eqb (title l (fst kv)) "Content-Type")
                final_headers).

(** [final_headers] as [build_and_send_request] has it when it builds
    the request: the headers with the cookies merged in, and the content
    type of a JSON body when no header stands for one. *)
Definition final_headers (l : Lib) (headers cookies : dict string)
    (json_bytes : option bytes) : dict string :=
  let final_headers := merge_cookies_into_header headers cookies in
  match json_bytes with
  | Some _ =>
      if lacks_content_type l final_headers
      then dict_set "Content-Type" "application/json; charset=utf-8" final_headers
      else final_headers
  | None => final_headers
  end.

(** [for k, v in final_headers.items(): req.add_header(k, v)]: the
    headers of the request, [add_header] storing each value under the
    capitalised name, so that a name which differs from an earlier one by
    its letter case only takes its place. *)
Definition add_headers (l : Lib) (final_headers : dict string) : dict string :=
  fold_left (fun d kv => dict_set (capitalize l (fst kv)) (snd kv) d)
            final_headers [].

(** The request [build_and_send_request] hands to the opener. *)
Definition request_of (l : Lib) (url method : string)
    (params headers cookies : dict string) (timeout : float)
    (allow_redirects verify_tls : bool) (proxies : option (dict string))
    (data_bytes json_bytes : option bytes) : urlopen_call :=
  let final_url := attach_params_to_url l url params in
  let body :=
    match json_bytes with
    | Some b => Some b
    | None => data_bytes
    end in
  {| uc_url := final_url; uc_data := body; uc_method := method;
     uc_headers := add_headers l (final_headers l headers cookies json_bytes);
     uc_timeout := timeout;
     uc_verify_tls := verify_tls; uc_proxies := proxies;
     uc_follow_redirects := allow_redirects |}.

(** [build_and_send_request]: [(status, headers_dict, content,
    elapsed_ms)].  When the URL has no scheme [urlrequest.Request] raises
    [ValueError], and so does [urlsplit] for a URL it cannot split,
    before anything is handed to the opener. *)
Definition build_and_send_request (env : Env) (url method : string)
    (params headers cookies : dict string) (timeout : float)
    (allow_redirects verify_tls : bool) (proxies : option (dict string))
    (data_bytes json_bytes : option bytes)
    : M (Z * dict string * bytes * float) :=
  fun w =>
    let req := request_of (lib env) url method params headers cookies timeout
                 allow_redirects verify_tls proxies data_bytes json_bytes in
    match request_error (lib env) url params with
    | Some text => (Raise (Exn ValueError text), w)
    | None =>
        let w' := log_event (EvCall (ViaUrllib req)) w in
        match urllib_net env (calls_made (log w)) req with
        | Opened resp elapsed_ms =>
            (Ok (resp_status resp, dict_of_items (resp_headers resp),
                 resp_content resp, elapsed_ms), w')
        | HTTPError code hdrs body elapsed_ms =>
            (Ok (code, dict_of_items hdrs, default [] body, elapsed_ms), w')
        | URLError text => (Raise (Exn RuntimeError text), w')
        | OpenFailed e => (Raise e, w')
        end
    end.

Definition keeps (ch : ascii) : bool :=
  isalnum ch || Ascii.eqb ch "-" || Ascii.eqb ch "_" || Ascii.eqb ch ".".

Definition safe_filename (value : string) : string :=
  take_str 128 (str (map (fun ch => if keeps ch then ch else "_"%char) (chars value))).

Definition with_session (session_value session_name : option string)
    (d : dict string) : dict string :=
  match session_value, session_name with
  | Some v, Some n =>
      if truthy_str v && truthy_str n then dict_set n v d else d
  | _, _ => d
  end.

Definition save_record (save_dir name : string) (record : Outcome)
    (save_body : bool) (content : bytes) : M unit :=
  makedirs save_dir ;;
  let file_base := safe_filename name in
  let meta_path := path_join save_dir (file_base +:+ ".meta.json") in
  write_text meta_path (dumps_indent 2 (outcome_json record)) ;;
  when save_body
    (let body_path := path_join save_dir (file_base +:+ ".body") in
     write_bytes body_path content).

(** The body of the [try] of [perform_request_with_retries]. *)
Definition attempt_once (env : Env) (name url method : string)
    (params headers cookies : dict string) (timeout : float)
    (allow_redirects verify_tls : bool) (proxies : option (dict string))
    (data_bytes json_bytes : option bytes)
    (backoff_base_ms delay_between_ms : Z)
    (save_dir : option string) (save_body : bool) (attempt : Z) : M Outcome :=
  when ((0 <? attempt) && (0 <? backoff_base_ms))
    (let sleep := backoff_base_ms * 2 ^ (attempt - 1) in
     sleep_ms (lib env) sleep) ;;
  when (0 <? delay_between_ms) (sleep_ms (lib env) delay_between_ms) ;;
  reply <- build_and_send_request env url method params headers cookies timeout
             allow_redirects verify_tls proxies data_bytes json_bytes ;;
  let '(status, headers_dict, content, elapsed_ms) := reply in
  let record := Success name status (round2 (lib env) elapsed_ms) headers_dict in
  match save_dir with
  | Some dir =>
      when (truthy_str dir) (save_record dir name record save_body content)
  | None => ret tt
  end ;;
  ret record.

Definition perform_request_with_retries (env : Env) (name url method : string)
    (params base_headers base_cookies : dict string)
    (session_value session_header_name session_cookie_name : option string)
    (timeout : float) (allow_redirects verify_tls : bool)
    (proxies : option (dict string))
    (data_bytes json_bytes : option bytes)
    (retries backoff_base_ms delay_between_ms : Z)
    (save_dir : option string) (save_body : bool) : M Outcome :=
  let headers := with_session session_value session_header_name base_headers in
  let cookies := with_session session_value session_cookie_name base_cookies in
  retry_while (retry_fuel retries) retries
    (attempt_once env name url method params headers cookies timeout
       allow_redirects verify_tls proxies data_bytes json_bytes
       backoff_base_ms delay_between_ms save_dir save_body)
    (fun last_exc => ret (Failure name (failure_message last_exc)))
    0 None.

Definition names_and_sessions (args : Args) : M (list (string * option string)) :=
  if truthy_opt_str (session_file args) then
    match session_file args with
    | Some path =>
        is_file <- isfile path ;;
        if negb is_file then
          raise (Exn FileNotFoundError ("Session file not found: " +:+ path))
        else
          text <- read_text path ;;
          ret (session_targets (file_lines text))
    | None => ret []
    end
  else
    ret [(if truthy_opt_str (name args) then default "" (name args) else "request",
          None)].

Definition run_concurrent_requests (env : Env) (args : Args) : M (list Outcome) :=
  base_params <- lift (parse_key_value_pairs (entries (param args)) "=") ;;
  base_cookies <- lift (parse_key_value_pairs (entries (cookie args)) "=") ;;
  base_headers <- lift (parse_header_pairs (entries (header args))) ;;
  body <- parse_body (lib env) args ;;
  let data_bytes := fst body in
  let json_bytes := snd body in
  let proxies := build_proxies args in
  targets <- names_and_sessions args ;;
  (if concurrency args <=? 0
   then raise (Exn ValueError "max_workers must be greater than 0")
   else ret tt) ;;
  future_to_name <-
    for_each targets (fun target =>
      let name := fst target in
      let session_value := snd target in
      future <- submit
        (perform_request_with_retries env name (url args) (method args)
           base_params base_headers base_cookies
           session_value (session_header_name args) (session_cookie_name args)
           (timeout args) (follow_redirects args) (negb (no_verify args))
           proxies data_bytes json_bytes
           (retries args) (backoff_ms args) (delay_ms args)
           (save_dir args) (save_body args)) ;;
      ret (future, name)) ;;
  results <- collect (interrupt_at env) 0
               (as_completed (pick env) future_to_name) [] ;;
  (match output args with
   | Some path =>
       when (truthy_str path) (write_output (lib env) path (jsonl results))
   | None => ret tt
   end) ;;
  ret results.

Definition main (env : Env) (parsed : res Args) : M Z :=
  try_main
    (args <- lift parsed ;;
     _ <- run_concurrent_requests env args ;;
     ret 0)
    (print "Interrupted" ;; ret 130)
    (fun exc => print ("ERROR: " +:+ exn_str exc) ;; ret 1).

End HttpRunnerStdlib.

(* ===================================================================== *)
(** * Notions used in the statements *)
(* ===================================================================== *)

Module Spec.
Import Py Json World Common.

(** The backoff before attempt number [i] (the first attempt is number
    0, the [i]-th retry is attempt number [i]):
    [backoff_base_ms * 2^(i-1)] before a retry, nothing before the first
    attempt. *)
Definition backoff_delay (backoff_base_ms : Z) (i : nat) : Z :=
  match i with
  | O => 0
  | S j => backoff_base_ms * 2 ^ Z.of_nat j
  end.

(** The sleeps performed for a list of delays: a delay that is not
    positive is not slept. *)
Definition sleeps (delays : list Z) : list event :=
  map EvSleep (List.filter (fun d => 0 <? d) delays).

(** What attempt number [i] logs up to and including its request: the
    backoff, the pacing delay, the request. *)
Definition attempt_events (backoff_base_ms delay_between_ms : Z)
    (c : net_call) (i : nat) : list event :=
  sleeps [backoff_delay backoff_base_ms i; delay_between_ms] ++ [EvCall c].

(** The log of [n] attempts in a row, none of which logs anything after
    its request. *)
Definition attempts_log (backoff_base_ms delay_between_ms : Z)
    (c : net_call) (n : nat) : list event :=
  flat_map (attempt_events backoff_base_ms delay_between_ms c) (seq 0 n).

(** The arguments of one call of [perform_request_with_retries]; [D] and
    [J] are the types of the two body arguments, which differ between the
    two programs. *)
Record target (D J : Type) := Target {
  t_name : string;
  t_url : string;
  t_method : string;
  t_params : dict string;
  t_base_headers : dict string;
  t_base_cookies : dict string;
  t_session_value : option string;
  t_session_header_name : option string;
  t_session_cookie_name : option string;
  t_timeout : float;
  t_allow_redirects : bool;
  t_verify_tls : bool;
  t_proxies : option (dict string);
  t_data : D;
  t_json : J;
  t_retries : Z;
  t_backoff_base_ms : Z;
  t_delay_between_ms : Z;
  t_save_dir : option string;
  t_save_body : bool
}.
Arguments Target {D J}.
Arguments t_name {D J}.
Arguments t_url {D J}.
Arguments t_method {D J}.
Arguments t_params {D J}.
Arguments t_base_headers {D J}.
Arguments t_base_cookies {D J}.
Arguments t_session_value {D J}.
Arguments t_session_header_name {D J}.
Arguments t_session_cookie_name {D J}.
Arguments t_timeout {D J}.
Arguments t_allow_redirects {D J}.
Arguments t_verify_tls {D J}.
Arguments t_proxies {D J}.
Arguments t_data {D J}.
Arguments t_json {D J}.
Arguments t_retries {D J}.
Arguments t_backoff_base_ms {D J}.
Arguments t_delay_between_ms {D J}.
Arguments t_save_dir {D J}.
Arguments t_save_body {D J}.

Definition requests_target := target (option string) Json.json.
Definition urllib_target := target (option bytes) (option bytes).

(** [http_runner.py]: the call, the headers and cookies it sends, the
    request of each attempt, one attempt. *)
Definition requests_perform (env : Env) (t : requests_target) : M Outcome :=
  HttpRunner.perform_request_with_retries env (t_name t) (t_url t) (t_method t)
    (t_params t) (t_base_headers t) (t_base_cookies t)
    (t_session_value t) (t_session_header_name t) (t_session_cookie_name t)
    (t_timeout t) (t_allow_redirects t) (t_verify_tls t) (t_proxies t)
    (t_data t) (t_json t)
    (t_retries t) (t_backoff_base_ms t) (t_delay_between_ms t)
    (t_save_dir t) (t_save_body t).

Definition requests_request (t : requests_target) : requests_call :=
  HttpRunner.request_kwargs (t_url t) (t_method t) (t_params t)
    (HttpRunner.with_session (t_session_value t) (t_session_header_name t)
       (t_base_headers t))
    (HttpRunner.with_session (t_session_value t) (t_session_cookie_name t)
       (t_base_cookies t))
    (t_timeout t) (t_allow_redirects t) (t_verify_tls t) (t_proxies t)
    (t_data t) (t_json t).

Definition requests_attempt (env : Env) (t : requests_target) : Z -> M Outcome :=
  HttpRunner.attempt_once env (t_name t) (t_url t) (t_method t) (t_params t)
    (HttpRunner.with_session (t_session_value t) (t_session_header_name t)
       (t_base_headers t))
    (HttpRunner.with_session (t_session_value t) (t_session_cookie_name t)
       (t_base_cookies t))
    (t_timeout t) (t_allow_redirects t) (t_verify_tls t) (t_proxies t)
    (t_data t) (t_json t)
    (t_backoff_base_ms t) (t_delay_between_ms t) (t_save_dir t) (t_save_body t).

(** [http_runner_stdlib.py]: the same. *)
Definition urllib_perform (env : Env) (t : urllib_target) : M Outcome :=
  HttpRunnerStdlib.perform_request_with_retries env (t_name t) (t_url t)
    (t_method t) (t_params t) (t_base_headers t) (t_base_cookies t)
    (t_session_value t) (t_session_header_name t) (t_session_cookie_name t)
    (t_timeout t) (t_allow_redirects t) (t_verify_tls t) (t_proxies t)
    (t_data t) (t_json t)
    (t_retries t) (t_backoff_base_ms t) (t_delay_between_ms t)
    (t_save_dir t) (t_save_body t).

Definition urllib_request (l : Lib) (t : urllib_target) : urlopen_call :=
  HttpRunnerStdlib.request_of l (t_url t) (t_method t) (t_params t)
    (HttpRunnerStdlib.with_session (t_session_value t) (t_session_header_name t)
       (t_base_headers t))
    (HttpRunnerStdlib.with_session (t_session_value t) (t_session_cookie_name t)
       (t_base_cookies t))
    (t_timeout t) (t_allow_redirects t) (t_verify_tls t) (t_proxies t)
    (t_data t) (t_json t).

Definition urllib_attempt (env : Env) (t : urllib_target) : Z -> M Outcome :=
  HttpRunnerStdlib.attempt_once env (t_name t) (t_url t) (t_method t)
    (t_params t)
    (HttpRunnerStdlib.with_session (t_session_value t) (t_session_header_name t)
       (t_base_headers t))
    (HttpRunnerStdlib.with_session (t_session_value t) (t_session_cookie_name t)
       (t_base_cookies t))
    (t_timeout t) (t_allow_redirects t) (t_verify_tls t) (t_proxies t)
    (t_data t) (t_json t)
    (t_backoff_base_ms t) (t_delay_between_ms t) (t_save_dir t) (t_save_body t).

(** The response a reply of the transport carries, if it is one. *)
Definition requests_response (r : requests_reply) : option (response * float) :=
  match r with
  | Replied resp elapsed_ms => Some (resp, elapsed_ms)
  | RequestFailed _ => None
  end.

Definition urllib_response (r : urlopen_reply)
    : option (Z * list (string * string) * bytes * float) :=
  match r with
  | Opened resp elapsed_ms =>
      Some (resp_status resp, resp_headers resp, resp_content resp, elapsed_ms)
  | HTTPError code hdrs body elapsed_ms =>
      Some (code, hdrs, default [] body, elapsed_ms)
  | URLError _ | OpenFailed _ => None
  end.

(** The directory results are saved to, when saving is asked for. *)
Definition saving (save_dir : option string) : option string :=
  match save_dir with
  | Some dir => if truthy_str dir then Some dir else None
  | None => None
  end.

Definition present {A} (o : option A) : bool :=
  match o with Some _ => true | None => false end.

Definition meta_path (dir file_base : string) : string :=
  path_join dir (file_base +:+ ".meta.json").

Definition body_path (dir file_base : string) : string :=
  path_join dir (file_base +:+ ".body").

(** The operating system refuses one of the writes of [save_record]: the
    directory, the meta file, or the body file when bodies are saved. *)
Definition save_refused (dn : string -> option string)
    (dir file_base : string) (save_body : bool) : bool :=
  present (dn dir) || present (dn (meta_path dir file_base))
  || save_body && present (dn (body_path dir file_base)).

(** All the writes of [save_record] go through: the directory is not a
    regular file and nothing is refused. *)
Definition save_accepted (w : world) (dir file_base : string)
    (save_body : bool) : bool :=
  negb (present (files w !! dir)) && negb (present (denied w dir))
  && negb (present (denied w (meta_path dir file_base)))
  && (negb save_body || negb (present (denied w (body_path dir file_base)))).

(** Saving is not asked for, or all its writes go through. *)
Definition save_harmless (w : world) (save_dir : option string)
    (file_base : string) (save_body : bool) : bool :=
  match saving save_dir with
  | Some dir => save_accepted w dir file_base save_body
  | None => true
  end.

(** The error [parse_body] raises when both body sources are given. *)
Definition both_sources_error : exn :=
  Exn ValueError "Provide either --json or --data, not both".

(** The pairs, cookies and headers of the command line are well formed. *)
Definition pairs_well_formed (args : Args) : bool :=
  match HttpRunner.parse_key_value_pairs (entries (param args)) "=",
        HttpRunner.parse_key_value_pairs (entries (cookie args)) "=",
        HttpRunner.parse_header_pairs (entries (header args)) with
  | Ok _, Ok _, Ok _ => true
  | _, _, _ => false
  end.

(** What [main] makes of the run. *)
Definition exit_of_run (r : res (list Outcome) * world) : res Z * world :=
  match r with
  | (Ok _, w1) => (Ok 0, w1)
  | (Raise e, w1) =>
      match exn_cls e with
      | KeyboardInterrupt => (Ok 130, log_event (EvPrint "Interrupted") w1)
      | SystemExit | Diverged => (Raise e, w1)
      | _ => (Ok 1, log_event (EvPrint ("ERROR: " +:+ exn_str e)) w1)
      end
  end.

(** A text without line feed and carriage return: read back, it is one
    line. *)
Definition line_char (c : ascii) : bool :=
  negb ((code c =? 10)%N || (code c =? 13)%N).

Definition one_line (s : string) : bool := forallb line_char (chars s).

(** The record a future stands for, as the loop over [as_completed]
    takes it: what the task returned, or the failure record made of the
    exception it raised. *)
Definition resolve (completed : res Outcome * string) : Outcome :=
  match completed with
  | (Ok r, _) => r
  | (Raise exc, name) => Failure name (exn_str exc)
  end.

(** The two shapes of a record in the output. *)
Definition member_is (key : string) (kind : Json.json -> bool)
    (m : string * Json.json) : bool :=
  String.eqb (fst m) key && kind (snd m).

Definition is_str (j : Json.json) : bool :=
  match j with JStr _ => true | _ => false end.
Definition is_int (j : Json.json) : bool :=
  match j with JInt _ => true | _ => false end.
Definition is_float (j : Json.json) : bool :=
  match j with JFloat _ => true | _ => false end.
Definition is_str_object (j : Json.json) : bool :=
  match j with
  | JObj members => forallb (fun m => is_str (snd m)) members
  | _ => false
  end.

Definition success_shape (j : Json.json) : bool :=
  match j with
  | JObj [a; b; c; d] =>
      member_is "name" is_str a && member_is "status" is_int b
      && member_is "elapsed_ms" is_float c
      && member_is "response_headers" is_str_object d
  | _ => false
  end.

Definition failure_shape (j : Json.json) : bool :=
  match j with
  | JObj [a; b] => member_is "name" is_str a && member_is "error" is_str b
  | _ => false
  end.

Definition outcome_name_list (l : list Outcome) : list string :=
  map outcome_name l.

(** A computation that logs nothing but events with the property [Q],
    however it ends. *)
Definition logs_only (Q : event -> Prop) {A} (m : M A) : Prop :=
  forall w r w', m w = (r, w') ->
    exists evs, log w' = log w ++ evs /\ List.Forall Q evs.

(** The property of an event that it is no request, or a request with
    the property [C]. *)
Definition calls_are (C : net_call -> Prop) (ev : event) : Prop :=
  match ev with
  | EvCall c => C c
  | _ => True
  end.

(** The body a request of [http_runner_stdlib.py] has to carry, given
    what [parse_body] returned. *)
Definition body_bytes (data_bytes json_bytes : option bytes) : option bytes :=
  match json_bytes with
  | Some b => Some b
  | None => data_bytes
  end.

(** A computation that leaves the world as it is. *)
Definition reads_only {A} (m : M A) : Prop :=
  forall w r w', m w = (r, w') -> w' = w.

(** A computation that raises nothing but [Exception]s. *)
Definition raises_Exceptions {A} (m : M A) : Prop :=
  forall w e w', m w = (Raise e, w') -> is_Exception e = true.

(** [time.sleep] accepts the delay, when it is one that is slept. *)
Definition sleep_accepted (l : Lib) (d : Z) : bool :=
  negb (0 <? d) || negb (present (sleep_error l d)).

(** [time.sleep] accepts every delay of the attempts number 0 to
    [n - 1]: the backoff of each and the pacing delay. *)
Definition sleeps_accepted (l : Lib) (backoff_base_ms delay_between_ms : Z)
    (n : nat) : bool :=
  forallb (fun i => sleep_accepted l (backoff_delay backoff_base_ms i)
                    && sleep_accepted l delay_between_ms)
          (seq 0 n).

(** The request of the target is built: [urlrequest.Request] accepts
    its URL (and [urlsplit] the URL it is given, when there are
    parameters to attach). *)
Definition request_built (l : Lib) (t : urllib_target) : bool :=
  negb (present (request_error l (t_url t) (t_params t))).

(** The transports raise nothing but [Exception]s: what a worker thread
    can get from them. *)
Definition requests_raises_Exceptions (env : Env) : Prop :=
  forall k c e, requests_net env k c = RequestFailed e -> is_Exception e = true.

Definition urllib_raises_Exceptions (env : Env) : Prop :=
  forall k c e, urllib_net env k c = OpenFailed e -> is_Exception e = true.

End Spec.

(* ===================================================================== *)
(** * Concrete runs *)
(* ===================================================================== *)

Module Sample.
Import Py Json World Common Spec.

Definition seconds_30 : float := Float "30.0" eq_refl.
Definition ms_12_5 : float := Float "12.5" eq_refl.

(** [str.upper] and [str.lower] on the ASCII letters. *)
Definition is_upper (c : ascii) : bool := ((65 <=? code c) && (code c <=? 90))%N.
Definition is_lower (c : ascii) : bool := ((97 <=? code c) && (code c <=? 122))%N.
Definition to_upper (c : ascii) : ascii :=
  if is_lower c then ascii_of_N (code c - 32) else c.
Definition to_lower (c : ascii) : ascii :=
  if is_upper c then ascii_of_N (code c + 32) else c.

(** [str.title] on ASCII text: a letter is upper case when it follows
    no letter, lower case otherwise. *)
Fixpoint title_from (after_letter : bool) (s : string) : string :=
  match s with
  | EmptyString => EmptyString
  | String c s' =>
      if is_upper c || is_lower c
      then String (if after_letter then to_lower c else to_upper c)
                  (title_from true s')
      else String c (title_from false s')
  end.

(** [str.capitalize] on ASCII text. *)
Definition capitalize_ascii (s : string) : string :=
  match s with
  | EmptyString => EmptyString
  | String c s' => String (to_upper c) (str (map to_lower (chars s')))
  end.

(** A library whose JSON parser knows two documents, whose clock takes
    delays up to 2^63 ns, and which builds a request for a URL with a
    colon. *)
Definition lib : Lib := {|
  json_loads := fun text =>
    if String.eqb text "{}" then inr (JObj [])
    else if String.eqb text "[1]" then inr (JArr [JInt 1])
    else inl "Expecting value: line 1 column 1 (char 0)";
  round2 := fun x => x;
  url_query := fun _ => "";
  parse_qsl := fun _ => [];
  urlencode := fun d => join "&" (map (fun kv => fst kv +:+ "=" +:+ snd kv) d);
  url_replace_query := fun u q => u +:+ "?" +:+ q;
  title := title_from false;
  capitalize := capitalize_ascii;
  sleep_error := fun ms =>
    if 9223372036854 <? ms
    then Some "timestamp too large to convert to C _PyTime_t"
    else None;
  request_error := fun u params =>
    if contains ":" u then None
    else Some ("unknown url type: '"
               +:+ match params with
                   | [] => u
                   | _ => u +:+ "?"
                          +:+ join "&" (map (fun kv => fst kv +:+ "=" +:+ snd kv)
                                            params)
                   end
               +:+ "'");
  holds_directory := fun path d =>
    String.eqb path d || startswith (path +:+ "/") d
|}.

Definition the_response (status : Z) : response :=
  Response status [("Content-Length", "0")] [].

(** Every request times out. *)
Definition env_timeout : Env := {|
  Common.lib := lib;
  requests_net := fun k _ =>
    RequestFailed (Exn RequestException
                     ("Read timed out. (call " +:+ str_of_int (Z.of_nat k) +:+ ")"));
  urllib_net := fun k _ =>
    URLError ("<urlopen error timed out> (call " +:+ str_of_int (Z.of_nat k) +:+ ")");
  pick := fun _ => 0%nat;
  interrupt_at := None
|}.

(** Every request is answered with the given status; the [urllib] opener
    raises [HTTPError] for it. *)
Definition env_status (status : Z) : Env := {|
  Common.lib := lib;
  requests_net := fun _ _ => Replied (the_response status) ms_12_5;
  urllib_net := fun _ _ => HTTPError status [("Content-Length", "0")] (Some []) ms_12_5;
  pick := fun _ => 0%nat;
  interrupt_at := None
|}.

(** The first request of a run times out and every later one is
    answered with 503. *)
Definition env_flaky : Env := {|
  Common.lib := lib;
  requests_net := fun k _ =>
    match k with
    | O => RequestFailed (Exn RequestException "Read timed out.")
    | S _ => Replied (the_response 503) ms_12_5
    end;
  urllib_net := fun k _ =>
    match k with
    | O => URLError "<urlopen error timed out>"
    | S _ => HTTPError 503 [("Content-Length", "0")] (Some []) ms_12_5
    end;
  pick := fun _ => 0%nat;
  interrupt_at := None
|}.

(** The same, and the main thread is interrupted while it waits for the
    first completion. *)
Definition env_interrupted : Env := {|
  Common.lib := lib;
  requests_net := fun _ _ => Replied (the_response 200) ms_12_5;
  urllib_net := fun _ _ => Opened (the_response 200) ms_12_5;
  pick := fun _ => 0%nat;
  interrupt_at := Some 0%nat
|}.

(** [--url http://host/ --retries 2 --backoff-ms 100 --delay-ms 0] *)
Definition args : Args := {|
  url := "http://host/"; method := "GET";
  param := None; cookie := None; header := None;
  session_file := None; session_header_name := None;
  session_cookie_name := None; name := None;
  json := None; data := None;
  timeout := seconds_30; proxy := None;
  no_verify := false; follow_redirects := false;
  concurrency := 10; retries := 2; backoff_ms := 100; delay_ms := 0;
  output := None; save_dir := None; save_body := false
|}.

Definition with_output (path : string) (a : Args) : Args := {|
  url := url a; method := method a; param := param a; cookie := cookie a;
  header := header a; session_file := session_file a;
  session_header_name := session_header_name a;
  session_cookie_name := session_cookie_name a; name := name a;
  json := json a; data := data a; timeout := timeout a; proxy := proxy a;
  no_verify := no_verify a; follow_redirects := follow_redirects a;
  concurrency := concurrency a; retries := retries a;
  backoff_ms := backoff_ms a; delay_ms := delay_ms a;
  output := Some path; save_dir := save_dir a; save_body := save_body a
|}.

Definition with_save_dir (dir : string) (a : Args) : Args := {|
  url := url a; method := method a; param := param a; cookie := cookie a;
  header := header a; session_file := session_file a;
  session_header_name := session_header_name a;
  session_cookie_name := session_cookie_name a; name := name a;
  json := json a; data := data a; timeout := timeout a; proxy := proxy a;
  no_verify := no_verify a; follow_redirects := follow_redirects a;
  concurrency := concurrency a; retries := retries a;
  backoff_ms := backoff_ms a; delay_ms := delay_ms a;
  output := output a; save_dir := Some dir; save_body := save_body a
|}.

Definition with_bodies (j d : option string) (a : Args) : Args := {|
  url := url a; method := method a; param := param a; cookie := cookie a;
  header := header a; session_file := session_file a;
  session_header_name := session_header_name a;
  session_cookie_name := session_cookie_name a; name := name a;
  json := j; data := d; timeout := timeout a; proxy := proxy a;
  no_verify := no_verify a; follow_redirects := follow_redirects a;
  concurrency := concurrency a; retries := retries a;
  backoff_ms := backoff_ms a; delay_ms := delay_ms a;
  output := output a; save_dir := save_dir a; save_body := save_body a
|}.

Definition with_session_file (path : string) (a : Args) : Args := {|
  url := url a; method := method a; param := param a; cookie := cookie a;
  header := header a; session_file := Some path;
  session_header_name := Some "Authorization";
  session_cookie_name := session_cookie_name a; name := name a;
  json := json a; data := data a; timeout := timeout a; proxy := proxy a;
  no_verify := no_verify a; follow_redirects := follow_redirects a;
  concurrency := concurrency a; retries := retries a;
  backoff_ms := backoff_ms a; delay_ms := delay_ms a;
  output := output a; save_dir := save_dir a; save_body := save_body a
|}.

(** The target [main] makes of [a] when there is no session file. *)
Definition requests_target_of (a : Args) (j : Json.json) : requests_target :=
  Target "request" (url a) (method a) [] [] [] None
    (session_header_name a) (session_cookie_name a)
    (timeout a) (follow_redirects a) (negb (no_verify a)) None
    (data a) j (retries a) (backoff_ms a) (delay_ms a)
    (save_dir a) (save_body a).

Definition urllib_target_of (a : Args) (j : option bytes) : urllib_target :=
  Target "request" (url a) (method a) [] [] [] None
    (session_header_name a) (session_cookie_name a)
    (timeout a) (follow_redirects a) (negb (no_verify a)) None
    (option_map encode_utf8 (data a)) j
    (retries a) (backoff_ms a) (delay_ms a)
    (save_dir a) (save_body a).

(** An empty disk that accepts every write; one that refuses everything
    below [out/]; one with a session file of three tokens. *)
Definition disk_empty : world := World ∅ (fun _ => None) [].

Definition disk_read_only : world :=
  World ∅ (fun path => if startswith "out" path
                       then Some ("[Errno 13] Permission denied: '" +:+ path +:+ "'")
                       else None) [].

Definition disk_sessions : world :=
  World {[ "sessions.txt" :=
             encode_utf8 ("alice" +:+ newline +:+ newline +:+ "  bob " +:+ newline
                          +:+ "../../etc/passwd") ]}
        (fun _ => None) [].

(** The single target of [args] with results saved under [out/]. *)
Definition saved_requests_target : requests_target :=
  requests_target_of (with_save_dir "out" args) JNull.

Definition saved_urllib_target : urllib_target :=
  urllib_target_of (with_save_dir "out" args) None.

Definition with_params (l : list string) (a : Args) : Args := {|
  url := url a; method := method a; param := Some l; cookie := cookie a;
  header := header a; session_file := session_file a;
  session_header_name := session_header_name a;
  session_cookie_name := session_cookie_name a; name := name a;
  json := json a; data := data a; timeout := timeout a; proxy := proxy a;
  no_verify := no_verify a; follow_redirects := follow_redirects a;
  concurrency := concurrency a; retries := retries a;
  backoff_ms := backoff_ms a; delay_ms := delay_ms a;
  output := output a; save_dir := save_dir a; save_body := save_body a
|}.

(** Every request is answered with 200, and the last target submitted
    completes first. *)
Definition env_reordered : Env := {|
  Common.lib := lib;
  requests_net := fun _ _ => Replied (the_response 200) ms_12_5;
  urllib_net := fun _ _ => Opened (the_response 200) ms_12_5;
  pick := fun _ => 2%nat;
  interrupt_at := None
|}.

(** Three targets from the session file, results written to
    [out.jsonl]. *)
Definition args_sessions : Args :=
  with_output "out.jsonl" (with_session_file "sessions.txt" args).

(** [--json "[1]"]: an inline JSON body. *)
Definition args_json : Args := with_bodies (Some "[1]") None args.

End Sample.

(* ===================================================================== *)
(** * Further notions *)
(* ===================================================================== *)

Module Further.
Import Py Json World World.Notations Common Spec.

(** A computation whose returned value, when it returns, has the
    property [P]. *)
Definition returns_only {A} (P : A -> Prop) (m : M A) : Prop :=
  forall w a w', m w = (Ok a, w') -> P a.

(** A computation that takes the world to one related to it by [R],
    however it ends. *)
Definition steps (R : world -> world -> Prop) {A} (m : M A) : Prop :=
  forall w r w', m w = (r, w') -> R w w'.

(** As many requests were made in the two worlds. *)
Definition same_calls (w w' : world) : Prop :=
  calls_made (log w') = calls_made (log w).

(** The operating system refuses the same paths in the two worlds. *)
Definition same_refusals (w w' : world) : Prop := denied w' = denied w.

(** The files of the two worlds differ at most at [paths], and the same
    paths are refused. *)
Definition writes_within (paths : list string) (w w' : world) : Prop :=
  denied w' = denied w
  /\ forall p, ~ In p paths -> files w' !! p = files w !! p.

(** The files [perform_request_with_retries] may write for a target. *)
Definition save_paths (save_dir : option string) (name : string)
    (save_body : bool) : list string :=
  match saving save_dir with
  | Some dir =>
      meta_path dir (HttpRunner.safe_filename name)
      :: (if save_body then [body_path dir (HttpRunner.safe_filename name)]
          else [])
  | None => []
  end.

(** After its first [k] attempts have failed at the transport, the
    world is the one of the start with the sleeps and requests of these
    attempts logged. *)
Definition after_attempts (w : world) (b d : Z) (c : net_call) (a : Z)
    (w1 : world) : Prop :=
  w1 = World (files w) (denied w) (log w ++ attempts_log b d c (Z.to_nat a)).

(** What a reply of the opener makes [build_and_send_request] raise: the
    [RuntimeError] made of a [URLError], or the exception itself. *)
Definition urllib_failure (r : urlopen_reply) : option exn :=
  match r with
  | URLError text => Some (Exn RuntimeError text)
  | OpenFailed e => Some e
  | Opened _ _ | HTTPError _ _ _ _ => None
  end.

(** The dictionary [sent] holds [v] at [n] and is [base] elsewhere. *)
Definition carries (n v : string) (base sent : dict string) : Prop :=
  dict_get n sent = Some v
  /\ forall k, k <> n -> dict_get k sent = dict_get k base.





(** The target a run makes of a token of the session file. *)
Definition requests_session_target (token : string) (a : Args)
    : requests_target :=
  Target token (url a) (method a) [] [("Accept", "*/*")] [] (Some token)
    (session_header_name a) (session_cookie_name a)
    (timeout a) (follow_redirects a) (negb (no_verify a)) None
    (data a) JNull (retries a) (backoff_ms a) (delay_ms a)
    (save_dir a) (save_body a).

Definition urllib_session_target (token : string) (a : Args)
    : urllib_target :=
  Target token (url a) (method a) [] [("Accept", "*/*")] [("lang", "en")]
    (Some token) (session_header_name a) (session_cookie_name a)
    (timeout a) (follow_redirects a) (negb (no_verify a)) None
    None None (retries a) (backoff_ms a) (delay_ms a)
    (save_dir a) (save_body a).

(** The target [run_concurrent_requests] of [http_runner.py] makes of a
    name and its session token: what it calls
    [perform_request_with_retries] with. *)
Definition requests_target_for (args : Args)
    (base_params base_headers base_cookies : dict string)
    (body : option string * Json.json) (target : string * option string)
    : requests_target :=
  Target (fst target) (url args) (method args) base_params base_headers
    base_cookies (snd target)
    (session_header_name args) (session_cookie_name args)
    (timeout args) (follow_redirects args) (negb (no_verify args))
    (HttpRunner.build_proxies args) (fst body) (snd body)
    (retries args) (backoff_ms args) (delay_ms args)
    (save_dir args) (save_body args).

(** [future_to_name] of [run_concurrent_requests] of [http_runner.py]:
    one task submitted for each target, in their order, its future kept
    with the name of the target. *)
Definition requests_submitted (env : Env) (args : Args)
    (base_params base_headers base_cookies : dict string)
    (body : option string * Json.json) (targets : list (string * option string))
    : M (list (res Outcome * string)) :=
  for_each targets (fun target =>
    future <- submit
      (requests_perform env
         (requests_target_for args base_params base_headers base_cookies
            body target)) ;;
    ret (future, fst target)).

(** A future and the name kept with it, for a target: the name is the
    one of the target, and so is the name in the record when the task
    returned one. *)
Definition future_of (target : string * option string)
    (fn : res Outcome * string) : Prop :=
  snd fn = fst target
  /\ forall r, fst fn = Ok r -> outcome_name r = fst target.

(** An item of a parsed dictionary: the key is not empty, and neither
    the key nor the value has white space around it. *)
Definition stripped_item (kv : string * string) : Prop :=
  fst kv <> "" /\ strip (fst kv) = fst kv /\ strip (snd kv) = snd kv.

(** What the entry [a<sep>b] adds to the dictionary built so far: [what]
    is [pair] or [header], [part] is [Key] or [Name]. *)
Definition add_entry (what part : string) (item a b : string)
    (d : dict string) : res (dict string) :=
  if String.eqb (strip a) ""
  then Raise (Exn ValueError
                ("Invalid " +:+ what +:+ " '" +:+ item +:+ "'. " +:+ part
                 +:+ " is empty"))
  else Ok (dict_set (strip a) (strip b) d).

(** Two characters that [safe_filename] does not tell apart. *)
Definition same_in_file_names (c1 c2 : ascii) : Prop :=
  c1 = c2 \/ (HttpRunner.keeps c1 = false /\ HttpRunner.keeps c2 = false).

(** The lines printed, oldest first. *)
Definition printed (l : list event) : list string :=
  flat_map (fun ev => match ev with EvPrint line => [line] | _ => [] end) l.

(** As much was printed in the two worlds. *)
Definition same_printed (w w' : world) : Prop :=
  printed (log w') = printed (log w).

(** The line the run prints for a record. *)
Definition report_line (o : Outcome) : string :=
  match o with
  | Failure n error => "[!] " +:+ n +:+ ": ERROR -> " +:+ error
  | Success n status elapsed_ms _ =>
      "[+] " +:+ n +:+ ": " +:+ str_of_int status +:+ " in "
      +:+ float_repr elapsed_ms +:+ "ms"
  end.

(** A text without carriage return: reading it in text mode, which
    turns the line ends CR and CR LF into LF, gives the text itself. *)
Definition no_carriage_return (s : string) : bool :=
  forallb (fun c => negb (code c =? 13)%N) (chars s).

(** The same target, with the bodies saved. *)
Definition with_saved_bodies {D J} (t : target D J) : target D J :=
  Target (t_name t) (t_url t) (t_method t) (t_params t) (t_base_headers t)
    (t_base_cookies t) (t_session_value t) (t_session_header_name t)
    (t_session_cookie_name t) (t_timeout t) (t_allow_redirects t)
    (t_verify_tls t) (t_proxies t) (t_data t) (t_json t) (t_retries t)
    (t_backoff_base_ms t) (t_delay_between_ms t) (t_save_dir t) true.

(** [--retries n] *)
Definition with_retries (n : Z) (a : Args) : Args := {|
  url := url a; method := method a; param := param a; cookie := cookie a;
  header := header a; session_file := session_file a;
  session_header_name := session_header_name a;
  session_cookie_name := session_cookie_name a; name := name a;
  json := json a; data := data a; timeout := timeout a; proxy := proxy a;
  no_verify := no_verify a; follow_redirects := follow_redirects a;
  concurrency := concurrency a; retries := n;
  backoff_ms := backoff_ms a; delay_ms := delay_ms a;
  output := output a; save_dir := save_dir a; save_body := save_body a
|}.

(** [a] with [--backoff-ms] and [--delay-ms] set. *)
Definition with_delays (backoff delay : Z) (a : Args) : Args := {|
  url := url a; method := method a; param := param a; cookie := cookie a;
  header := header a; session_file := session_file a;
  session_header_name := session_header_name a;
  session_cookie_name := session_cookie_name a; name := name a;
  json := json a; data := data a; timeout := timeout a; proxy := proxy a;
  no_verify := no_verify a; follow_redirects := follow_redirects a;
  concurrency := concurrency a; retries := retries a;
  backoff_ms := backoff; delay_ms := delay;
  output := output a; save_dir := save_dir a; save_body := save_body a
|}.

(** [a] with [--session-cookie-name] set. *)
Definition with_session_cookie (n : string) (a : Args) : Args := {|
  url := url a; method := method a; param := param a; cookie := cookie a;
  header := header a; session_file := session_file a;
  session_header_name := session_header_name a;
  session_cookie_name := Some n; name := name a;
  json := json a; data := data a; timeout := timeout a; proxy := proxy a;
  no_verify := no_verify a; follow_redirects := follow_redirects a;
  concurrency := concurrency a; retries := retries a;
  backoff_ms := backoff_ms a; delay_ms := delay_ms a;
  output := output a; save_dir := save_dir a; save_body := save_body a
|}.

(** [a] with [--session-header-name] set. *)
Definition with_session_header (n : string) (a : Args) : Args := {|
  url := url a; method := method a; param := param a; cookie := cookie a;
  header := header a; session_file := session_file a;
  session_header_name := Some n;
  session_cookie_name := session_cookie_name a; name := name a;
  json := json a; data := data a; timeout := timeout a; proxy := proxy a;
  no_verify := no_verify a; follow_redirects := follow_redirects a;
  concurrency := concurrency a; retries := retries a;
  backoff_ms := backoff_ms a; delay_ms := delay_ms a;
  output := output a; save_dir := save_dir a; save_body := save_body a
|}.

(** [a] with [--url] set. *)
Definition with_url (u : string) (a : Args) : Args := {|
  url := u; method := method a; param := param a; cookie := cookie a;
  header := header a; session_file := session_file a;
  session_header_name := session_header_name a;
  session_cookie_name := session_cookie_name a; name := name a;
  json := json a; data := data a; timeout := timeout a; proxy := proxy a;
  no_verify := no_verify a; follow_redirects := follow_redirects a;
  concurrency := concurrency a; retries := retries a;
  backoff_ms := backoff_ms a; delay_ms := delay_ms a;
  output := output a; save_dir := save_dir a; save_body := save_body a
|}.

End Further.

(* ===================================================================== *)
(** * Facts about the effects *)
(* ===================================================================== *)

Import Py Json World World.Notations Common.

Lemma bind_Ok {A B} (m : M A) (k : A -> M B) w a w1 :
  m w = (Ok a, w1) -> bind m k w = k a w1.
Proof. intros H. unfold bind. now rewrite H. Qed.

Lemma bind_Raise {A B} (m : M A) (k : A -> M B) w e w1 :
  m w = (Raise e, w1) -> bind m k w = (Raise e, w1).
Proof. intros H. unfold bind. now rewrite H. Qed.

(** A computation that returned went through both halves of a [bind]. *)
Lemma bind_Ok_inv {A B} (m : M A) (k : A -> M B) w b w2 :
  bind m k w = (Ok b, w2) ->
  exists a w1, m w = (Ok a, w1) /\ k a w1 = (Ok b, w2).
Proof.
  unfold bind. destruct (m w) as [[a | e] w1]; intros H.
  - eauto.
  - discriminate.
Qed.

Lemma calls_made_app l1 l2 :
  calls_made (l1 ++ l2) = (calls_made l1 + calls_made l2)%nat.
Proof. unfold calls_made. now rewrite List.filter_app, List.length_app. Qed.

(** ** The retry loop *)

(** When the guard is false the loop is left at once. *)
Lemma retry_while_exit {A} fuel retries (body : Z -> M A) otherwise a last :
  retries < a ->
  retry_while fuel retries body otherwise a last = otherwise last.
Proof.
  intros H. destruct fuel; simpl;
    destruct (Z.leb_spec a retries); try lia; reflexivity.
Qed.

(** An attempt that returns ends the loop with what it returned. *)
Lemma retry_while_return {A} fuel retries (body : Z -> M A) otherwise a last
    w r w1 :
  a <= retries -> body a w = (Ok r, w1) ->
  retry_while (S fuel) retries body otherwise a last w = (Ok r, w1).
Proof.
  intros Ha Hb. simpl. destruct (Z.leb_spec a retries); [| lia].
  unfold try_except. now rewrite Hb.
Qed.

(** An attempt that raises an [Exception] is followed by the next one. *)
Lemma retry_while_again {A} fuel retries (body : Z -> M A) otherwise a last
    w e w1 :
  a <= retries -> body a w = (Raise e, w1) -> is_Exception e = true ->
  retry_while (S fuel) retries body otherwise a last w
  = retry_while fuel retries body otherwise (a + 1) (Some e) w1.
Proof.
  intros Ha Hb He. simpl. destruct (Z.leb_spec a retries); [| lia].
  unfold try_except. now rewrite Hb, He.
Qed.

(** If every attempt raises an [Exception] and keeps an invariant [P] of
    the attempt number, the last exception and the world, the loop runs
    until the guard fails and hands the last exception over. *)
Lemma retry_while_all_raise {A} (P : Z -> option exn -> world -> Prop)
    retries (body : Z -> M A) otherwise :
  (forall a last w, 0 <= a <= retries -> P a last w ->
     exists e w1, body a w = (Raise e, w1) /\ is_Exception e = true
                  /\ P (a + 1) (Some e) w1) ->
  forall fuel a last w,
    0 <= a -> (Z.to_nat (retries + 1 - a) <= fuel)%nat -> P a last w ->
    exists last' w',
      retry_while fuel retries body otherwise a last w = otherwise last' w'
      /\ P (Z.max a (retries + 1)) last' w'.
Proof.
  intros Hbody fuel. induction fuel as [| fuel IH]; intros a last w Ha Hfuel HP.
  - exists last, w. rewrite retry_while_exit by lia.
    split; [reflexivity |]. now replace (Z.max a (retries + 1)) with a by lia.
  - destruct (Z.leb_spec a retries) as [Hle | Hgt].
    + destruct (Hbody a last w (conj Ha Hle) HP) as (e & w1 & Hb & He & HP1).
      rewrite (retry_while_again _ _ _ _ _ _ _ _ _ Hle Hb He).
      destruct (IH (a + 1) (Some e) w1) as (last' & w' & Hrun & HP'); try lia; auto.
      exists last', w'. split; [exact Hrun |].
      now replace (Z.max a (retries + 1)) with (Z.max (a + 1) (retries + 1)) by lia.
    + exists last, w. rewrite retry_while_exit by lia.
      split; [reflexivity |]. now replace (Z.max a (retries + 1)) with a by lia.
Qed.

(** If the attempts before number [k] raise [Exception]s and keep an
    invariant [P], and attempt [k] returns, the loop returns what
    attempt [k] returned. *)
Lemma retry_while_raise_then_return {A} (P : Z -> world -> Prop)
    (Q : A -> world -> Prop) retries (body : Z -> M A) otherwise k :
  0 <= k <= retries ->
  (forall a w, 0 <= a < k -> P a w ->
     exists e w1, body a w = (Raise e, w1) /\ is_Exception e = true
                  /\ P (a + 1) w1) ->
  (forall w, P k w -> exists r w1, body k w = (Ok r, w1) /\ Q r w1) ->
  forall fuel a last w,
    0 <= a <= k -> (Z.to_nat (k + 1 - a) <= fuel)%nat -> P a w ->
    exists r w',
      retry_while fuel retries body otherwise a last w = (Ok r, w') /\ Q r w'.
Proof.
  intros Hk Hraise Hreturn fuel.
  induction fuel as [| fuel IH]; intros a last w Ha Hfuel HP; [lia |].
  destruct (Z.eq_dec a k) as [-> | Hne].
  - destruct (Hreturn w HP) as (r & w1 & Hb & HQ).
    exists r, w1. split; [| exact HQ].
    apply retry_while_return; [lia | exact Hb].
  - destruct (Hraise a w) as (e & w1 & Hb & He & HP1); [lia | exact HP |].
    assert (Hle : a <= retries) by lia.
    rewrite (retry_while_again _ _ _ _ _ _ _ _ _ Hle Hb He).
    apply IH; [lia | lia | exact HP1].
Qed.

(* ===================================================================== *)
(** * The retry loop when the transport always fails *)
(* ===================================================================== *)

Import Spec Further.

Lemma calls_made_sleeps delays : calls_made (sleeps delays) = 0%nat.
Proof.
  unfold sleeps, calls_made.
  induction (List.filter (fun d => 0 <? d) delays) as [| d l IH]; simpl; auto.
Qed.

Lemma calls_made_attempts_log b d c n :
  calls_made (attempts_log b d c n) = n.
Proof.
  unfold attempts_log. generalize 0%nat as k.
  induction n as [| n IH]; intros k; simpl; [reflexivity |].
  rewrite calls_made_app, IH. unfold attempt_events.
  rewrite calls_made_app, calls_made_sleeps. reflexivity.
Qed.

Lemma attempts_log_S b d c n :
  attempts_log b d c (S n) = attempts_log b d c n ++ attempt_events b d c n.
Proof.
  unfold attempts_log. rewrite seq_S, flat_map_app. simpl.
  now rewrite app_nil_r.
Qed.

(** The two guarded sleeps of an attempt are the positive ones among the
    backoff and the pacing delay. *)
Lemma backoff_delay_pos b a :
  0 <= a ->
  (0 <? backoff_delay b (Z.to_nat a)) = (0 <? a) && (0 <? b).
Proof.
  intros Ha. unfold backoff_delay. destruct (Z.to_nat a) as [| j] eqn:Ej.
  - assert (a = 0) by lia. subst a. reflexivity.
  - assert (0 < a) by lia.
    assert (0 < 2 ^ Z.of_nat j) by (apply Z.pow_pos_nonneg; lia).
    destruct (Z.ltb_spec 0 a); [| lia].
    destruct (Z.ltb_spec 0 b); destruct (Z.ltb_spec 0 (b * 2 ^ Z.of_nat j));
      simpl; try reflexivity; nia.
Qed.

Lemma backoff_delay_retry b a :
  0 < a -> backoff_delay b (Z.to_nat a) = b * 2 ^ (a - 1).
Proof.
  intros H. unfold backoff_delay. destruct (Z.to_nat a) as [| j] eqn:Ej; [lia |].
  do 2 f_equal. lia.
Qed.

(** A sleep that [time.sleep] accepts is logged; one it refuses raises
    [OverflowError] and nothing is logged. *)
Lemma sleep_ms_accepted l ms :
  (0 <? ms) = true -> sleep_accepted l ms = true ->
  sleep_ms l ms = emit (EvSleep ms).
Proof.
  unfold sleep_accepted, sleep_ms. intros ->. cbn [negb orb].
  now destruct (sleep_error l ms).
Qed.

Lemma sleeps_accepted_at l b d n i :
  sleeps_accepted l b d n = true -> (i < n)%nat ->
  sleep_accepted l (backoff_delay b i) = true /\ sleep_accepted l d = true.
Proof.
  unfold sleeps_accepted. intros H Hi.
  rewrite forallb_forall in H. apply andb_prop. apply H. apply in_seq. lia.
Qed.

Lemma guarded_sleeps {A} l b d a (k : M A) w :
  0 <= a ->
  sleep_accepted l (backoff_delay b (Z.to_nat a)) = true ->
  sleep_accepted l d = true ->
  (when ((0 <? a) && (0 <? b)) (sleep_ms l (b * 2 ^ (a - 1))) ;;
   when (0 <? d) (sleep_ms l d) ;;
   k) w
  = k (World (files w) (denied w)
             (log w ++ sleeps [backoff_delay b (Z.to_nat a); d])).
Proof.
  intros Ha Hb Hd. unfold sleeps. cbn [List.filter map].
  pose proof (backoff_delay_pos b a Ha) as Hpos.
  destruct w as [fs dn lg].
  destruct ((0 <? a) && (0 <? b)) eqn:E1; rewrite Hpos.
  - pose proof (sleep_ms_accepted l _ Hpos Hb) as Hs.
    apply andb_prop in E1 as [E1 _]. apply Z.ltb_lt in E1.
    rewrite (backoff_delay_retry b a E1) in *. rewrite Hs.
    destruct (0 <? d) eqn:E2; [rewrite (sleep_ms_accepted l d E2 Hd) |];
      unfold bind, when, emit, ret, log_event;
      cbn; rewrite <- ?app_assoc; reflexivity.
  - destruct (0 <? d) eqn:E2; [rewrite (sleep_ms_accepted l d E2 Hd) |];
      unfold bind, when, emit, ret, log_event;
      cbn; rewrite ?app_nil_r; reflexivity.
Qed.

(** An attempt whose request fails raises the failure, having logged its
    sleeps and its request, and nothing else. *)
Lemma requests_attempt_failed env (t : requests_target) a w e :
  0 <= a ->
  sleep_accepted (lib env) (backoff_delay (t_backoff_base_ms t) (Z.to_nat a))
  = true ->
  sleep_accepted (lib env) (t_delay_between_ms t) = true ->
  requests_net env (calls_made (log w)) (requests_request t) = RequestFailed e ->
  requests_attempt env t a w
  = (Raise e,
     World (files w) (denied w)
       (log w ++ attempt_events (t_backoff_base_ms t) (t_delay_between_ms t)
                   (ViaRequests (requests_request t)) (Z.to_nat a))).
Proof.
  intros Ha Hb Hd Hnet. unfold requests_attempt, HttpRunner.attempt_once.
  rewrite guarded_sleeps by assumption.
  unfold bind at 1. unfold HttpRunner.build_request. cbn [log].
  rewrite calls_made_app, calls_made_sleeps, Nat.add_0_r.
  fold (requests_request t). rewrite Hnet. unfold log_event, attempt_events. cbn.
  now rewrite <- app_assoc.
Qed.

(** C1.  [perform_request_with_retries] of [http_runner.py], for a target
    whose request fails with an [Exception] at every attempt, with
    [retries >= 0], and whose sleeps [time.sleep] accepts (the pacing
    delay and the backoff delays of the attempts 0 to [retries], each
    either not positive, hence not slept, or a delay for which
    [time.sleep] raises no [OverflowError]): it returns the failure record
    [{name, error}] whose error is the text of the failure of the last
    attempt; it hands the request to the transport exactly [retries + 1]
    times; what it logs is, for the attempts number 0 to [retries] in
    turn, the backoff sleep of [backoff_base_ms * 2^(i-1)] ms (before
    retry [i >= 1] only), the pacing sleep of [delay_between_ms] ms
    (before every attempt when it is positive), then the request; and it
    writes no file. *)
Theorem perform_all_attempts_fail env (t : requests_target) w :
  0 <= t_retries t ->
  sleeps_accepted (lib env) (t_backoff_base_ms t) (t_delay_between_ms t)
    (Z.to_nat (t_retries t) + 1) = true ->
  (forall k, exists e,
      requests_net env k (requests_request t) = RequestFailed e
      /\ is_Exception e = true) ->
  exists e_last w',
    requests_perform env t w = (Ok (Failure (t_name t) (exn_str e_last)), w')
    /\ requests_net env (calls_made (log w) + Z.to_nat (t_retries t))
         (requests_request t) = RequestFailed e_last
    /\ log w' = log w ++ attempts_log (t_backoff_base_ms t) (t_delay_between_ms t)
                           (ViaRequests (requests_request t))
                           (Z.to_nat (t_retries t) + 1)
    /\ calls_made (log w') = (calls_made (log w) + (Z.to_nat (t_retries t) + 1))%nat
    /\ files w' = files w.
Proof.
  intros Hretries Hsleeps Hfail.
  set (b := t_backoff_base_ms t). set (d := t_delay_between_ms t).
  set (c := ViaRequests (requests_request t)).
  pose (P := fun (a : Z) (last : option exn) (w1 : world) =>
    log w1 = log w ++ attempts_log b d c (Z.to_nat a)
    /\ files w1 = files w
    /\ (0 < a -> exists e, last = Some e
          /\ requests_net env (calls_made (log w) + Z.to_nat (a - 1))
               (requests_request t) = RequestFailed e)).
  assert (Hstep : forall a last w1, 0 <= a <= t_retries t -> P a last w1 ->
            exists e w2, requests_attempt env t a w1 = (Raise e, w2)
                         /\ is_Exception e = true /\ P (a + 1) (Some e) w2).
  { intros a last w1 [Ha Ha'] (Hlog & Hfiles & _).
    assert (Hn : calls_made (log w1) = (calls_made (log w) + Z.to_nat a)%nat).
    { rewrite Hlog, calls_made_app. unfold b, d, c.
      now rewrite calls_made_attempts_log. }
    destruct (Hfail (calls_made (log w1))) as (e & Hnet & He).
    destruct (sleeps_accepted_at _ _ _ _ (Z.to_nat a) Hsleeps) as [Hb Hd];
      [lia |].
    exists e. eexists. split; [| split; [exact He |]].
    - apply requests_attempt_failed; [exact Ha | exact Hb | exact Hd | exact Hnet].
    - unfold P. cbn [log files]. split; [| split].
      + replace (Z.to_nat (a + 1)) with (S (Z.to_nat a)) by lia.
        rewrite attempts_log_S, Hlog, <- app_assoc. reflexivity.
      + exact Hfiles.
      + intros _. exists e. split; [reflexivity |].
        replace (a + 1 - 1) with a by lia. now rewrite <- Hn. }
  destruct (retry_while_all_raise P (t_retries t) (requests_attempt env t)
              (fun last_exc => ret (Failure (t_name t) (failure_message last_exc)))
              Hstep (retry_fuel (t_retries t)) 0 None w)
    as (last' & w' & Hrun & Hlog & Hfiles & Hlast).
  - lia.
  - unfold retry_fuel. lia.
  - unfold P. cbn. rewrite app_nil_r. split; [reflexivity | split; [reflexivity | lia]].
  - replace (Z.max 0 (t_retries t + 1)) with (t_retries t + 1) in * by lia.
    destruct Hlast as (e & -> & Hnet); [lia |].
    replace (t_retries t + 1 - 1) with (t_retries t) in Hnet by lia.
    replace (Z.to_nat (t_retries t + 1))
      with (Z.to_nat (t_retries t) + 1)%nat in Hlog by lia.
    exists e, w'. split; [exact Hrun |]. split; [exact Hnet |].
    split; [exact Hlog |]. split; [| exact Hfiles].
    rewrite Hlog, calls_made_app. unfold b, d, c.
    now rewrite calls_made_attempts_log.
Qed.

Lemma perform_all_attempts_fail_witness :
  exists e_last w',
    requests_perform Sample.env_timeout (Sample.requests_target_of Sample.args JNull)
      Sample.disk_empty
    = (Ok (Failure "request" (exn_str e_last)), w')
    /\ requests_net Sample.env_timeout 2
         (requests_request (Sample.requests_target_of Sample.args JNull))
       = RequestFailed e_last
    /\ log w' = attempts_log 100 0
                  (ViaRequests (requests_request
                                  (Sample.requests_target_of Sample.args JNull))) 3
    /\ calls_made (log w') = 3%nat
    /\ files w' = ∅.
Proof.
  apply (perform_all_attempts_fail Sample.env_timeout
           (Sample.requests_target_of Sample.args JNull) Sample.disk_empty).
  - simpl. lia.
  - reflexivity.
  - intros k. eexists. split; reflexivity.
Defined.

(** The run of the specification: retries 2, backoff 100 ms, no pacing
    delay, a transport that always times out.  Three requests, a sleep of
    100 ms before the second and of 200 ms before the third, and the
    text of the third failure in the record. *)
Example always_timing_out :
  let c := ViaRequests (requests_request
                          (Sample.requests_target_of Sample.args JNull)) in
  let r := requests_perform Sample.env_timeout
             (Sample.requests_target_of Sample.args JNull) Sample.disk_empty in
  fst r = Ok (Failure "request" "Read timed out. (call 2)")
  /\ log (snd r) = [EvCall c; EvSleep 100; EvCall c; EvSleep 200; EvCall c].
Proof. split; reflexivity. Qed.

(* ===================================================================== *)
(** * Saving a record *)
(* ===================================================================== *)

(** The two programs save a record in the same way. *)
Lemma save_record_same :
  HttpRunnerStdlib.save_record = HttpRunner.save_record.
Proof. reflexivity. Qed.

(** When one of the writes is refused, [save_record] raises an
    [Exception], whatever the files are; it calls no transport and the
    refusals stay as they are. *)
Lemma save_record_refused dir name record save_body content w :
  save_refused (denied w) dir (HttpRunner.safe_filename name) save_body = true ->
  exists e w1,
    HttpRunner.save_record dir name record save_body content w = (Raise e, w1)
    /\ (exn_cls e = OSError \/ exn_cls e = FileExistsError)
    /\ denied w1 = denied w
    /\ calls_made (log w1) = calls_made (log w).
Proof.
  unfold save_refused, meta_path, body_path, HttpRunner.save_record.
  intros H. unfold bind at 1. unfold makedirs.
  destruct (files w !! dir) as [b |] eqn:Edir.
  { eexists. exists w. split; [reflexivity |]. cbn. auto. }
  destruct (denied w dir) as [text |] eqn:Eden.
  { eexists. exists w. split; [reflexivity |]. cbn. auto. }
  cbn [present orb] in H.
  unfold bind at 1. unfold write_text, write_bytes, log_event. cbn [denied files log].
  destruct (denied w (path_join dir (HttpRunner.safe_filename name +:+ ".meta.json")))
    as [text |] eqn:Emeta.
  { eexists. eexists. split; [reflexivity |]. cbn [log denied].
    rewrite calls_made_app. cbn. repeat split; auto; lia. }
  cbn [present orb] in H. apply andb_prop in H as [-> H].
  unfold when. cbn [denied].
  destruct (denied w (path_join dir (HttpRunner.safe_filename name +:+ ".body")))
    as [text |] eqn:Ebody; [| discriminate].
  eexists. eexists. split; [reflexivity |]. cbn [log denied].
  rewrite !calls_made_app. cbn. repeat split; auto; lia.
Qed.

(** When all the writes go through, [save_record] returns, and calls no
    transport. *)
Lemma save_record_accepted dir name record save_body content w :
  save_accepted w dir (HttpRunner.safe_filename name) save_body = true ->
  exists w1,
    HttpRunner.save_record dir name record save_body content w = (Ok tt, w1)
    /\ calls_made (log w1) = calls_made (log w).
Proof.
  unfold save_accepted, meta_path, body_path, HttpRunner.save_record.
  intros H. apply andb_prop in H as [H Hbody]. apply andb_prop in H as [H Hmeta].
  apply andb_prop in H as [Hfile Hdir].
  unfold bind at 1. unfold makedirs.
  destruct (files w !! dir); [discriminate |].
  destruct (denied w dir); [discriminate |].
  unfold bind at 1. unfold write_text, write_bytes, log_event. cbn [denied files log].
  destruct (denied w (path_join dir (HttpRunner.safe_filename name +:+ ".meta.json")));
    [discriminate |].
  unfold when. destruct save_body; cbn [denied].
  - destruct (denied w (path_join dir (HttpRunner.safe_filename name +:+ ".body")));
      [discriminate |].
    eexists. split; [reflexivity |]. cbn [log]. rewrite !calls_made_app. cbn. lia.
  - eexists. split; [reflexivity |]. cbn [log ret]. rewrite !calls_made_app. cbn. lia.
Qed.

(* ===================================================================== *)
(** * One attempt that gets a response *)
(* ===================================================================== *)

(** After its sleeps and its request, an attempt that got a response
    saves the record and returns it. *)
Lemma requests_attempt_replied env (t : requests_target) a w resp elapsed_ms :
  0 <= a ->
  sleep_accepted (lib env) (backoff_delay (t_backoff_base_ms t) (Z.to_nat a))
  = true ->
  sleep_accepted (lib env) (t_delay_between_ms t) = true ->
  requests_net env (calls_made (log w)) (requests_request t)
  = Replied resp elapsed_ms ->
  let record := Success (t_name t) (resp_status resp)
                  (round2 (lib env) elapsed_ms)
                  (dict_of_items (resp_headers resp)) in
  requests_attempt env t a w
  = (match t_save_dir t with
     | Some dir =>
         when (truthy_str dir)
           (HttpRunner.save_record dir (t_name t) record (t_save_body t)
              (resp_content resp))
     | None => ret tt
     end ;; ret record)
      (World (files w) (denied w)
         (log w ++ attempt_events (t_backoff_base_ms t) (t_delay_between_ms t)
                     (ViaRequests (requests_request t)) (Z.to_nat a))).
Proof.
  intros Ha Hb Hd Hnet record. unfold requests_attempt, HttpRunner.attempt_once.
  rewrite guarded_sleeps by assumption.
  unfold bind at 1. unfold HttpRunner.build_request. cbn [log].
  rewrite calls_made_app, calls_made_sleeps, Nat.add_0_r.
  fold (requests_request t). rewrite Hnet. unfold log_event, attempt_events.
  cbn [files denied log fst snd]. now rewrite <- app_assoc.
Qed.

Lemma request_built_error l (t : urllib_target) :
  request_built l t = true ->
  request_error l (t_url t) (t_params t) = None.
Proof.
  unfold request_built.
  now destruct (request_error l (t_url t) (t_params t)).
Qed.

Lemma urllib_attempt_replied env (t : urllib_target) a w status hdrs content
    elapsed_ms :
  0 <= a ->
  sleep_accepted (lib env) (backoff_delay (t_backoff_base_ms t) (Z.to_nat a))
  = true ->
  sleep_accepted (lib env) (t_delay_between_ms t) = true ->
  request_built (lib env) t = true ->
  urllib_response (urllib_net env (calls_made (log w))
                     (urllib_request (lib env) t))
  = Some (status, hdrs, content, elapsed_ms) ->
  let record := Success (t_name t) status (round2 (lib env) elapsed_ms)
                  (dict_of_items hdrs) in
  urllib_attempt env t a w
  = (match t_save_dir t with
     | Some dir =>
         when (truthy_str dir)
           (HttpRunner.save_record dir (t_name t) record (t_save_body t) content)
     | None => ret tt
     end ;; ret record)
      (World (files w) (denied w)
         (log w ++ attempt_events (t_backoff_base_ms t) (t_delay_between_ms t)
                     (ViaUrllib (urllib_request (lib env) t)) (Z.to_nat a))).
Proof.
  intros Ha Hb Hd Hreq Hnet record.
  unfold urllib_attempt, HttpRunnerStdlib.attempt_once.
  rewrite guarded_sleeps by assumption.
  unfold bind at 1. unfold HttpRunnerStdlib.build_and_send_request. cbn [log].
  rewrite calls_made_app, calls_made_sleeps, Nat.add_0_r.
  fold (urllib_request (lib env) t). rewrite (request_built_error _ _ Hreq).
  destruct (urllib_net env (calls_made (log w)) (urllib_request (lib env) t))
    as [resp el | code hs body el | text | e]; cbn in Hnet; try discriminate;
    injection Hnet as <- <- <- <-;
    unfold log_event, attempt_events; cbn [files denied log];
    rewrite <- app_assoc; reflexivity.
Qed.

(** An attempt whose request fails raises the failure, having logged its
    sleeps and its request, and nothing else. *)
Lemma urllib_attempt_failed env (t : urllib_target) a w e :
  0 <= a ->
  sleep_accepted (lib env) (backoff_delay (t_backoff_base_ms t) (Z.to_nat a))
  = true ->
  sleep_accepted (lib env) (t_delay_between_ms t) = true ->
  request_built (lib env) t = true ->
  urllib_failure (urllib_net env (calls_made (log w))
                    (urllib_request (lib env) t)) = Some e ->
  urllib_attempt env t a w
  = (Raise e,
     World (files w) (denied w)
       (log w ++ attempt_events (t_backoff_base_ms t) (t_delay_between_ms t)
                   (ViaUrllib (urllib_request (lib env) t)) (Z.to_nat a))).
Proof.
  intros Ha Hb Hd Hreq Hnet.
  unfold urllib_attempt, HttpRunnerStdlib.attempt_once.
  rewrite guarded_sleeps by assumption.
  unfold bind at 1. unfold HttpRunnerStdlib.build_and_send_request. cbn [log].
  rewrite calls_made_app, calls_made_sleeps, Nat.add_0_r.
  fold (urllib_request (lib env) t). rewrite (request_built_error _ _ Hreq).
  destruct (urllib_net env (calls_made (log w)) (urllib_request (lib env) t))
    as [resp el | code hs body el | text | e0]; cbn in Hnet; try discriminate;
    injection Hnet as <-; unfold log_event, attempt_events; cbn [files denied log];
    now rewrite <- app_assoc.
Qed.

Lemma calls_made_attempt_events b d c i l :
  calls_made (l ++ attempt_events b d c i) = (calls_made l + 1)%nat.
Proof.
  unfold attempt_events.
  now rewrite !calls_made_app, calls_made_sleeps.
Qed.

(** The part of an attempt that follows the response, when a write of
    the record is refused: an [Exception], after exactly one request. *)
Lemma save_step_refused dir name record save_body content (save_dir : option string)
    w evs :
  saving save_dir = Some dir ->
  save_refused (denied w) dir (HttpRunner.safe_filename name) save_body = true ->
  calls_made evs = 1%nat ->
  exists e w1,
    (match save_dir with
     | Some dir => when (truthy_str dir)
                     (HttpRunner.save_record dir name record save_body content)
     | None => ret tt
     end ;; ret record) (World (files w) (denied w) (log w ++ evs))
    = (Raise e, w1)
    /\ (exn_cls e = OSError \/ exn_cls e = FileExistsError)
    /\ denied w1 = denied w
    /\ calls_made (log w1) = (calls_made (log w) + 1)%nat.
Proof.
  intros Hsave Href Hevs. unfold saving in Hsave.
  destruct save_dir as [dir' |]; [| discriminate].
  destruct (truthy_str dir') eqn:Et; [| discriminate].
  injection Hsave as ->. unfold when.
  destruct (save_record_refused dir name record save_body content
              (World (files w) (denied w) (log w ++ evs)) Href)
    as (e & w1 & Hrun & He & Hden & Hcalls).
  exists e, w1. rewrite (bind_Raise _ _ _ _ _ Hrun).
  split; [reflexivity |]. split; [exact He |]. split; [exact Hden |].
  rewrite Hcalls. cbn [log].
  now rewrite calls_made_app, Hevs.
Qed.

(** The same part when saving is harmless: the record, after exactly one
    request. *)
Lemma save_step_harmless name record save_body content (save_dir : option string)
    w evs :
  save_harmless w save_dir (HttpRunner.safe_filename name) save_body = true ->
  calls_made evs = 1%nat ->
  exists w1,
    (match save_dir with
     | Some dir => when (truthy_str dir)
                     (HttpRunner.save_record dir name record save_body content)
     | None => ret tt
     end ;; ret record) (World (files w) (denied w) (log w ++ evs))
    = (Ok record, w1)
    /\ calls_made (log w1) = (calls_made (log w) + 1)%nat.
Proof.
  intros Hsave Hevs. unfold save_harmless, saving in Hsave.
  destruct save_dir as [dir |].
  - unfold when. destruct (truthy_str dir).
    + destruct (save_record_accepted dir name record save_body content
                  (World (files w) (denied w) (log w ++ evs)) Hsave)
        as (w1 & Hrun & Hcalls).
      exists w1. rewrite (bind_Ok _ _ _ _ _ Hrun). split; [reflexivity |].
      rewrite Hcalls. cbn [log]. now rewrite calls_made_app, Hevs.
    + eexists. split; [reflexivity |]. cbn [log].
      now rewrite calls_made_app, Hevs.
  - eexists. split; [reflexivity |]. cbn [log].
    now rewrite calls_made_app, Hevs.
Qed.

(* ===================================================================== *)
(** * The retry loop and the saving of records *)
(* ===================================================================== *)

Lemma saving_error_is_Exception e :
  exn_cls e = OSError \/ exn_cls e = FileExistsError -> is_Exception e = true.
Proof. unfold is_Exception. intros [-> | ->]; reflexivity. Qed.

(** A loop whose every attempt makes one request and then raises an
    error of saving uses up the whole budget. *)
Lemma retry_while_saving_fails (attempt : Z -> M Outcome) name retries
    (dn : string -> option string) w :
  (forall a w1, 0 <= a <= retries -> denied w1 = dn ->
     exists e w2, attempt a w1 = (Raise e, w2)
                  /\ (exn_cls e = OSError \/ exn_cls e = FileExistsError)
                  /\ denied w2 = dn
                  /\ calls_made (log w2) = (calls_made (log w1) + 1)%nat) ->
  0 <= retries -> denied w = dn ->
  exists e w',
    retry_while (retry_fuel retries) retries attempt
      (fun last_exc => ret (Failure name (failure_message last_exc))) 0 None w
    = (Ok (Failure name (exn_str e)), w')
    /\ (exn_cls e = OSError \/ exn_cls e = FileExistsError)
    /\ calls_made (log w') = (calls_made (log w) + (Z.to_nat retries + 1))%nat.
Proof.
  intros Hattempt Hretries Hdn.
  pose (P := fun (a : Z) (last : option exn) (w1 : world) =>
    denied w1 = dn
    /\ calls_made (log w1) = (calls_made (log w) + Z.to_nat a)%nat
    /\ (0 < a -> exists e, last = Some e
                 /\ (exn_cls e = OSError \/ exn_cls e = FileExistsError))).
  destruct (retry_while_all_raise P retries attempt
              (fun last_exc => ret (Failure name (failure_message last_exc))))
    with (fuel := retry_fuel retries) (a := 0) (last := @None exn) (w := w)
    as (last' & w' & Hrun & _ & Hcalls & Hlast).
  - intros a last w1 Ha (Hden & Hn & _).
    destruct (Hattempt a w1 Ha Hden) as (e & w2 & Hrun & He & Hden2 & Hn2).
    exists e, w2. split; [exact Hrun |].
    split; [now apply saving_error_is_Exception |].
    split; [exact Hden2 |]. split; [rewrite Hn2, Hn; lia |].
    intros _. exists e. auto.
  - lia.
  - unfold retry_fuel. lia.
  - split; [exact Hdn |]. split; [cbn; lia | lia].
  - replace (Z.max 0 (retries + 1)) with (retries + 1) in * by lia.
    destruct Hlast as (e & -> & He); [lia |].
    exists e, w'. split; [exact Hrun |]. split; [exact He |].
    rewrite Hcalls. lia.
Qed.

(** C9.  In both programs the [try] of the retry loop also covers the
    saving of the record.  When a save directory is configured and the
    operating system refuses one of the writes (the directory, the meta
    file, or the body file when bodies are saved), then, although every
    request gets a response, every attempt raises after its request, the
    request is made again until the budget is used up ([retries + 1]
    requests in all), and the outcome is the failure record whose error
    is the text of an error of saving.  The attempts reach the transport:
    [time.sleep] accepts the delays of the attempts 0 to [retries], and
    in [http_runner_stdlib.py] [urlrequest.Request] accepts the URL. *)
Theorem saving_error_consumes_retries :
  (forall env (t : requests_target) w dir,
     0 <= t_retries t ->
     sleeps_accepted (lib env) (t_backoff_base_ms t) (t_delay_between_ms t)
       (Z.to_nat (t_retries t) + 1) = true ->
     saving (t_save_dir t) = Some dir ->
     save_refused (denied w) dir (HttpRunner.safe_filename (t_name t))
       (t_save_body t) = true ->
     (forall k, requests_response (requests_net env k (requests_request t)) <> None) ->
     exists e w',
       requests_perform env t w = (Ok (Failure (t_name t) (exn_str e)), w')
       /\ (exn_cls e = OSError \/ exn_cls e = FileExistsError)
       /\ calls_made (log w')
          = (calls_made (log w) + (Z.to_nat (t_retries t) + 1))%nat)
  /\
  (forall env (t : urllib_target) w dir,
     0 <= t_retries t ->
     sleeps_accepted (lib env) (t_backoff_base_ms t) (t_delay_between_ms t)
       (Z.to_nat (t_retries t) + 1) = true ->
     request_built (lib env) t = true ->
     saving (t_save_dir t) = Some dir ->
     save_refused (denied w) dir (HttpRunnerStdlib.safe_filename (t_name t))
       (t_save_body t) = true ->
     (forall k, urllib_response (urllib_net env k (urllib_request (lib env) t)) <> None) ->
     exists e w',
       urllib_perform env t w = (Ok (Failure (t_name t) (exn_str e)), w')
       /\ (exn_cls e = OSError \/ exn_cls e = FileExistsError)
       /\ calls_made (log w')
          = (calls_made (log w) + (Z.to_nat (t_retries t) + 1))%nat).
Proof.
  split.
  - intros env t w dir Hretries Hsleeps Hsave Href Hresp.
    apply (retry_while_saving_fails (requests_attempt env t) (t_name t)
             (t_retries t) (denied w) w); auto.
    intros a w1 Ha Hden.
    destruct (sleeps_accepted_at _ _ _ _ (Z.to_nat a) Hsleeps) as [Hb Hd];
      [lia |].
    destruct (requests_net env (calls_made (log w1)) (requests_request t))
      as [resp el | e0] eqn:Enet.
    + rewrite (requests_attempt_replied env t a w1 resp el (proj1 Ha) Hb Hd Enet).
      rewrite <- Hden.
      apply save_step_refused with (dir := dir); auto.
      * now rewrite Hden.
      * apply (calls_made_attempt_events _ _ _ _ []).
    + exfalso. apply (Hresp (calls_made (log w1))). now rewrite Enet.
  - intros env t w dir Hretries Hsleeps Hreq Hsave Href Hresp.
    apply (retry_while_saving_fails (urllib_attempt env t) (t_name t)
             (t_retries t) (denied w) w); auto.
    intros a w1 Ha Hden.
    destruct (sleeps_accepted_at _ _ _ _ (Z.to_nat a) Hsleeps) as [Hb Hd];
      [lia |].
    destruct (urllib_response (urllib_net env (calls_made (log w1))
                                 (urllib_request (lib env) t)))
      as [[[[status hdrs] content] el] |] eqn:Enet.
    + rewrite (urllib_attempt_replied env t a w1 status hdrs content el
                 (proj1 Ha) Hb Hd Hreq Enet).
      rewrite <- Hden.
      apply save_step_refused with (dir := dir); auto.
      * now rewrite Hden.
      * apply (calls_made_attempt_events _ _ _ _ []).
    + exfalso. now apply (Hresp (calls_made (log w1))).
Qed.

Lemma saving_error_consumes_retries_witness :
  (exists e w',
     requests_perform (Sample.env_status 200) Sample.saved_requests_target
       Sample.disk_read_only
     = (Ok (Failure "request" (exn_str e)), w')
     /\ (exn_cls e = OSError \/ exn_cls e = FileExistsError)
     /\ calls_made (log w') = 3%nat)
  /\
  (exists e w',
     urllib_perform (Sample.env_status 200) Sample.saved_urllib_target
       Sample.disk_read_only
     = (Ok (Failure "request" (exn_str e)), w')
     /\ (exn_cls e = OSError \/ exn_cls e = FileExistsError)
     /\ calls_made (log w') = 3%nat).
Proof.
  split.
  - apply (proj1 saving_error_consumes_retries (Sample.env_status 200)
             Sample.saved_requests_target Sample.disk_read_only "out").
    + simpl. lia.
    + reflexivity.
    + reflexivity.
    + reflexivity.
    + intros k. discriminate.
  - apply (proj2 saving_error_consumes_retries (Sample.env_status 200)
             Sample.saved_urllib_target Sample.disk_read_only "out").
    + simpl. lia.
    + reflexivity.
    + reflexivity.
    + reflexivity.
    + reflexivity.
    + intros k. discriminate.
Defined.

(** The run behind the witness: three requests, each answered with 200,
    and the record is a failure. *)
Example answered_but_not_saved :
  let r := requests_perform (Sample.env_status 200) Sample.saved_requests_target
             Sample.disk_read_only in
  fst r = Ok (Failure "request" "[Errno 13] Permission denied: 'out'")
  /\ calls_made (log (snd r)) = 3%nat
  /\ requests_response
       (requests_net (Sample.env_status 200) 2
          (requests_request Sample.saved_requests_target))
     = Some (Sample.the_response 200, Sample.ms_12_5).
Proof. repeat split; reflexivity. Qed.

(* ===================================================================== *)
(** * A response is a success *)
(* ===================================================================== *)

Lemma after_attempts_calls w b d c a w1 :
  after_attempts w b d c a w1 ->
  calls_made (log w1) = (calls_made (log w) + Z.to_nat a)%nat.
Proof.
  intros ->. cbn [log]. now rewrite calls_made_app, calls_made_attempts_log.
Qed.

Lemma after_attempts_next w b d c a w1 :
  0 <= a -> after_attempts w b d c a w1 ->
  after_attempts w b d c (a + 1)
    (World (files w1) (denied w1) (log w1 ++ attempt_events b d c (Z.to_nat a))).
Proof.
  intros Ha ->. unfold after_attempts. cbn [files denied log].
  replace (Z.to_nat (a + 1)) with (S (Z.to_nat a)) by lia.
  now rewrite attempts_log_S, <- app_assoc.
Qed.

(** C2, as amended.  [http_runner_stdlib.py]: when a request of a
    target gets a response, be it returned by the opener or raised by it
    as [HTTPError] (any status: 4xx, 5xx, a 3xx when redirects are not
    followed), at the first attempt or at a retry that follows [k]
    failures of the transport, and saving the record is not asked for or
    goes through, then the outcome is the success record of that response
    and the request is not made again: [k + 1] requests in all, one for
    each failure and one for the response.  The attempts reach the
    transport: [time.sleep] accepts their delays and [urlrequest.Request]
    accepts the URL. *)
Theorem response_is_success env (t : urllib_target) w (k : nat) status hdrs
    content elapsed_ms :
  Z.of_nat k <= t_retries t ->
  sleeps_accepted (lib env) (t_backoff_base_ms t) (t_delay_between_ms t)
    (k + 1) = true ->
  request_built (lib env) t = true ->
  (forall i, (i < k)%nat ->
     exists e,
       urllib_failure (urllib_net env (calls_made (log w) + i)
                         (urllib_request (lib env) t)) = Some e
       /\ is_Exception e = true) ->
  urllib_response (urllib_net env (calls_made (log w) + k)
                     (urllib_request (lib env) t))
  = Some (status, hdrs, content, elapsed_ms) ->
  save_harmless w (t_save_dir t) (HttpRunnerStdlib.safe_filename (t_name t))
    (t_save_body t) = true ->
  exists w',
    urllib_perform env t w
    = (Ok (Success (t_name t) status (round2 (lib env) elapsed_ms)
             (dict_of_items hdrs)), w')
    /\ calls_made (log w') = (calls_made (log w) + k + 1)%nat.
Proof.
  intros Hk Hsleeps Hreq Hfail Hnet Hsave.
  set (b := t_backoff_base_ms t). set (d := t_delay_between_ms t).
  set (c := ViaUrllib (urllib_request (lib env) t)).
  set (record := Success (t_name t) status (round2 (lib env) elapsed_ms)
                   (dict_of_items hdrs)).
  destruct (retry_while_raise_then_return (after_attempts w b d c)
              (fun r w1 => r = record
                 /\ calls_made (log w1) = (calls_made (log w) + k + 1)%nat)
              (t_retries t) (urllib_attempt env t)
              (fun last_exc => ret (Failure (t_name t) (failure_message last_exc)))
              (Z.of_nat k))
    with (fuel := retry_fuel (t_retries t)) (a := 0) (last := @None exn) (w := w)
    as (r & w' & Hrun & -> & Hcalls).
  - lia.
  - intros a w1 Ha HP.
    destruct (sleeps_accepted_at _ _ _ _ (Z.to_nat a) Hsleeps) as [Hb Hd];
      [lia |].
    destruct (Hfail (Z.to_nat a)) as (e & He & Hexc); [lia |].
    rewrite <- (after_attempts_calls _ _ _ _ _ _ HP) in He.
    exists e. eexists. split; [| split; [exact Hexc |]].
    + apply urllib_attempt_failed; [lia | exact Hb | exact Hd | exact Hreq | exact He].
    + apply after_attempts_next; [lia | exact HP].
  - intros w1 HP.
    destruct (sleeps_accepted_at _ _ _ _ k Hsleeps) as [Hb Hd]; [lia |].
    pose proof (after_attempts_calls _ _ _ _ _ _ HP) as Hn.
    rewrite Nat2Z.id in Hn. rewrite <- Hn in Hnet.
    rewrite (urllib_attempt_replied env t (Z.of_nat k) w1 status hdrs content
               elapsed_ms); [| lia | now rewrite Nat2Z.id | exact Hd | exact Hreq
                              | exact Hnet].
    destruct (save_step_harmless (t_name t) record (t_save_body t) content
                (t_save_dir t) w1
                (attempt_events b d c (Z.to_nat (Z.of_nat k))))
      as (w2 & Hrun & Hcalls).
    + rewrite HP. exact Hsave.
    + apply (calls_made_attempt_events _ _ _ _ []).
    + exists record, w2. split; [exact Hrun |]. split; [reflexivity |].
      rewrite Hcalls, Hn. reflexivity.
  - lia.
  - unfold retry_fuel. lia.
  - unfold after_attempts. destruct w. cbn. now rewrite app_nil_r.
  - exists w'. split; [exact Hrun | exact Hcalls].
Qed.

(** The same in [http_runner.py]: a response of [requests], of any
    status, is a success with no further request when saving is
    harmless. *)
Lemma requests_response_is_success env (t : requests_target) w (k : nat) resp
    elapsed_ms :
  Z.of_nat k <= t_retries t ->
  sleeps_accepted (lib env) (t_backoff_base_ms t) (t_delay_between_ms t)
    (k + 1) = true ->
  (forall i, (i < k)%nat ->
     exists e,
       requests_net env (calls_made (log w) + i) (requests_request t)
       = RequestFailed e
       /\ is_Exception e = true) ->
  requests_net env (calls_made (log w) + k) (requests_request t)
  = Replied resp elapsed_ms ->
  save_harmless w (t_save_dir t) (HttpRunner.safe_filename (t_name t))
    (t_save_body t) = true ->
  exists w',
    requests_perform env t w
    = (Ok (Success (t_name t) (resp_status resp) (round2 (lib env) elapsed_ms)
             (dict_of_items (resp_headers resp))), w')
    /\ calls_made (log w') = (calls_made (log w) + k + 1)%nat.
Proof.
  intros Hk Hsleeps Hfail Hnet Hsave.
  set (b := t_backoff_base_ms t). set (d := t_delay_between_ms t).
  set (c := ViaRequests (requests_request t)).
  set (record := Success (t_name t) (resp_status resp)
                   (round2 (lib env) elapsed_ms)
                   (dict_of_items (resp_headers resp))).
  destruct (retry_while_raise_then_return (after_attempts w b d c)
              (fun r w1 => r = record
                 /\ calls_made (log w1) = (calls_made (log w) + k + 1)%nat)
              (t_retries t) (requests_attempt env t)
              (fun last_exc => ret (Failure (t_name t) (failure_message last_exc)))
              (Z.of_nat k))
    with (fuel := retry_fuel (t_retries t)) (a := 0) (last := @None exn) (w := w)
    as (r & w' & Hrun & -> & Hcalls).
  - lia.
  - intros a w1 Ha HP.
    destruct (sleeps_accepted_at _ _ _ _ (Z.to_nat a) Hsleeps) as [Hb Hd];
      [lia |].
    destruct (Hfail (Z.to_nat a)) as (e & He & Hexc); [lia |].
    rewrite <- (after_attempts_calls _ _ _ _ _ _ HP) in He.
    exists e. eexists. split; [| split; [exact Hexc |]].
    + apply requests_attempt_failed; [lia | exact Hb | exact Hd | exact He].
    + apply after_attempts_next; [lia | exact HP].
  - intros w1 HP.
    destruct (sleeps_accepted_at _ _ _ _ k Hsleeps) as [Hb Hd]; [lia |].
    pose proof (after_attempts_calls _ _ _ _ _ _ HP) as Hn.
    rewrite Nat2Z.id in Hn. rewrite <- Hn in Hnet.
    rewrite (requests_attempt_replied env t (Z.of_nat k) w1 resp elapsed_ms);
      [| lia | now rewrite Nat2Z.id | exact Hd | exact Hnet].
    destruct (save_step_harmless (t_name t) record (t_save_body t)
                (resp_content resp) (t_save_dir t) w1
                (attempt_events b d c (Z.to_nat (Z.of_nat k))))
      as (w2 & Hrun & Hcalls).
    + rewrite HP. exact Hsave.
    + apply (calls_made_attempt_events _ _ _ _ []).
    + exists record, w2. split; [exact Hrun |]. split; [reflexivity |].
      rewrite Hcalls, Hn. reflexivity.
  - lia.
  - unfold retry_fuel. lia.
  - unfold after_attempts. destruct w. cbn. now rewrite app_nil_r.
  - exists w'. split; [exact Hrun | exact Hcalls].
Qed.

Lemma response_is_success_witness :
  exists w',
    urllib_perform Sample.env_flaky
      (Sample.urllib_target_of Sample.args None) Sample.disk_empty
    = (Ok (Success "request" 503 Sample.ms_12_5 [("Content-Length", "0")]), w')
    /\ calls_made (log w') = 2%nat.
Proof.
  apply (response_is_success Sample.env_flaky
           (Sample.urllib_target_of Sample.args None) Sample.disk_empty
           1 503 [("Content-Length", "0")] [] Sample.ms_12_5).
  - simpl. lia.
  - reflexivity.
  - reflexivity.
  - intros i Hi. assert (i = 0%nat) as -> by lia.
    eexists. split; reflexivity.
  - reflexivity.
  - reflexivity.
Defined.

(** The run of the specification: every request answered with 500, one
    request, the record of the status 500.  And a response that follows a
    failure: two requests, the second not made again. *)
Example always_500 :
  let t := Sample.urllib_target_of Sample.args None in
  let r := urllib_perform (Sample.env_status 500) t Sample.disk_empty in
  let r' := urllib_perform Sample.env_flaky t Sample.disk_empty in
  fst r = Ok (Success "request" 500 Sample.ms_12_5 [("Content-Length", "0")])
  /\ log (snd r) = [EvCall (ViaUrllib (urllib_request Sample.lib t))]
  /\ fst r' = Ok (Success "request" 503 Sample.ms_12_5 [("Content-Length", "0")])
  /\ log (snd r') = [EvCall (ViaUrllib (urllib_request Sample.lib t));
                     EvSleep 100;
                     EvCall (ViaUrllib (urllib_request Sample.lib t))].
Proof. repeat split; reflexivity. Qed.

(** C2 as it stands fails.  The opener answers every request with the
    status 500, results are to be saved under [out/], and the operating
    system refuses to create that directory: the response of the first
    request is obtained, yet the request is made three times (retries is
    2) and the outcome is a failure record. *)
Lemma response_not_always_success :
  let t := Sample.saved_urllib_target in
  let r := urllib_perform (Sample.env_status 500) t Sample.disk_read_only in
  urllib_response (urllib_net (Sample.env_status 500) 0
                     (urllib_request Sample.lib t))
  = Some (500, [("Content-Length", "0")], [], Sample.ms_12_5)
  /\ fst r = Ok (Failure "request" "[Errno 13] Permission denied: 'out'")
  /\ calls_made (log (snd r)) = 3%nat.
Proof. repeat split; reflexivity. Qed.

(* ===================================================================== *)
(** * Parsing pairs and headers *)
(* ===================================================================== *)

Lemma chars_str l : chars (str l) = l.
Proof. apply list_ascii_of_string_of_list_ascii. Qed.

Lemma str_chars s : str (chars s) = s.
Proof. apply string_of_list_ascii_of_string. Qed.

(** A separator that is not white space does not occur in a blank
    string. *)
Lemma contains_blank c s :
  isspace c = false ->
  forallb isspace (chars s) = true ->
  contains (String c "") s = false.
Proof.
  intros Hc. induction s as [| x s IH]; intros Hs; [reflexivity |].
  cbn in Hs. apply andb_prop in Hs as [Hx Hs].
  cbn [contains startswith].
  destruct (Ascii.eqb_spec c x) as [-> | _]; [congruence |].
  cbn. auto.
Qed.

(** The parsers raise nothing but [Exception]s. *)
Lemma parse_key_value_items_Exception sep items result e :
  HttpRunner.parse_key_value_items sep items result = Raise e ->
  is_Exception e = true.
Proof.
  revert result. induction items as [| [item |] rest IH]; intros result; cbn.
  - discriminate.
  - destruct (contains sep item); cbn; [| now intros [= <-]].
    destruct (split1 sep item) as [[| k [| v [| x parts]]] | e'] eqn:Esplit; cbn;
      try (now intros [= <-]).
    + destruct (truthy_str (strip k)); cbn; [apply IH | now intros [= <-]].
    + unfold split1 in Esplit. destruct sep; [| destruct (partition _ _) as [[? ?]|]];
        inversion Esplit; subst; now intros [= <-].
  - apply IH.
Qed.

Lemma parse_header_items_Exception items headers e :
  HttpRunner.parse_header_items items headers = Raise e ->
  is_Exception e = true.
Proof.
  revert headers. induction items as [| [item |] rest IH]; intros headers; cbn.
  - discriminate.
  - destruct (contains ":" item); cbn; [| now intros [= <-]].
    destruct (partition ":" item) as [[k v] |]; cbn; [| now intros [= <-]].
    destruct (truthy_str (strip k)); cbn; [apply IH | now intros [= <-]].
  - now intros [= <-].
Qed.

Lemma parse_key_value_pairs_Exception pairs sep e :
  HttpRunner.parse_key_value_pairs pairs sep = Raise e -> is_Exception e = true.
Proof.
  destruct pairs as [[| x l] |]; cbn [HttpRunner.parse_key_value_pairs];
    try discriminate.
  apply parse_key_value_items_Exception.
Qed.

Lemma parse_header_pairs_Exception pairs e :
  HttpRunner.parse_header_pairs pairs = Raise e -> is_Exception e = true.
Proof.
  destruct pairs as [[| x l] |]; cbn [HttpRunner.parse_header_pairs];
    try discriminate.
  apply parse_header_items_Exception.
Qed.

(** A blank entry is never skipped: a list of pairs that holds one makes
    [parse_key_value_pairs] raise. *)
Lemma blank_pair_raises sep_char items s :
  isspace sep_char = false ->
  In (Some s) items ->
  forallb isspace (chars s) = true ->
  exists e, HttpRunner.parse_key_value_pairs (Some items) (String sep_char "")
            = Raise e.
Proof.
  intros Hsep Hin Hblank.
  assert (Hitems : forall result, exists e,
            HttpRunner.parse_key_value_items (String sep_char "") items result
            = Raise e).
  { induction items as [| [item |] rest IH]; intros result; [destruct Hin | |].
    - cbn [HttpRunner.parse_key_value_items].
      destruct Hin as [[= ->] | Hin].
      + rewrite (contains_blank sep_char s Hsep Hblank). cbn. eauto.
      + destruct (contains (String sep_char "") item); cbn [negb]; [| eauto].
        destruct (split1 (String sep_char "") item)
          as [[| k [| v [| x parts]]] | e']; cbn; eauto.
        destruct (truthy_str (strip k)); cbn; eauto.
    - cbn [HttpRunner.parse_key_value_items].
      destruct Hin as [[=] | Hin]. eauto. }
  destruct items as [| x l]; [destruct Hin |].
  apply Hitems.
Qed.

(** C3, the part the code does not do.  An empty or blank entry is not
    skipped by [parse_key_value_pairs], nor by [parse_header_pairs]: it
    lacks the separator, and the parser raises; an entry that is [None]
    is skipped by the first and makes the second raise. *)
Theorem blank_entry_is_not_skipped :
  HttpRunner.parse_key_value_pairs (Some [Some ""]) "="
  = Raise (Exn ValueError "Invalid pair ''. Expected format key=value")
  /\ HttpRunner.parse_key_value_pairs (Some [Some "a=1"; Some "  "; Some "b=2"]) "="
     = Raise (Exn ValueError "Invalid pair '  '. Expected format key=value")
  /\ HttpRunner.parse_header_pairs (Some [Some ""])
     = Raise (Exn ValueError "Invalid header ''. Expected format 'Name: Value'")
  /\ HttpRunner.parse_key_value_pairs (Some [Some "a=1"; None; Some "b=2"]) "="
     = Ok [("a", "1"); ("b", "2")]
  /\ HttpRunner.parse_header_pairs (Some [Some "A: 1"; None; Some "B: 2"])
     = Raise (Exn TypeError "argument of type 'NoneType' is not iterable").
Proof. repeat split; reflexivity. Qed.

(** What the parsers do on well-formed entries: the split is at the first
    separator, key and value are stripped, a later value replaces an
    earlier one for the same key, an entry without separator or with an
    empty key raises. *)
Example parse_pairs_examples :
  HttpRunner.parse_key_value_pairs (Some [Some "a=1"; Some "a=2"]) "="
  = Ok [("a", "2")]
  /\ HttpRunner.parse_key_value_pairs (Some [Some " k = v=w "]) "="
     = Ok [("k", "v=w")]
  /\ HttpRunner.parse_key_value_pairs (Some [Some "novalue"]) "="
     = Raise (Exn ValueError "Invalid pair 'novalue'. Expected format key=value")
  /\ HttpRunner.parse_key_value_pairs (Some [Some " =v"]) "="
     = Raise (Exn ValueError "Invalid pair ' =v'. Key is empty")
  /\ HttpRunner.parse_header_pairs (Some [Some "Host: a:80"; Some "Host: b"])
     = Ok [("Host", "b")]
  /\ HttpRunner.parse_header_pairs (Some [Some "no colon"])
     = Raise (Exn ValueError "Invalid header 'no colon'. Expected format 'Name: Value'")
  /\ HttpRunner.parse_header_pairs (Some [Some " : v"])
     = Raise (Exn ValueError "Invalid header ' : v'. Name is empty").
Proof. repeat split; reflexivity. Qed.

(** Assigning to a key makes it the value read back, whatever was there. *)
Lemma dict_get_set {V} k (v : V) d : dict_get k (dict_set k v d) = Some v.
Proof.
  induction d as [| [k' v'] d IH]; cbn.
  - now rewrite String.eqb_refl.
  - destruct (String.eqb k' k) eqn:E; cbn; rewrite E; auto.
Qed.

Lemma dict_get_set_other {V} k k' (v : V) d :
  k <> k' -> dict_get k' (dict_set k v d) = dict_get k' d.
Proof.
  intros Hne. induction d as [| [k0 v0] d IH]; cbn.
  - destruct (String.eqb_spec k k'); [contradiction | reflexivity].
  - destruct (String.eqb_spec k0 k) as [-> | Hk]; cbn.
    + destruct (String.eqb_spec k k'); [contradiction | reflexivity].
    + destruct (String.eqb_spec k0 k'); auto.
Qed.

(** C10.  The parsers of [http_runner.py] and [http_runner_stdlib.py]
    agree on every input: the same dictionary, or the same exception with
    the same text. *)
Theorem parsers_agree :
  (forall pairs sep,
     HttpRunner.parse_key_value_pairs pairs sep
     = HttpRunnerStdlib.parse_key_value_pairs pairs sep)
  /\ (forall pairs,
        HttpRunner.parse_header_pairs pairs
        = HttpRunnerStdlib.parse_header_pairs pairs).
Proof.
  assert (Hkv : forall sep items result,
            HttpRunner.parse_key_value_items sep items result
            = HttpRunnerStdlib.parse_key_value_items sep items result).
  { intros sep items.
    induction items as [| [item |] rest IH]; intros result; cbn;
      [reflexivity | | apply IH].
    destruct (contains sep item); cbn; [| reflexivity].
    destruct (split1 sep item) as [[| k [| v [| x parts]]] | e]; cbn;
      try reflexivity;
      destruct (truthy_str (strip k)); cbn; first [apply IH | reflexivity]. }
  assert (Hh : forall items headers,
            HttpRunner.parse_header_items items headers
            = HttpRunnerStdlib.parse_header_items items headers).
  { intros items.
    induction items as [| [item |] rest IH]; intros headers; cbn;
      [reflexivity | | reflexivity].
    destruct (contains ":" item); cbn; [| reflexivity].
    destruct (partition ":" item) as [[k v] |]; cbn;
      try reflexivity;
      destruct (truthy_str (strip k)); cbn; first [apply IH | reflexivity]. }
  split.
  - intros [[| x l] |] sep; cbn [HttpRunner.parse_key_value_pairs
      HttpRunnerStdlib.parse_key_value_pairs]; first [apply Hkv | reflexivity].
  - intros [[| x l] |]; cbn [HttpRunner.parse_header_pairs
      HttpRunnerStdlib.parse_header_pairs]; first [apply Hh | reflexivity].
Qed.

(* ===================================================================== *)
(** * File names *)
(* ===================================================================== *)

Lemma chars_take_str n s : chars (take_str n s) = firstn n (chars s).
Proof.
  revert s. induction n as [| n IH]; intros [| c s]; cbn; try reflexivity.
  f_equal. apply IH.
Qed.

Lemma len_chars s : len s = length (chars s).
Proof. induction s as [| c s IH]; cbn; [reflexivity | f_equal; exact IH]. Qed.

(** The characters of the sanitised name: those of the first 128
    characters of the value, each kept or replaced. *)
Lemma chars_safe_filename value :
  chars (HttpRunner.safe_filename value)
  = map (fun ch => if HttpRunner.keeps ch then ch else "_"%char)
        (firstn 128 (chars value)).
Proof.
  unfold HttpRunner.safe_filename.
  now rewrite chars_take_str, chars_str, List.firstn_map.
Qed.

Lemma keeps_sanitised ch :
  HttpRunner.keeps (if HttpRunner.keeps ch then ch else "_"%char) = true.
Proof. destruct (HttpRunner.keeps ch) eqn:E; [exact E | reflexivity]. Qed.

(** C5.  [safe_filename], the same function in both programs: the result
    has at most 128 characters (the length of the value when that is
    less); each of its characters is alphanumeric or one of [-], [_],
    [.]; it is the value, cut at 128 characters, with each character
    that is not one of these replaced by [_]; so it holds neither [/] nor
    a backslash, and ["../../etc/passwd"] becomes [".._.._etc_passwd"]. *)
Theorem safe_filename_flat value :
  let result := HttpRunner.safe_filename value in
  HttpRunnerStdlib.safe_filename value = result
  /\ (len result <= 128)%nat
  /\ len result = Nat.min 128 (len value)
  /\ Forall (fun ch => isalnum ch = true \/ ch = "-"%char \/ ch = "_"%char
                       \/ ch = "."%char) (chars result)
  /\ Forall2 (fun ch out =>
                out = if isalnum ch || Ascii.eqb ch "-" || Ascii.eqb ch "_"
                         || Ascii.eqb ch "."
                      then ch else "_"%char)
       (firstn 128 (chars value)) (chars result)
  /\ Forall (fun ch => ch <> "/"%char /\ ch <> "\"%char) (chars result)
  /\ HttpRunner.safe_filename "../../etc/passwd" = ".._.._etc_passwd".
Proof.
  intros result.
  assert (Hkeeps : Forall (fun ch => HttpRunner.keeps ch = true) (chars result)).
  { unfold result. rewrite chars_safe_filename. apply List.Forall_forall.
    intros ch Hin. apply in_map_iff in Hin as (c & <- & _).
    apply keeps_sanitised. }
  split; [reflexivity |].
  assert (Hlen : len result = Nat.min 128 (len value)).
  { unfold result. rewrite !len_chars, chars_safe_filename.
    now rewrite List.length_map, List.length_firstn. }
  split; [rewrite Hlen; lia |]. split; [exact Hlen |].
  split; [| split; [| split; [| reflexivity]]].
  - eapply List.Forall_impl; [| exact Hkeeps]. intros ch. cbn beta.
    unfold HttpRunner.keeps. intros H.
    apply orb_prop in H as [H | H];
      [| apply Ascii.eqb_eq in H; right; right; right; exact H].
    apply orb_prop in H as [H | H];
      [| apply Ascii.eqb_eq in H; right; right; left; exact H].
    apply orb_prop in H as [H | H];
      [left; exact H | apply Ascii.eqb_eq in H; right; left; exact H].
  - unfold result. rewrite chars_safe_filename.
    induction (firstn 128 (chars value)) as [| ch l IH]; cbn; constructor; auto.
  - eapply List.Forall_impl; [| exact Hkeeps]. intros ch. cbn beta. intros H.
    split; intros ->; discriminate H.
Qed.

(* ===================================================================== *)
(** * Validation before the run *)
(* ===================================================================== *)

Lemma parse_body_both_sources l args w j d :
  json args = Some j -> data args = Some d ->
  HttpRunner.parse_body l args w = (Raise both_sources_error, w)
  /\ HttpRunnerStdlib.parse_body l args w = (Raise both_sources_error, w).
Proof.
  intros Hj Hd. unfold HttpRunner.parse_body, HttpRunnerStdlib.parse_body.
  rewrite Hj, Hd. split; reflexivity.
Qed.

(** The exception of the validation of a command line that gives both
    sources: the one of the first malformed pair, cookie or header, else
    the one of the body sources. *)
Lemma validation_error_both_sources args :
  exists e,
    is_Exception e = true
    /\ (pairs_well_formed args = true -> e = both_sources_error)
    /\ e = match HttpRunner.parse_key_value_pairs (entries (param args)) "=" with
           | Raise e => e
           | Ok _ =>
             match HttpRunner.parse_key_value_pairs (entries (cookie args)) "=" with
             | Raise e => e
             | Ok _ =>
               match HttpRunner.parse_header_pairs (entries (header args)) with
               | Raise e => e
               | Ok _ => both_sources_error
               end
             end
           end.
Proof.
  eexists. split; [| split; [| reflexivity]]; unfold pairs_well_formed.
  - destruct (HttpRunner.parse_key_value_pairs (entries (param args)) "=") eqn:E1;
      [| eapply parse_key_value_pairs_Exception; eassumption].
    destruct (HttpRunner.parse_key_value_pairs (entries (cookie args)) "=") eqn:E2;
      [| eapply parse_key_value_pairs_Exception; eassumption].
    destruct (HttpRunner.parse_header_pairs (entries (header args))) eqn:E3;
      [reflexivity | eapply parse_header_pairs_Exception; eassumption].
  - destruct (HttpRunner.parse_key_value_pairs (entries (param args)) "=");
      [| discriminate].
    destruct (HttpRunner.parse_key_value_pairs (entries (cookie args)) "=");
      [| discriminate].
    destruct (HttpRunner.parse_header_pairs (entries (header args)));
      [reflexivity | discriminate].
Qed.

(** With both sources, the run stops in the validation: it raises an
    [Exception] in the world it started from; the exception is the one of
    the body sources unless a pair or a header is malformed, in which
    case it is the one of the parser. *)
Lemma run_both_sources env args w j d :
  json args = Some j -> data args = Some d ->
  exists e,
    HttpRunner.run_concurrent_requests env args w = (Raise e, w)
    /\ HttpRunnerStdlib.run_concurrent_requests env args w = (Raise e, w)
    /\ is_Exception e = true
    /\ (pairs_well_formed args = true -> e = both_sources_error).
Proof.
  intros Hj Hd.
  destruct (parse_body_both_sources (lib env) args w j d Hj Hd) as [Hb1 Hb2].
  destruct (validation_error_both_sources args) as (e & He & Hwf & ->).
  eexists. split; [| split; [| split; [exact He | exact Hwf]]].
  - unfold HttpRunner.run_concurrent_requests, lift, bind.
    destruct (HttpRunner.parse_key_value_pairs (entries (param args)) "=");
      [| reflexivity].
    destruct (HttpRunner.parse_key_value_pairs (entries (cookie args)) "=");
      [| reflexivity].
    destruct (HttpRunner.parse_header_pairs (entries (header args)));
      [| reflexivity].
    now rewrite Hb1.
  - unfold HttpRunnerStdlib.run_concurrent_requests, lift, bind.
    change HttpRunnerStdlib.parse_key_value_pairs
      with HttpRunner.parse_key_value_pairs.
    change HttpRunnerStdlib.parse_header_pairs
      with HttpRunner.parse_header_pairs.
    destruct (HttpRunner.parse_key_value_pairs (entries (param args)) "=");
      [| reflexivity].
    destruct (HttpRunner.parse_key_value_pairs (entries (cookie args)) "=");
      [| reflexivity].
    destruct (HttpRunner.parse_header_pairs (entries (header args)));
      [| reflexivity].
    now rewrite Hb2.
Qed.

Lemma requests_main_of_run env args w :
  HttpRunner.main env (Ok args) w
  = exit_of_run (HttpRunner.run_concurrent_requests env args w).
Proof.
  unfold HttpRunner.main, try_main, lift, exit_of_run, is_Exception.
  unfold bind at 1. unfold bind at 1.
  destruct (HttpRunner.run_concurrent_requests env args w) as [[results | e] w1];
    [reflexivity |].
  destruct (exn_cls e); reflexivity.
Qed.

Lemma urllib_main_of_run env args w :
  HttpRunnerStdlib.main env (Ok args) w
  = exit_of_run (HttpRunnerStdlib.run_concurrent_requests env args w).
Proof.
  unfold HttpRunnerStdlib.main, try_main, lift, exit_of_run, is_Exception.
  unfold bind at 1. unfold bind at 1.
  destruct (HttpRunnerStdlib.run_concurrent_requests env args w)
    as [[results | e] w1]; [reflexivity |].
  destruct (exn_cls e); reflexivity.
Qed.

(** C4.  When both a JSON source and a raw-data source are given, in both
    programs: [parse_body] raises the error of the two sources; the run
    raises in its validation, with the world as it was (no request was
    handed to the transport, nothing was slept, written or printed);
    [main] prints the error and returns 1. *)
Theorem both_body_sources_rejected env args w j d :
  json args = Some j -> data args = Some d ->
  HttpRunner.parse_body (lib env) args w = (Raise both_sources_error, w)
  /\ HttpRunnerStdlib.parse_body (lib env) args w = (Raise both_sources_error, w)
  /\ exists e,
       is_Exception e = true
       /\ (pairs_well_formed args = true -> e = both_sources_error)
       /\ HttpRunner.run_concurrent_requests env args w = (Raise e, w)
       /\ HttpRunnerStdlib.run_concurrent_requests env args w = (Raise e, w)
       /\ HttpRunner.main env (Ok args) w
          = (Ok 1, log_event (EvPrint ("ERROR: " +:+ exn_str e)) w)
       /\ HttpRunnerStdlib.main env (Ok args) w
          = (Ok 1, log_event (EvPrint ("ERROR: " +:+ exn_str e)) w).
Proof.
  intros Hj Hd.
  destruct (parse_body_both_sources (lib env) args w j d Hj Hd) as [Hb1 Hb2].
  split; [exact Hb1 |]. split; [exact Hb2 |].
  destruct (run_both_sources env args w j d Hj Hd) as (e & Hr1 & Hr2 & He & Hwf).
  exists e. split; [exact He |]. split; [exact Hwf |].
  split; [exact Hr1 |]. split; [exact Hr2 |].
  rewrite requests_main_of_run, urllib_main_of_run, Hr1, Hr2.
  unfold exit_of_run. unfold is_Exception in He.
  destruct (exn_cls e); try discriminate; split; reflexivity.
Qed.

Lemma both_body_sources_rejected_witness :
  let args := Sample.with_bodies (Some "{}") (Some "a=b") Sample.args in
  HttpRunner.parse_body Sample.lib args Sample.disk_empty
  = (Raise both_sources_error, Sample.disk_empty)
  /\ HttpRunnerStdlib.parse_body Sample.lib args Sample.disk_empty
     = (Raise both_sources_error, Sample.disk_empty)
  /\ exists e,
       is_Exception e = true
       /\ (pairs_well_formed args = true -> e = both_sources_error)
       /\ HttpRunner.run_concurrent_requests (Sample.env_status 200) args
            Sample.disk_empty = (Raise e, Sample.disk_empty)
       /\ HttpRunnerStdlib.run_concurrent_requests (Sample.env_status 200) args
            Sample.disk_empty = (Raise e, Sample.disk_empty)
       /\ HttpRunner.main (Sample.env_status 200) (Ok args) Sample.disk_empty
          = (Ok 1, log_event (EvPrint ("ERROR: " +:+ exn_str e)) Sample.disk_empty)
       /\ HttpRunnerStdlib.main (Sample.env_status 200) (Ok args) Sample.disk_empty
          = (Ok 1, log_event (EvPrint ("ERROR: " +:+ exn_str e)) Sample.disk_empty).
Proof.
  apply (both_body_sources_rejected (Sample.env_status 200)
           (Sample.with_bodies (Some "{}") (Some "a=b") Sample.args)
           Sample.disk_empty "{}" "a=b"); reflexivity.
Defined.

(* ===================================================================== *)
(** * Exit codes *)
(* ===================================================================== *)

(** A malformed pair, cookie or header stops the run in its validation,
    in the world it started from. *)
Lemma run_malformed_pairs env args w :
  pairs_well_formed args = false ->
  exists e,
    is_Exception e = true
    /\ HttpRunner.run_concurrent_requests env args w = (Raise e, w)
    /\ HttpRunnerStdlib.run_concurrent_requests env args w = (Raise e, w).
Proof.
  unfold pairs_well_formed, HttpRunner.run_concurrent_requests,
    HttpRunnerStdlib.run_concurrent_requests, lift.
  change HttpRunnerStdlib.parse_key_value_pairs
    with HttpRunner.parse_key_value_pairs.
  change HttpRunnerStdlib.parse_header_pairs with HttpRunner.parse_header_pairs.
  unfold bind.
  destruct (HttpRunner.parse_key_value_pairs (entries (param args)) "=")
    as [params | e] eqn:E1.
  2:{ intros _. exists e. split; [| split; reflexivity].
      eapply parse_key_value_pairs_Exception; eassumption. }
  destruct (HttpRunner.parse_key_value_pairs (entries (cookie args)) "=")
    as [cookies | e] eqn:E2.
  2:{ intros _. exists e. split; [| split; reflexivity].
      eapply parse_key_value_pairs_Exception; eassumption. }
  destruct (HttpRunner.parse_header_pairs (entries (header args)))
    as [headers | e] eqn:E3.
  2:{ intros _. exists e. split; [| split; reflexivity].
      eapply parse_header_pairs_Exception; eassumption. }
  discriminate.
Qed.

(** C8.  The exit code of [main], in both programs.  When the run
    returns its list of records, whatever they are, [main] returns 0.
    When the run raises an [Exception], [main] prints it and returns 1;
    this is the case of the validation failures: a malformed pair, cookie
    or header, or both body sources, which raise before anything else
    happens.  When the run raises [KeyboardInterrupt], [main] prints
    [Interrupted] and returns 130. *)
Theorem exit_codes env args w :
  (forall results w1,
      HttpRunner.run_concurrent_requests env args w = (Ok results, w1) ->
      HttpRunner.main env (Ok args) w = (Ok 0, w1))
  /\ (forall results w1,
         HttpRunnerStdlib.run_concurrent_requests env args w = (Ok results, w1) ->
         HttpRunnerStdlib.main env (Ok args) w = (Ok 0, w1))
  /\ (forall e w1,
         HttpRunner.run_concurrent_requests env args w = (Raise e, w1) ->
         is_Exception e = true ->
         HttpRunner.main env (Ok args) w
         = (Ok 1, log_event (EvPrint ("ERROR: " +:+ exn_str e)) w1))
  /\ (forall e w1,
         HttpRunnerStdlib.run_concurrent_requests env args w = (Raise e, w1) ->
         is_Exception e = true ->
         HttpRunnerStdlib.main env (Ok args) w
         = (Ok 1, log_event (EvPrint ("ERROR: " +:+ exn_str e)) w1))
  /\ (pairs_well_formed args = false
      \/ (present (json args) && present (data args) = true) ->
      exists e,
        HttpRunner.main env (Ok args) w
        = (Ok 1, log_event (EvPrint ("ERROR: " +:+ exn_str e)) w)
        /\ HttpRunnerStdlib.main env (Ok args) w
           = (Ok 1, log_event (EvPrint ("ERROR: " +:+ exn_str e)) w))
  /\ (forall e w1,
         HttpRunner.run_concurrent_requests env args w = (Raise e, w1) ->
         exn_cls e = KeyboardInterrupt ->
         HttpRunner.main env (Ok args) w
         = (Ok 130, log_event (EvPrint "Interrupted") w1))
  /\ (forall e w1,
         HttpRunnerStdlib.run_concurrent_requests env args w = (Raise e, w1) ->
         exn_cls e = KeyboardInterrupt ->
         HttpRunnerStdlib.main env (Ok args) w
         = (Ok 130, log_event (EvPrint "Interrupted") w1)).
Proof.
  assert (Hexit1 : forall e w1, is_Exception e = true ->
            exit_of_run (Raise e, w1)
            = (Ok 1, log_event (EvPrint ("ERROR: " +:+ exn_str e)) w1)).
  { intros e w1 He. unfold exit_of_run. unfold is_Exception in He.
    destruct (exn_cls e); try discriminate; reflexivity. }
  repeat split.
  - intros results w1 Hrun. now rewrite requests_main_of_run, Hrun.
  - intros results w1 Hrun. now rewrite urllib_main_of_run, Hrun.
  - intros e w1 Hrun He. rewrite requests_main_of_run, Hrun. now apply Hexit1.
  - intros e w1 Hrun He. rewrite urllib_main_of_run, Hrun. now apply Hexit1.
  - intros [Hpairs | Hboth].
    + destruct (run_malformed_pairs env args w Hpairs) as (e & He & Hr1 & Hr2).
      exists e. rewrite requests_main_of_run, urllib_main_of_run, Hr1, Hr2.
      split; now apply Hexit1.
    + destruct (json args) as [j |] eqn:Ej; [| discriminate].
      destruct (data args) as [d |] eqn:Ed; [| discriminate].
      destruct (run_both_sources env args w j d Ej Ed) as (e & Hr1 & Hr2 & He & _).
      exists e. rewrite requests_main_of_run, urllib_main_of_run, Hr1, Hr2.
      split; now apply Hexit1.
  - intros e w1 Hrun He. rewrite requests_main_of_run, Hrun.
    unfold exit_of_run. now rewrite He.
  - intros e w1 Hrun He. rewrite urllib_main_of_run, Hrun.
    unfold exit_of_run. now rewrite He.
Qed.

Lemma exit_codes_witness :
  let failing := HttpRunner.run_concurrent_requests Sample.env_timeout
                   Sample.args Sample.disk_empty in
  let malformed := Sample.with_params ["novalue"] Sample.args in
  let interrupted := HttpRunnerStdlib.run_concurrent_requests
                       Sample.env_interrupted Sample.args Sample.disk_empty in
  HttpRunner.main Sample.env_timeout (Ok Sample.args) Sample.disk_empty
  = (Ok 0, snd failing)
  /\ (exists e,
         HttpRunner.main (Sample.env_status 200) (Ok malformed) Sample.disk_empty
         = (Ok 1, log_event (EvPrint ("ERROR: " +:+ exn_str e)) Sample.disk_empty)
         /\ HttpRunnerStdlib.main (Sample.env_status 200) (Ok malformed)
              Sample.disk_empty
            = (Ok 1, log_event (EvPrint ("ERROR: " +:+ exn_str e))
                       Sample.disk_empty))
  /\ HttpRunnerStdlib.main Sample.env_interrupted (Ok Sample.args)
       Sample.disk_empty
     = (Ok 130, log_event (EvPrint "Interrupted") (snd interrupted)).
Proof.
  intros failing malformed interrupted. split; [| split].
  - apply (proj1 (exit_codes Sample.env_timeout Sample.args Sample.disk_empty)
             [Failure "request" "Read timed out. (call 2)"] (snd failing)).
    reflexivity.
  - apply (proj1 (proj2 (proj2 (proj2 (proj2
             (exit_codes (Sample.env_status 200) malformed Sample.disk_empty)))))).
    left. reflexivity.
  - apply (proj2 (proj2 (proj2 (proj2 (proj2 (proj2
             (exit_codes Sample.env_interrupted Sample.args Sample.disk_empty))))))
             (Exn KeyboardInterrupt "") (snd interrupted)); reflexivity.
Defined.

(** Three runs of [main]: every request times out and the only record is
    a failure, exit code 0; a malformed parameter, exit code 1 and no
    request; an interrupt while waiting for the first completion, exit
    code 130. *)
Example exit_code_examples :
  let failing := HttpRunner.main Sample.env_timeout (Ok Sample.args)
                   Sample.disk_empty in
  let malformed := HttpRunner.main (Sample.env_status 200)
                     (Ok (Sample.with_params ["novalue"] Sample.args))
                     Sample.disk_empty in
  let interrupted := HttpRunnerStdlib.main Sample.env_interrupted (Ok Sample.args)
                       Sample.disk_empty in
  fst failing = Ok 0
  /\ fst (HttpRunner.run_concurrent_requests Sample.env_timeout Sample.args
            Sample.disk_empty)
     = Ok [Failure "request" "Read timed out. (call 2)"]
  /\ fst malformed = Ok 1
  /\ log (snd malformed)
     = [EvPrint "ERROR: Invalid pair 'novalue'. Expected format key=value"]
  /\ fst interrupted = Ok 130
  /\ last (log (snd interrupted)) = Some (EvPrint "Interrupted").
Proof. repeat split; reflexivity. Qed.

(* ===================================================================== *)
(** * [json.dumps] writes one line *)
(* ===================================================================== *)

Lemma chars_append a b : chars (a +:+ b) = chars a ++ chars b.
Proof.
  induction a as [| c a IH]; [reflexivity |].
  change (c :: chars (a +:+ b) = c :: (chars a ++ chars b)). now rewrite IH.
Qed.

Lemma one_line_append a b : one_line (a +:+ b) = one_line a && one_line b.
Proof. unfold one_line. now rewrite chars_append, forallb_app. Qed.

Lemma one_line_escape_char c : one_line (Json.escape_char c) = true.
Proof. destruct c as [[] [] [] [] [] [] [] []]; reflexivity. Qed.

Lemma one_line_escape s : one_line (Json.escape s) = true.
Proof.
  induction s as [| c s IH]; cbn [Json.escape]; [reflexivity |].
  now rewrite one_line_append, one_line_escape_char, IH.
Qed.

Lemma one_line_encode_str s : one_line (Json.encode_str s) = true.
Proof.
  unfold Json.encode_str. now rewrite !one_line_append, one_line_escape.
Qed.

Lemma line_char_digit n : line_char (digit n) = true.
Proof.
  unfold digit.
  assert (H : (n mod 10 < 10)%N) by (apply N.mod_lt; discriminate).
  destruct (n mod 10)%N as [| p]; [reflexivity |].
  do 4 (destruct p as [p | p |]; try reflexivity; try (exfalso; lia)).
Qed.

Lemma one_line_String c s : one_line (String c s) = line_char c && one_line s.
Proof. reflexivity. Qed.

Lemma one_line_digits_of fuel n acc :
  one_line acc = true -> one_line (digits_of fuel n acc) = true.
Proof.
  revert n acc. induction fuel as [| fuel IH]; intros n acc Hacc;
    cbn [digits_of].
  - now rewrite one_line_String, line_char_digit, Hacc.
  - assert (Hacc' : one_line (String (digit n) acc) = true)
      by now rewrite one_line_String, line_char_digit, Hacc.
    destruct (n / 10 =? 0)%N; [exact Hacc' | apply IH, Hacc'].
Qed.

Lemma one_line_str_of_int z : one_line (str_of_int z) = true.
Proof.
  unfold str_of_int, str_of_N.
  destruct z; try rewrite one_line_append; cbn [andb];
    try apply one_line_digits_of; reflexivity.
Qed.

Lemma float_char_line_char c : float_char c = true -> line_char c = true.
Proof.
  destruct c as [[] [] [] [] [] [] [] []]; vm_compute; intros H;
    first [reflexivity | discriminate H].
Qed.

Lemma one_line_float_chars l :
  forallb float_char l = true -> forallb line_char l = true.
Proof.
  induction l as [| c l IH]; [reflexivity |]. cbn [forallb]. intros H.
  apply andb_prop in H as [Hc Hl].
  now rewrite (float_char_line_char c Hc), (IH Hl).
Qed.

Lemma one_line_encode_float f : one_line (Json.encode_float f) = true.
Proof.
  unfold Json.encode_float.
  destruct (String.eqb (float_repr f) "nan"); [reflexivity |].
  destruct (String.eqb (float_repr f) "inf"); [reflexivity |].
  destruct (String.eqb (float_repr f) "-inf"); [reflexivity |].
  apply one_line_float_chars, float_repr_wf.
Qed.

Lemma one_line_join sep l :
  one_line sep = true -> forallb one_line l = true ->
  one_line (join sep l) = true.
Proof.
  intros Hsep. induction l as [| x l IH]; intros Hl; [reflexivity |].
  cbn in Hl. apply andb_prop in Hl as [Hx Hl].
  destruct l as [| y l]; [exact Hx |].
  change (join sep (x :: y :: l)) with (x +:+ sep +:+ join sep (y :: l)).
  now rewrite !one_line_append, Hx, Hsep, (IH Hl).
Qed.

Lemma one_line_container level open close items :
  one_line open = true -> one_line close = true ->
  forallb one_line items = true ->
  one_line (Json.container None level open close items) = true.
Proof.
  intros Ho Hc Hitems. unfold Json.container.
  destruct items as [| x l]; [now rewrite one_line_append, Ho, Hc |].
  cbn [Json.item_break Json.item_sep].
  rewrite !one_line_append, Ho, Hc, one_line_join; auto.
Qed.

(** Induction on JSON values, with the hypothesis for the items of an
    array and the members of an object. *)
Fixpoint json_induction (P : Json.json -> Prop)
    (Hnull : P JNull) (Hbool : forall b, P (JBool b))
    (Hint : forall z, P (JInt z)) (Hfloat : forall f, P (JFloat f))
    (Hstr : forall s, P (JStr s))
    (Harr : forall items, List.Forall P items -> P (JArr items))
    (Hobj : forall members, List.Forall (fun m => P (snd m)) members ->
                            P (JObj members))
    (j : Json.json) {struct j} : P j :=
  let rec := json_induction P Hnull Hbool Hint Hfloat Hstr Harr Hobj in
  match j with
  | JNull => Hnull
  | JBool b => Hbool b
  | JInt z => Hint z
  | JFloat f => Hfloat f
  | JStr s => Hstr s
  | JArr items =>
      Harr items
        ((fix all (l : list Json.json) : List.Forall P l :=
            match l with
            | [] => @List.Forall_nil _ P
            | x :: l' => @List.Forall_cons _ P x l' (rec x) (all l')
            end) items)
  | JObj members =>
      Hobj members
        ((fix all (l : list (string * Json.json))
            : List.Forall (fun m => P (snd m)) l :=
            match l with
            | [] => @List.Forall_nil _ (fun m => P (snd m))
            | m :: l' =>
                @List.Forall_cons _ (fun m => P (snd m)) m l' (rec (snd m)) (all l')
            end) members)
  end.

(** Without [indent], [json.dumps] never writes a line feed or a
    carriage return: those inside strings are escaped. *)
Lemma one_line_dumps_at j : forall level, one_line (Json.dumps_at None level j) = true.
Proof.
  induction j using json_induction; intros level; cbn [Json.dumps_at].
  - reflexivity.
  - destruct b; reflexivity.
  - apply one_line_str_of_int.
  - apply one_line_encode_float.
  - apply one_line_encode_str.
  - apply one_line_container; try reflexivity.
    induction H as [| x l Hx Hl IH]; [reflexivity |].
    cbn. now rewrite Hx, IH.
  - apply one_line_container; try reflexivity.
    induction H as [| m l Hm Hl IH]; [reflexivity |].
    cbn [forallb map]. rewrite !one_line_append, one_line_encode_str, Hm, IH.
    reflexivity.
Qed.

Lemma one_line_dumps j : one_line (Json.dumps j) = true.
Proof. apply one_line_dumps_at. Qed.

(* ===================================================================== *)
(** * The JSON Lines output *)
(* ===================================================================== *)

(** Text written as UTF-8 is read back as it was. *)
Lemma decode_utf8_char c l :
  decode_utf8_list (utf8_char c ++ l) = option_map (cons c) (decode_utf8_list l).
Proof. destruct c as [[] [] [] [] [] [] [] []]; reflexivity. Qed.

Lemma decode_encode_utf8 s : decode_utf8 (encode_utf8 s) = Ok s.
Proof.
  unfold decode_utf8, encode_utf8.
  assert (H : decode_utf8_list (flat_map utf8_char (chars s)) = Some (chars s)).
  { induction (chars s) as [| c l IH]; [reflexivity |].
    cbn [flat_map]. now rewrite decode_utf8_char, IH. }
  now rewrite H, str_chars.
Qed.

(** Reading a line that has no line break in it, up to its line feed. *)
Lemma file_lines_from_line l cur rest :
  forallb line_char l = true ->
  file_lines_from cur (l ++ ascii_of_N 10 :: rest)
  = str (rev cur ++ l) :: file_lines_from [] rest.
Proof.
  revert cur. induction l as [| c l IH]; intros cur Hl.
  - cbn. now rewrite app_nil_r.
  - cbn [forallb] in Hl. apply andb_prop in Hl as [Hc Hl].
    unfold line_char in Hc. apply negb_true_iff, orb_false_iff in Hc as [H10 H13].
    cbn [app file_lines_from]. rewrite H10, H13, (IH _ Hl).
    cbn [rev]. now rewrite <- app_assoc.
Qed.

(** The text of the output, read back line by line, is the [json.dumps]
    of each record in turn. *)
Lemma file_lines_jsonl results :
  file_lines (jsonl results)
  = map (fun item => Json.dumps (outcome_json item)) results.
Proof.
  unfold file_lines. induction results as [| item rest IH]; [reflexivity |].
  cbn [jsonl fold_right map]. fold (jsonl rest).
  rewrite !chars_append.
  change (chars Json.newline) with [ascii_of_N 10]. cbn [app].
  rewrite file_lines_from_line by apply one_line_dumps.
  cbn [rev app]. now rewrite str_chars, IH.
Qed.

(** A record has exactly one of the two shapes. *)
Lemma outcome_shape o :
  xorb (success_shape (outcome_json o)) (failure_shape (outcome_json o)) = true.
Proof.
  destruct o as [n s e h | n err]; [| reflexivity].
  cbn. unfold member_is. cbn.
  induction h as [| [k v] h IH]; [reflexivity | exact IH].
Qed.

(** The loop over [as_completed] returns the records of the futures in
    the order it was given them. *)
Lemma collect_results interrupt k completed results w out w' :
  collect interrupt k completed results w = (Ok out, w') ->
  out = results ++ map resolve completed.
Proof.
  revert k results w. induction completed as [| [future name] rest IH];
    intros k results w; cbn [collect].
  - intros [= <- _]. now rewrite app_nil_r.
  - destruct (bool_decide (interrupt = Some k)); [discriminate |].
    intros H. apply bind_Ok_inv in H as (result & w1 & Hres & H).
    apply bind_Ok_inv in H as ([] & w2 & _ & H).
    apply IH in H. rewrite H, <- app_assoc. cbn [map app].
    do 2 f_equal. destruct future as [r | exc]; cbn in Hres |- *.
    + now injection Hres as <- _.
    + destruct (is_Exception exc); [now injection Hres as <- _ | discriminate].
Qed.

(** Writing a file that is not refused stores the bytes. *)
Lemma write_text_stored path text w w' :
  write_text path text w = (Ok tt, w') ->
  files w' !! path = Some (encode_utf8 text) /\ denied w' = denied w.
Proof.
  unfold write_text, write_bytes. destruct (denied w path); [discriminate |].
  intros [= <-]. cbn. now rewrite lookup_insert_eq.
Qed.

Lemma write_output_stored l path text w w' :
  write_output l path text w = (Ok tt, w') ->
  files w' !! path = Some (encode_utf8 text) /\ denied w' = denied w.
Proof.
  unfold write_output. destruct (made_directory l (log w) path);
    [discriminate | apply write_text_stored].
Qed.

(** [as_completed] yields every future once: its result is a
    rearrangement of the futures. *)
Lemma take_out_Permutation {A} i (l : list A) x r :
  take_out i l = Some (x, r) -> Permutation l (x :: r).
Proof.
  revert i x r. induction l as [| y l IH]; intros i x r; cbn; [discriminate |].
  destruct i as [| i].
  - now intros [= <- <-].
  - destruct (take_out i l) as [[z r'] |] eqn:E; [| discriminate].
    intros [= <- <-]. rewrite (IH _ _ _ E). apply perm_swap.
Qed.

Lemma take_out_in_range {A} i (l : list A) :
  (i < length l)%nat -> exists x r, take_out i l = Some (x, r).
Proof.
  revert i. induction l as [| y l IH]; intros i Hi; cbn in *; [lia |].
  destruct i as [| i]; [eauto |].
  destruct (IH i) as (x & r & ->); [lia | eauto].
Qed.

Lemma as_completed_Permutation {A} pick (futures : list A) :
  Permutation (as_completed pick futures) futures.
Proof.
  unfold as_completed. generalize 0%nat as k.
  remember (length futures) as n eqn:Hn. revert futures Hn.
  induction n as [| n IH]; intros futures Hn k; cbn [as_completed_from].
  - destruct futures; [reflexivity | discriminate].
  - destruct (take_out_in_range (pick k mod length futures) futures)
      as (x & r & E).
    { apply Nat.mod_upper_bound. lia. }
    rewrite E. pose proof (take_out_Permutation _ _ _ _ E) as Hperm.
    rewrite Hperm. constructor. apply IH.
    apply Permutation_length in Hperm. cbn in Hperm. lia.
Qed.

(** The run behind the witness: the tokens [alice], [bob] and
    [../../etc/passwd], the last of which completes first. *)
Example three_sessions :
  let r := HttpRunner.run_concurrent_requests Sample.env_reordered
             Sample.args_sessions Sample.disk_sessions in
  option_map outcome_name_list (match fst r with Ok l => Some l | Raise _ => None end)
  = Some ["../../etc/passwd"; "alice"; "bob"]
  /\ option_map (fun b => length (file_lines (match decode_utf8 b with
                                               | Ok text => text
                                               | Raise _ => ""
                                               end)))
       (files (snd r) !! "out.jsonl") = Some 3%nat.
Proof. split; vm_compute; reflexivity. Qed.

(* ===================================================================== *)
(** * What a run hands to the transport *)
(* ===================================================================== *)

Section LogsOnly.

Variable C : net_call -> Prop.

Lemma logs_only_ret {A} (a : A) : logs_only (calls_are C) (ret a).
Proof. intros w r w' [= <- <-]. exists []. now rewrite app_nil_r. Qed.

Lemma logs_only_raise {A} e : logs_only (calls_are C) (@raise A e).
Proof. intros w r w' [= <- <-]. exists []. now rewrite app_nil_r. Qed.

Lemma logs_only_lift {A} (x : res A) : logs_only (calls_are C) (lift x).
Proof. intros w r w' [= <- <-]. exists []. now rewrite app_nil_r. Qed.

Lemma logs_only_bind {A B} (m : M A) (k : A -> M B) :
  logs_only (calls_are C) m -> (forall a, logs_only (calls_are C) (k a)) ->
  logs_only (calls_are C) (bind m k).
Proof.
  intros Hm Hk w r w'. unfold bind.
  destruct (m w) as [[a | e] w1] eqn:Em; intros H.
  - destruct (Hm _ _ _ Em) as (evs1 & Hl1 & Hq1).
    destruct (Hk a _ _ _ H) as (evs2 & Hl2 & Hq2).
    exists (evs1 ++ evs2). rewrite Hl2, Hl1, <- app_assoc.
    split; [reflexivity | now apply List.Forall_app].
  - injection H as <- <-. exact (Hm _ _ _ Em).
Qed.

Lemma logs_only_try_except {A} (m : M A) (handler : exn -> M A) :
  logs_only (calls_are C) m -> (forall e, logs_only (calls_are C) (handler e)) ->
  logs_only (calls_are C) (try_except m handler).
Proof.
  intros Hm Hh w r w'. unfold try_except.
  destruct (m w) as [[a | e] w1] eqn:Em; intros H.
  - injection H as <- <-. exact (Hm _ _ _ Em).
  - destruct (is_Exception e).
    + destruct (Hm _ _ _ Em) as (evs1 & Hl1 & Hq1).
      destruct (Hh e _ _ _ H) as (evs2 & Hl2 & Hq2).
      exists (evs1 ++ evs2). rewrite Hl2, Hl1, <- app_assoc.
      split; [reflexivity | now apply List.Forall_app].
    + injection H as <- <-. exact (Hm _ _ _ Em).
Qed.

Lemma logs_only_when b (m : M unit) :
  logs_only (calls_are C) m -> logs_only (calls_are C) (when b m).
Proof. intros Hm. destruct b; [exact Hm | apply logs_only_ret]. Qed.

Lemma logs_only_emit ev : calls_are C ev -> logs_only (calls_are C) (emit ev).
Proof.
  intros Hev w r w' [= <- <-]. exists [ev]. split; [reflexivity |].
  now constructor.
Qed.

Lemma logs_only_sleep_ms l ms : logs_only (calls_are C) (sleep_ms l ms).
Proof.
  unfold sleep_ms. destruct (sleep_error l ms);
    [apply logs_only_raise | apply logs_only_emit; exact I].
Qed.

Lemma logs_only_isfile path : logs_only (calls_are C) (isfile path).
Proof. intros w r w' [= <- <-]. exists []. now rewrite app_nil_r. Qed.

Lemma logs_only_read_bytes path : logs_only (calls_are C) (read_bytes path).
Proof.
  intros w r w'. unfold read_bytes.
  destruct (files w !! path); intros [= <- <-]; exists [];
    now rewrite app_nil_r.
Qed.

Lemma logs_only_read_text path : logs_only (calls_are C) (read_text path).
Proof.
  apply logs_only_bind; [apply logs_only_read_bytes |].
  intros b. apply logs_only_lift.
Qed.

Lemma logs_only_write_bytes path data :
  logs_only (calls_are C) (write_bytes path data).
Proof.
  intros w r w'. unfold write_bytes.
  destruct (denied w path); intros [= <- <-].
  - exists []. now rewrite app_nil_r.
  - exists [EvWrite path data]. split; [reflexivity |]. now repeat constructor.
Qed.

Lemma logs_only_write_output l path text :
  logs_only (calls_are C) (write_output l path text).
Proof.
  intros w r w'. unfold write_output.
  destruct (made_directory l (log w) path); [| apply logs_only_write_bytes].
  intros [= <- <-]. exists []. now rewrite app_nil_r.
Qed.

Lemma logs_only_makedirs path : logs_only (calls_are C) (makedirs path).
Proof.
  intros w r w'. unfold makedirs.
  destruct (files w !! path); [| destruct (denied w path)]; intros [= <- <-].
  - exists []. now rewrite app_nil_r.
  - exists []. now rewrite app_nil_r.
  - exists [EvMakedirs path]. split; [reflexivity |]. now repeat constructor.
Qed.

Lemma logs_only_submit {A} (task : M A) :
  logs_only (calls_are C) task -> logs_only (calls_are C) (submit task).
Proof.
  intros Ht w r w'. unfold submit.
  destruct (task w) as [x w1] eqn:Et. intros [= <- <-]. exact (Ht _ _ _ Et).
Qed.

Lemma logs_only_for_each {A B} (l : list A) (body : A -> M B) :
  (forall x, logs_only (calls_are C) (body x)) ->
  logs_only (calls_are C) (for_each l body).
Proof.
  intros Hbody. induction l as [| x l IH]; cbn [for_each].
  - apply logs_only_ret.
  - apply logs_only_bind; [apply Hbody |]. intros y.
    apply logs_only_bind; [exact IH |]. intros ys. apply logs_only_ret.
Qed.

Lemma logs_only_collect interrupt k completed results :
  logs_only (calls_are C) (collect interrupt k completed results).
Proof.
  revert k results. induction completed as [| [future name] rest IH];
    intros k results; cbn [collect].
  - apply logs_only_ret.
  - destruct (bool_decide (interrupt = Some k)); [apply logs_only_raise |].
    apply logs_only_bind.
    + destruct future as [r | exc]; [apply logs_only_ret |].
      destruct (is_Exception exc); [apply logs_only_ret | apply logs_only_raise].
    + intros result. apply logs_only_bind; [| intros _; apply IH].
      destruct result; now apply logs_only_emit.
Qed.

Lemma logs_only_retry_while {A} fuel retries (body : Z -> M A) otherwise :
  (forall a, logs_only (calls_are C) (body a)) ->
  (forall last, logs_only (calls_are C) (otherwise last)) ->
  forall a last,
    logs_only (calls_are C) (retry_while fuel retries body otherwise a last).
Proof.
  intros Hbody Hotherwise.
  induction fuel as [| fuel IH]; intros a last; cbn [retry_while];
    destruct (a <=? retries); auto using logs_only_raise.
  apply logs_only_try_except; auto.
Qed.

Lemma logs_only_save_record dir name record save_body content :
  logs_only (calls_are C)
    (HttpRunner.save_record dir name record save_body content).
Proof.
  unfold HttpRunner.save_record.
  apply logs_only_bind; [apply logs_only_makedirs | intros _].
  apply logs_only_bind; [apply logs_only_write_bytes | intros _].
  apply logs_only_when, logs_only_write_bytes.
Qed.

End LogsOnly.

(** One step of a proof that a computation logs only certain events:
    the rule of its head, after a case analysis when it branches. *)
Ltac logs_only_step :=
  lazymatch goal with
  | |- logs_only _ (ret _) => apply logs_only_ret
  | |- logs_only _ (raise _) => apply logs_only_raise
  | |- logs_only _ (lift _) => apply logs_only_lift
  | |- logs_only _ (isfile _) => apply logs_only_isfile
  | |- logs_only _ (read_text _) => apply logs_only_read_text
  | |- logs_only _ (read_bytes _) => apply logs_only_read_bytes
  | |- logs_only _ (write_bytes _ _) => apply logs_only_write_bytes
  | |- logs_only _ (write_text _ _) => apply logs_only_write_bytes
  | |- logs_only _ (write_output _ _ _) => apply logs_only_write_output
  | |- logs_only _ (makedirs _) => apply logs_only_makedirs
  | |- logs_only _ (sleep_ms _ _) => apply logs_only_sleep_ms
  | |- logs_only _ (print _) => apply logs_only_emit; exact I
  | |- logs_only _ (collect _ _ _ _) => apply logs_only_collect
  | |- logs_only _ (HttpRunner.save_record _ _ _ _ _) =>
      apply logs_only_save_record
  | |- logs_only _ (HttpRunnerStdlib.save_record _ _ _ _ _) =>
      apply logs_only_save_record
  | |- logs_only _ (when _ _) => apply logs_only_when
  | |- logs_only _ (submit _) => apply logs_only_submit
  | |- logs_only _ (for_each _ _) => apply logs_only_for_each; intros
  | |- logs_only _ (bind _ _) => apply logs_only_bind; [| intros]
  | |- logs_only _ (retry_while _ _ _ _ _ _) =>
      apply logs_only_retry_while; intros
  | |- logs_only _ (match ?x with _ => _ end) => destruct x
  | |- logs_only _ (let '(_, _) := ?x in _) => destruct x
  end.

Lemma requests_build_request_calls (C : net_call -> Prop) env url method params
    headers cookies timeout allow_redirects verify_tls proxies data json_body :
  C (ViaRequests (HttpRunner.request_kwargs url method params headers cookies
                    timeout allow_redirects verify_tls proxies data json_body)) ->
  logs_only (calls_are C)
    (HttpRunner.build_request env url method params headers cookies timeout
       allow_redirects verify_tls proxies data json_body).
Proof.
  intros HC w r w'. unfold HttpRunner.build_request.
  destruct (requests_net env _ _); intros [= <- <-];
    (eexists; split; [reflexivity |]; now repeat constructor).
Qed.

Lemma urllib_build_and_send_request_calls (C : net_call -> Prop) env url method
    params headers cookies timeout allow_redirects verify_tls proxies
    data_bytes json_bytes :
  C (ViaUrllib (HttpRunnerStdlib.request_of (lib env) url method params headers
                  cookies timeout allow_redirects verify_tls proxies
                  data_bytes json_bytes)) ->
  logs_only (calls_are C)
    (HttpRunnerStdlib.build_and_send_request env url method params headers
       cookies timeout allow_redirects verify_tls proxies data_bytes json_bytes).
Proof.
  intros HC w r w'. unfold HttpRunnerStdlib.build_and_send_request.
  destruct (request_error _ _ _).
  { intros [= <- <-]. exists []. now rewrite app_nil_r. }
  destruct (urllib_net env _ _); intros [= <- <-];
    (eexists; split; [reflexivity |]; now repeat constructor).
Qed.

(** Every request of a call of [perform_request_with_retries] carries
    the body arguments the call was given. *)
Lemma requests_perform_calls env name url method params base_headers
    base_cookies session_value session_header_name session_cookie_name timeout
    allow_redirects verify_tls proxies data json_body retries backoff_base_ms
    delay_between_ms save_dir save_body :
  logs_only
    (calls_are (fun c => exists q, c = ViaRequests q
                                   /\ rc_json q = json_body /\ rc_data q = data))
    (HttpRunner.perform_request_with_retries env name url method params
       base_headers base_cookies session_value session_header_name
       session_cookie_name timeout allow_redirects verify_tls proxies
       data json_body retries backoff_base_ms delay_between_ms
       save_dir save_body).
Proof.
  unfold HttpRunner.perform_request_with_retries, HttpRunner.attempt_once.
  repeat first
    [ apply requests_build_request_calls; eexists; repeat split
    | logs_only_step ].
Qed.

Lemma urllib_perform_calls env name url method params base_headers
    base_cookies session_value session_header_name session_cookie_name timeout
    allow_redirects verify_tls proxies data_bytes json_bytes retries
    backoff_base_ms delay_between_ms save_dir save_body :
  logs_only
    (calls_are (fun c => exists u, c = ViaUrllib u
                                   /\ uc_data u = body_bytes data_bytes json_bytes))
    (HttpRunnerStdlib.perform_request_with_retries env name url method params
       base_headers base_cookies session_value session_header_name
       session_cookie_name timeout allow_redirects verify_tls proxies
       data_bytes json_bytes retries backoff_base_ms delay_between_ms
       save_dir save_body).
Proof.
  unfold HttpRunnerStdlib.perform_request_with_retries,
    HttpRunnerStdlib.attempt_once.
  repeat first
    [ apply urllib_build_and_send_request_calls; eexists; split;
      [reflexivity |];
      unfold HttpRunnerStdlib.request_of, body_bytes; cbn [uc_data];
      destruct json_bytes, data_bytes; reflexivity
    | logs_only_step ].
Qed.

(* ===================================================================== *)
(** * The body of the requests *)
(* ===================================================================== *)

Lemma reads_only_ret {A} (a : A) : reads_only (ret a).
Proof. now intros w r w' [= _ <-]. Qed.

Lemma reads_only_raise {A} e : reads_only (@raise A e).
Proof. now intros w r w' [= _ <-]. Qed.

Lemma reads_only_lift {A} (x : res A) : reads_only (lift x).
Proof. now intros w r w' [= _ <-]. Qed.

Lemma reads_only_bind {A B} (m : M A) (k : A -> M B) :
  reads_only m -> (forall a, reads_only (k a)) -> reads_only (bind m k).
Proof.
  intros Hm Hk w r w'. unfold bind.
  destruct (m w) as [[a | e] w1] eqn:Em; intros H.
  - apply Hk in H. apply Hm in Em. congruence.
  - injection H as _ <-. now apply Hm in Em.
Qed.

Lemma reads_only_isfile path : reads_only (isfile path).
Proof. now intros w r w' [= _ <-]. Qed.

Lemma reads_only_read_bytes path : reads_only (read_bytes path).
Proof.
  intros w r w'. unfold read_bytes.
  destruct (files w !! path); now intros [= _ <-].
Qed.

Lemma reads_only_read_text path : reads_only (read_text path).
Proof.
  apply reads_only_bind; [apply reads_only_read_bytes |].
  intros b. apply reads_only_lift.
Qed.

Ltac reads_only_step :=
  lazymatch goal with
  | |- reads_only (ret _) => apply reads_only_ret
  | |- reads_only (raise _) => apply reads_only_raise
  | |- reads_only (lift _) => apply reads_only_lift
  | |- reads_only (isfile _) => apply reads_only_isfile
  | |- reads_only (read_text _) => apply reads_only_read_text
  | |- reads_only (read_bytes _) => apply reads_only_read_bytes
  | |- reads_only (bind _ _) => apply reads_only_bind; [| intros]
  | |- reads_only (match ?x with _ => _ end) => destruct x
  end.

(** [parse_body] reads files and changes nothing. *)
Lemma requests_parse_body_reads_only l args :
  reads_only (HttpRunner.parse_body l args).
Proof.
  unfold HttpRunner.parse_body, HttpRunner.load_json_from_file.
  repeat reads_only_step.
Qed.

Lemma urllib_parse_body_reads_only l args :
  reads_only (HttpRunnerStdlib.parse_body l args).
Proof.
  unfold HttpRunnerStdlib.parse_body, HttpRunnerStdlib.load_json_from_file.
  repeat reads_only_step.
Qed.

(** [parse_body] of [http_runner_stdlib.py], given a JSON source: the
    second component is the UTF-8 of the [json.dumps] of the document the
    source decodes to, and there are no raw-data bytes. *)
Lemma urllib_parse_body_json l args w src d jb w1 :
  json args = Some src ->
  HttpRunnerStdlib.parse_body l args w = (Ok (d, jb), w1) ->
  d = None
  /\ exists text obj,
       json_loads l text = inr obj /\ jb = Some (encode_utf8 (Json.dumps obj)).
Proof.
  intros Hj. unfold HttpRunnerStdlib.parse_body. rewrite Hj.
  destruct (data args) as [x |]; [discriminate |].
  intros H. apply bind_Ok_inv in H as (jb' & w2 & Hjson & H).
  apply bind_Ok_inv in H as (d' & w3 & Hdata & H).
  injection Hdata as <- <-. injection H as <- <- _.
  split; [reflexivity |].
  apply bind_Ok_inv in Hjson as (is_file & w4 & _ & Hjson).
  apply bind_Ok_inv in Hjson as (obj & w5 & Hobj & Hjson).
  injection Hjson as <- _.
  destruct is_file.
  - unfold HttpRunnerStdlib.load_json_from_file in Hobj.
    apply bind_Ok_inv in Hobj as (text & w6 & _ & Hobj).
    destruct (json_loads l text) as [msg | v] eqn:Eloads; [discriminate |].
    injection Hobj as <- _. eauto.
  - destruct (json_loads l src) as [msg | v] eqn:Eloads; [discriminate |].
    injection Hobj as <- _. eauto.
Qed.

(** [parse_body] of [http_runner.py], given a JSON source: the second
    component is the decoded document itself, and there is no raw data. *)
Lemma requests_parse_body_json l args w src d j w1 :
  json args = Some src ->
  HttpRunner.parse_body l args w = (Ok (d, j), w1) ->
  d = None /\ exists text, json_loads l text = inr j.
Proof.
  intros Hj. unfold HttpRunner.parse_body. rewrite Hj.
  destruct (data args) as [x |]; [discriminate |].
  intros H. apply bind_Ok_inv in H as (j' & w2 & Hjson & H).
  apply bind_Ok_inv in H as (d' & w3 & Hdata & H).
  injection Hdata as <- <-. injection H as <- <- _.
  split; [reflexivity |].
  apply bind_Ok_inv in Hjson as (is_file & w4 & _ & Hjson).
  destruct is_file.
  - unfold HttpRunner.load_json_from_file in Hjson.
    apply bind_Ok_inv in Hjson as (text & w6 & _ & Hobj).
    destruct (json_loads l text) as [msg | v] eqn:Eloads; [discriminate |].
    injection Hobj as <- _. eauto.
  - destruct (json_loads l src) as [msg | v] eqn:Eloads; [discriminate |].
    injection Hjson as <- _. eauto.
Qed.

(** Every request of a run of [http_runner.py] is a call of [requests]
    with the raw data and the decoded document [parse_body] returned. *)
Lemma requests_run_calls env args w d j w1 r w' :
  HttpRunner.parse_body (lib env) args w = (Ok (d, j), w1) ->
  HttpRunner.run_concurrent_requests env args w = (r, w') ->
  exists evs,
    log w' = log w ++ evs
    /\ List.Forall
         (calls_are (fun c => exists q, c = ViaRequests q
                                        /\ rc_json q = j /\ rc_data q = d)) evs.
Proof.
  intros Hbody Hrun.
  pose proof (requests_parse_body_reads_only _ _ _ _ _ Hbody) as ->.
  unfold HttpRunner.run_concurrent_requests, lift in Hrun.
  unfold bind at 1 in Hrun.
  destruct (HttpRunner.parse_key_value_pairs (entries (param args)) "=");
    [| injection Hrun as <- <-; exists []; now rewrite app_nil_r].
  unfold bind at 1 in Hrun.
  destruct (HttpRunner.parse_key_value_pairs (entries (cookie args)) "=");
    [| injection Hrun as <- <-; exists []; now rewrite app_nil_r].
  unfold bind at 1 in Hrun.
  destruct (HttpRunner.parse_header_pairs (entries (header args)));
    [| injection Hrun as <- <-; exists []; now rewrite app_nil_r].
  unfold bind at 1 in Hrun. rewrite Hbody in Hrun. cbn [fst snd] in Hrun.
  revert Hrun.
  match goal with
  | |- ?m w = _ -> _ =>
      assert (Hlogs : logs_only
                (calls_are (fun c => exists q, c = ViaRequests q
                                               /\ rc_json q = j /\ rc_data q = d))
                m)
  end.
  { unfold HttpRunner.names_and_sessions.
    repeat first [apply requests_perform_calls | logs_only_step]. }
  intros Hrun. exact (Hlogs _ _ _ Hrun).
Qed.

(** Every request of a run of [http_runner_stdlib.py] carries the bytes
    [parse_body] returned. *)
Lemma urllib_run_calls env args w d jb w1 r w' :
  HttpRunnerStdlib.parse_body (lib env) args w = (Ok (d, jb), w1) ->
  HttpRunnerStdlib.run_concurrent_requests env args w = (r, w') ->
  exists evs,
    log w' = log w ++ evs
    /\ List.Forall
         (calls_are (fun c => exists u, c = ViaUrllib u
                                        /\ uc_data u = body_bytes d jb)) evs.
Proof.
  intros Hbody Hrun.
  pose proof (urllib_parse_body_reads_only _ _ _ _ _ Hbody) as ->.
  unfold HttpRunnerStdlib.run_concurrent_requests, lift in Hrun.
  unfold bind at 1 in Hrun.
  destruct (HttpRunnerStdlib.parse_key_value_pairs (entries (param args)) "=");
    [| injection Hrun as <- <-; exists []; now rewrite app_nil_r].
  unfold bind at 1 in Hrun.
  destruct (HttpRunnerStdlib.parse_key_value_pairs (entries (cookie args)) "=");
    [| injection Hrun as <- <-; exists []; now rewrite app_nil_r].
  unfold bind at 1 in Hrun.
  destruct (HttpRunnerStdlib.parse_header_pairs (entries (header args)));
    [| injection Hrun as <- <-; exists []; now rewrite app_nil_r].
  unfold bind at 1 in Hrun. rewrite Hbody in Hrun. cbn [fst snd] in Hrun.
  revert Hrun.
  match goal with
  | |- ?m w = _ -> _ =>
      assert (Hlogs : logs_only
                (calls_are (fun c => exists u, c = ViaUrllib u
                                               /\ uc_data u = body_bytes d jb))
                m)
  end.
  { unfold HttpRunnerStdlib.names_and_sessions.
    repeat first [apply urllib_perform_calls | logs_only_step]. }
  intros Hrun. exact (Hlogs _ _ _ Hrun).
Qed.

(** C7, as amended.  In [http_runner_stdlib.py] the JSON body is
    serialised once, inside [parse_body]: its result holds the UTF-8
    bytes of the [json.dumps] of the decoded document, and every request
    of every target of the run carries exactly these bytes.  In
    [http_runner.py], [parse_body] returns the decoded document, not
    bytes, and every request of every target hands this same document to
    [requests] as [json=]. *)
Theorem body_fixed_before_attempts env args w src :
  json args = Some src ->
  (forall d jb w1 r w',
      HttpRunnerStdlib.parse_body (lib env) args w = (Ok (d, jb), w1) ->
      HttpRunnerStdlib.run_concurrent_requests env args w = (r, w') ->
      exists text obj evs,
        json_loads (lib env) text = inr obj
        /\ jb = Some (encode_utf8 (Json.dumps obj))
        /\ log w' = log w ++ evs
        /\ List.Forall
             (calls_are (fun c => exists u, c = ViaUrllib u /\ uc_data u = jb))
             evs)
  /\ (forall d j w1 r w',
         HttpRunner.parse_body (lib env) args w = (Ok (d, j), w1) ->
         HttpRunner.run_concurrent_requests env args w = (r, w') ->
         exists text evs,
           json_loads (lib env) text = inr j
           /\ log w' = log w ++ evs
           /\ List.Forall
                (calls_are (fun c => exists q, c = ViaRequests q
                                               /\ rc_json q = j
                                               /\ rc_data q = None)) evs).
Proof.
  intros Hj. split.
  - intros d jb w1 r w' Hbody Hrun.
    destruct (urllib_parse_body_json _ _ _ _ _ _ _ Hj Hbody)
      as (-> & text & obj & Hloads & ->).
    destruct (urllib_run_calls _ _ _ _ _ _ _ _ Hbody Hrun) as (evs & Hlog & Hevs).
    exists text, obj, evs. repeat split; auto.
  - intros d j w1 r w' Hbody Hrun.
    destruct (requests_parse_body_json _ _ _ _ _ _ _ Hj Hbody)
      as (-> & text & Hloads).
    destruct (requests_run_calls _ _ _ _ _ _ _ _ Hbody Hrun) as (evs & Hlog & Hevs).
    exists text, evs. repeat split; auto.
Qed.

Lemma body_fixed_before_attempts_witness :
  let stdlib_run := HttpRunnerStdlib.run_concurrent_requests Sample.env_timeout
                      Sample.args_json Sample.disk_empty in
  let requests_run := HttpRunner.run_concurrent_requests Sample.env_timeout
                        Sample.args_json Sample.disk_empty in
  (exists text obj evs,
      json_loads Sample.lib text = inr obj
      /\ Some (encode_utf8 "[1]") = Some (encode_utf8 (Json.dumps obj))
      /\ log (snd stdlib_run) = log Sample.disk_empty ++ evs
      /\ List.Forall
           (calls_are (fun c => exists u, c = ViaUrllib u
                                          /\ uc_data u = Some (encode_utf8 "[1]")))
           evs)
  /\ (exists text evs,
         json_loads Sample.lib text = inr (JArr [JInt 1])
         /\ log (snd requests_run) = log Sample.disk_empty ++ evs
         /\ List.Forall
              (calls_are (fun c => exists q, c = ViaRequests q
                                             /\ rc_json q = JArr [JInt 1]
                                             /\ rc_data q = None)) evs).
Proof.
  intros stdlib_run requests_run. split.
  - apply (proj1 (body_fixed_before_attempts Sample.env_timeout Sample.args_json
                    Sample.disk_empty "[1]" eq_refl)
             None (Some (encode_utf8 "[1]")) Sample.disk_empty
             (fst stdlib_run) (snd stdlib_run)).
    + reflexivity.
    + apply surjective_pairing.
  - apply (proj2 (body_fixed_before_attempts Sample.env_timeout Sample.args_json
                    Sample.disk_empty "[1]" eq_refl)
             None (JArr [JInt 1]) Sample.disk_empty
             (fst requests_run) (snd requests_run)).
    + reflexivity.
    + apply surjective_pairing.
Defined.

(** C7 as it stands fails for [http_runner.py].  With the inline JSON
    body [[1]] and a transport that always times out (three attempts):
    [parse_body] returns the decoded list, no bytes; each of the three
    requests is a call of [requests] with [data=None] and [json=] that
    list, so the bytes sent are made from it by [requests] at each call,
    not at build time. *)
Lemma json_body_not_serialised_at_build_time :
  let build := HttpRunner.parse_body Sample.lib Sample.args_json
                 Sample.disk_empty in
  let run := HttpRunner.run_concurrent_requests Sample.env_timeout
               Sample.args_json Sample.disk_empty in
  fst build = Ok (None, JArr [JInt 1])
  /\ exists q,
       List.filter is_call (log (snd run))
       = [EvCall (ViaRequests q); EvCall (ViaRequests q); EvCall (ViaRequests q)]
       /\ rc_data q = None
       /\ rc_json q = JArr [JInt 1].
Proof. split; [reflexivity |]. eexists. repeat split; reflexivity. Qed.

(** The same input in [http_runner_stdlib.py]: the bytes of ["[1]"] come
    out of [parse_body], and each of the three requests carries them. *)
Example json_body_serialised_at_build_time :
  let build := HttpRunnerStdlib.parse_body Sample.lib Sample.args_json
                 Sample.disk_empty in
  let run := HttpRunnerStdlib.run_concurrent_requests Sample.env_timeout
               Sample.args_json Sample.disk_empty in
  fst build = Ok (None, Some (encode_utf8 "[1]"))
  /\ map (fun ev => match ev with
                    | EvCall (ViaUrllib u) => uc_data u
                    | _ => None
                    end) (List.filter is_call (log (snd run)))
     = [Some (encode_utf8 "[1]"); Some (encode_utf8 "[1]");
        Some (encode_utf8 "[1]")].
Proof. split; reflexivity. Qed.

(* ===================================================================== *)
(** * A target always gets its record *)
(* ===================================================================== *)

Lemma raises_Exceptions_ret {A} (a : A) : raises_Exceptions (ret a).
Proof. intros w e w'. discriminate. Qed.

Lemma raises_Exceptions_bind {A B} (m : M A) (k : A -> M B) :
  raises_Exceptions m -> (forall a, raises_Exceptions (k a)) ->
  raises_Exceptions (bind m k).
Proof.
  intros Hm Hk w e w'. unfold bind.
  destruct (m w) as [[a | e0] w1] eqn:Em; intros H.
  - exact (Hk a _ _ _ H).
  - injection H as <- <-. exact (Hm _ _ _ Em).
Qed.

Lemma raises_Exceptions_when b (m : M unit) :
  raises_Exceptions m -> raises_Exceptions (when b m).
Proof. intros Hm. destruct b; [exact Hm | apply raises_Exceptions_ret]. Qed.

Lemma raises_Exceptions_emit ev : raises_Exceptions (emit ev).
Proof. intros w e w'. discriminate. Qed.

Lemma raises_Exceptions_sleep_ms l ms : raises_Exceptions (sleep_ms l ms).
Proof.
  intros w e w'. unfold sleep_ms.
  destruct (sleep_error l ms); [| discriminate]. now intros [= <- _].
Qed.

Lemma raises_Exceptions_write_bytes path data :
  raises_Exceptions (write_bytes path data).
Proof.
  intros w e w'. unfold write_bytes.
  destruct (denied w path); [| discriminate]. now intros [= <- _].
Qed.

Lemma raises_Exceptions_makedirs path : raises_Exceptions (makedirs path).
Proof.
  intros w e w'. unfold makedirs.
  destruct (files w !! path); [now intros [= <- _] |].
  destruct (denied w path); [| discriminate]. now intros [= <- _].
Qed.

Lemma raises_Exceptions_save_record dir name record save_body content :
  raises_Exceptions (HttpRunner.save_record dir name record save_body content).
Proof.
  unfold HttpRunner.save_record.
  apply raises_Exceptions_bind; [apply raises_Exceptions_makedirs | intros _].
  apply raises_Exceptions_bind; [apply raises_Exceptions_write_bytes | intros _].
  apply raises_Exceptions_when, raises_Exceptions_write_bytes.
Qed.

Ltac raises_Exceptions_step :=
  lazymatch goal with
  | |- raises_Exceptions (ret _) => apply raises_Exceptions_ret
  | |- raises_Exceptions (sleep_ms _ _) => apply raises_Exceptions_sleep_ms
  | |- raises_Exceptions (HttpRunner.save_record _ _ _ _ _) =>
      apply raises_Exceptions_save_record
  | |- raises_Exceptions (HttpRunnerStdlib.save_record _ _ _ _ _) =>
      apply raises_Exceptions_save_record
  | |- raises_Exceptions (when _ _) => apply raises_Exceptions_when
  | |- raises_Exceptions (bind _ _) => apply raises_Exceptions_bind; [| intros]
  | |- raises_Exceptions (match ?x with _ => _ end) => destruct x
  | |- raises_Exceptions (let '(_, _) := ?x in _) => destruct x
  end.

(** A loop whose attempts raise nothing but [Exception]s returns: either
    what an attempt returned or what follows the loop; the fuel given by
    [retry_fuel] is enough. *)
Lemma retry_while_returns {A} retries (body : Z -> M A) (final : option exn -> A) :
  (forall a, raises_Exceptions (body a)) ->
  forall fuel a last w,
    (Z.to_nat (retries + 1 - a) <= fuel)%nat ->
    exists r w',
      retry_while fuel retries body (fun last_exc => ret (final last_exc))
        a last w = (Ok r, w').
Proof.
  intros Hbody fuel. induction fuel as [| fuel IH]; intros a last w Hfuel.
  - rewrite retry_while_exit by lia. unfold ret. eauto.
  - destruct (Z.leb_spec a retries) as [Hle | Hgt].
    + destruct (body a w) as [[r | e] w1] eqn:Eb.
      * rewrite (retry_while_return _ _ _ _ _ _ _ _ _ Hle Eb). eauto.
      * rewrite (retry_while_again _ _ _ _ _ _ _ _ _ Hle Eb (Hbody _ _ _ _ Eb)).
        apply IH. lia.
    + rewrite retry_while_exit by lia. unfold ret. eauto.
Qed.

(** In both programs [perform_request_with_retries] returns a record for
    every target, whatever the transport and the file system do. *)
Lemma requests_perform_returns env (t : requests_target) w :
  requests_raises_Exceptions env ->
  exists record w', requests_perform env t w = (Ok record, w').
Proof.
  intros Henv. unfold requests_perform, HttpRunner.perform_request_with_retries.
  apply retry_while_returns; [| unfold retry_fuel; lia].
  intros a. unfold HttpRunner.attempt_once.
  repeat first
    [ raises_Exceptions_step
    | intros w0 e w1; unfold HttpRunner.build_request;
      destruct (requests_net env _ _) eqn:Enet; [discriminate |];
      intros [= <- _]; exact (Henv _ _ _ Enet) ].
Qed.

Lemma urllib_perform_returns env (t : urllib_target) w :
  urllib_raises_Exceptions env ->
  exists record w', urllib_perform env t w = (Ok record, w').
Proof.
  intros Henv. unfold urllib_perform, HttpRunnerStdlib.perform_request_with_retries.
  apply retry_while_returns; [| unfold retry_fuel; lia].
  intros a. unfold HttpRunnerStdlib.attempt_once.
  repeat first
    [ raises_Exceptions_step
    | intros w0 e w1; unfold HttpRunnerStdlib.build_and_send_request;
      destruct (request_error _ _ _); [now intros [= <- _] |];
      destruct (urllib_net env _ _) eqn:Enet; try discriminate;
      intros [= <- _]; [reflexivity | exact (Henv _ _ _ Enet)] ].
Qed.

(* ===================================================================== *)
(** * What a computation does to the world *)
(* ===================================================================== *)

Section Steps.

Variable R : world -> world -> Prop.
Hypothesis R_refl : forall w, R w w.
Hypothesis R_trans : forall w1 w2 w3, R w1 w2 -> R w2 w3 -> R w1 w3.

Lemma steps_ret {A} (a : A) : steps R (ret a).
Proof. intros w r w' [= _ <-]. apply R_refl. Qed.

Lemma steps_raise {A} e : steps R (@raise A e).
Proof. intros w r w' [= _ <-]. apply R_refl. Qed.

Lemma steps_lift {A} (x : res A) : steps R (lift x).
Proof. intros w r w' [= _ <-]. apply R_refl. Qed.

Lemma steps_bind {A B} (m : M A) (k : A -> M B) :
  steps R m -> (forall a, steps R (k a)) -> steps R (bind m k).
Proof.
  intros Hm Hk w r w'. unfold bind.
  destruct (m w) as [[a | e] w1] eqn:Em; intros H.
  - eapply R_trans; [exact (Hm _ _ _ Em) | exact (Hk _ _ _ _ H)].
  - injection H as _ <-. exact (Hm _ _ _ Em).
Qed.

Lemma steps_try_except {A} (m : M A) (handler : exn -> M A) :
  steps R m -> (forall e, steps R (handler e)) -> steps R (try_except m handler).
Proof.
  intros Hm Hh w r w'. unfold try_except.
  destruct (m w) as [[a | e] w1] eqn:Em; intros H.
  - injection H as _ <-. exact (Hm _ _ _ Em).
  - destruct (is_Exception e).
    + eapply R_trans; [exact (Hm _ _ _ Em) | exact (Hh _ _ _ _ H)].
    + injection H as _ <-. exact (Hm _ _ _ Em).
Qed.

Lemma steps_when b (m : M unit) : steps R m -> steps R (when b m).
Proof. intros Hm. destruct b; [exact Hm | apply steps_ret]. Qed.

Lemma steps_emit ev :
  (forall w, R w (log_event ev w)) -> steps R (emit ev).
Proof. intros Hev w r w' [= _ <-]. apply Hev. Qed.

Lemma steps_sleep_ms l ms :
  (forall w, R w (log_event (EvSleep ms) w)) -> steps R (sleep_ms l ms).
Proof.
  intros Hev. unfold sleep_ms.
  destruct (sleep_error l ms); [apply steps_raise | now apply steps_emit].
Qed.

Lemma steps_isfile path : steps R (isfile path).
Proof. intros w r w' [= _ <-]. apply R_refl. Qed.

Lemma steps_read_bytes path : steps R (read_bytes path).
Proof.
  intros w r w'. unfold read_bytes.
  destruct (files w !! path); intros [= _ <-]; apply R_refl.
Qed.

Lemma steps_read_text path : steps R (read_text path).
Proof.
  apply steps_bind; [apply steps_read_bytes | intros b; apply steps_lift].
Qed.

Lemma steps_write_bytes path data :
  (forall w, denied w path = None ->
     R w (World (<[path := data]> (files w)) (denied w)
                (log w ++ [EvWrite path data]))) ->
  steps R (write_bytes path data).
Proof.
  intros Hw w r w'. unfold write_bytes.
  destruct (denied w path) eqn:E; intros [= _ <-]; [apply R_refl | now apply Hw].
Qed.

Lemma steps_write_output l path text :
  (forall w, denied w path = None ->
     R w (World (<[path := encode_utf8 text]> (files w)) (denied w)
                (log w ++ [EvWrite path (encode_utf8 text)]))) ->
  steps R (write_output l path text).
Proof.
  intros Hw w r w'. unfold write_output.
  destruct (made_directory l (log w) path);
    [intros [= _ <-]; apply R_refl | now apply steps_write_bytes].
Qed.

Lemma steps_makedirs path :
  (forall w, R w (log_event (EvMakedirs path) w)) -> steps R (makedirs path).
Proof.
  intros Hw w r w'. unfold makedirs.
  destruct (files w !! path); [| destruct (denied w path)]; intros [= _ <-];
    first [apply R_refl | apply Hw].
Qed.

Lemma steps_submit {A} (task : M A) : steps R task -> steps R (submit task).
Proof.
  intros Ht w r w'. unfold submit.
  destruct (task w) as [x w1] eqn:Et. intros [= _ <-]. exact (Ht _ _ _ Et).
Qed.

Lemma steps_for_each {A B} (l : list A) (body : A -> M B) :
  (forall x, steps R (body x)) -> steps R (for_each l body).
Proof.
  intros Hbody. induction l as [| x l IH]; cbn [for_each].
  - apply steps_ret.
  - apply steps_bind; [apply Hbody |]. intros y.
    apply steps_bind; [exact IH |]. intros ys. apply steps_ret.
Qed.

Lemma steps_retry_while {A} fuel retries (body : Z -> M A) otherwise :
  (forall a, steps R (body a)) ->
  (forall last, steps R (otherwise last)) ->
  forall a last, steps R (retry_while fuel retries body otherwise a last).
Proof.
  intros Hbody Hotherwise.
  induction fuel as [| fuel IH]; intros a last; cbn [retry_while];
    destruct (a <=? retries); auto using steps_raise.
  apply steps_try_except; auto.
Qed.


(** Saving a record, given what [R] makes of the creation of a directory
    and of the writing of a file. *)
Lemma steps_save_record dir name record save_body content :
  (forall w, R w (log_event (EvMakedirs dir) w)) ->
  (forall data w,
     R w (World (<[meta_path dir (HttpRunner.safe_filename name) := data]>
                   (files w))
                (denied w)
                (log w ++ [EvWrite (meta_path dir (HttpRunner.safe_filename name))
                             data]))) ->
  (save_body = true ->
   forall data w,
     R w (World (<[body_path dir (HttpRunner.safe_filename name) := data]>
                   (files w))
                (denied w)
                (log w ++ [EvWrite (body_path dir (HttpRunner.safe_filename name))
                             data]))) ->
  steps R (HttpRunner.save_record dir name record save_body content).
Proof.
  intros Hdir Hmeta Hbody. unfold HttpRunner.save_record.
  apply steps_bind; [now apply steps_makedirs | intros _].
  apply steps_bind.
  - apply steps_write_bytes. intros w _. apply Hmeta.
  - intros _. destruct save_body; [| apply steps_ret].
    apply steps_write_bytes. intros w _. now apply Hbody.
Qed.

End Steps.

Lemma same_calls_refl w : same_calls w w.
Proof. reflexivity. Qed.

Lemma same_calls_trans w1 w2 w3 :
  same_calls w1 w2 -> same_calls w2 w3 -> same_calls w1 w3.
Proof. unfold same_calls. congruence. Qed.

Lemma same_refusals_refl w : same_refusals w w.
Proof. reflexivity. Qed.

Lemma same_refusals_trans w1 w2 w3 :
  same_refusals w1 w2 -> same_refusals w2 w3 -> same_refusals w1 w3.
Proof. unfold same_refusals. congruence. Qed.

Lemma writes_within_refl paths w : writes_within paths w w.
Proof. split; reflexivity. Qed.

Lemma writes_within_trans paths w1 w2 w3 :
  writes_within paths w1 w2 -> writes_within paths w2 w3 ->
  writes_within paths w1 w3.
Proof.
  intros [Hd1 Hf1] [Hd2 Hf2]. split; [congruence |].
  intros p Hp. now rewrite Hf2, Hf1.
Qed.

(** What follows the response in an attempt makes no request. *)
Lemma save_step_same_calls (save_dir : option string) name record save_body
    content :
  steps same_calls
    (match save_dir with
     | Some dir => when (truthy_str dir)
                     (HttpRunner.save_record dir name record save_body content)
     | None => ret tt
     end ;; ret record).
Proof.
  apply (steps_bind _ same_calls_trans);
    [| intros; apply steps_ret, same_calls_refl].
  destruct save_dir as [dir |]; [| apply steps_ret, same_calls_refl].
  apply (steps_when _ same_calls_refl).
  apply (steps_save_record _ same_calls_refl same_calls_trans); intros;
    unfold same_calls, log_event; cbn [log]; rewrite calls_made_app; cbn; lia.
Qed.

(* ===================================================================== *)
(** * More on one target *)
(* ===================================================================== *)

(** X1.  In both programs, when the transport raises nothing but
    [Exception]s, [perform_request_with_retries] returns a record for
    every target and every state of the files: it never raises, whatever
    fails in the requests or in the saving. *)
Theorem perform_never_raises env :
  (requests_raises_Exceptions env ->
   forall (t : requests_target) w,
     exists record w', requests_perform env t w = (Ok record, w'))
  /\ (urllib_raises_Exceptions env ->
      forall (t : urllib_target) w,
        exists record w', urllib_perform env t w = (Ok record, w')).
Proof.
  split; intros Henv t w.
  - now apply requests_perform_returns.
  - now apply urllib_perform_returns.
Qed.

Lemma perform_never_raises_witness :
  (exists record w',
      requests_perform Sample.env_timeout Sample.saved_requests_target
        Sample.disk_read_only = (Ok record, w'))
  /\ (exists record w',
         urllib_perform Sample.env_timeout Sample.saved_urllib_target
           Sample.disk_read_only = (Ok record, w')).
Proof.
  split.
  - apply (proj1 (perform_never_raises Sample.env_timeout)).
    intros k c e [= <-]. reflexivity.
  - apply (proj2 (perform_never_raises Sample.env_timeout)).
    intros k c e. discriminate.
Defined.

(** ** The name in the record *)

Lemma returns_only_ret {A} (P : A -> Prop) a : P a -> returns_only P (ret a).
Proof. intros HP w a' w' [= <- _]. exact HP. Qed.

Lemma returns_only_bind {A B} (P : B -> Prop) (m : M A) (k : A -> M B) :
  (forall a, returns_only P (k a)) -> returns_only P (bind m k).
Proof.
  intros Hk w b w'. unfold bind.
  destruct (m w) as [[a | e] w1]; [apply Hk | discriminate].
Qed.

Lemma returns_only_retry_while {A} (P : A -> Prop) fuel retries
    (body : Z -> M A) otherwise :
  (forall a, returns_only P (body a)) ->
  (forall last, returns_only P (otherwise last)) ->
  forall a last, returns_only P (retry_while fuel retries body otherwise a last).
Proof.
  intros Hbody Hotherwise.
  induction fuel as [| fuel IH]; intros a last w r w'; cbn [retry_while];
    destruct (a <=? retries); try apply Hotherwise; [discriminate |].
  unfold try_except. destruct (body a w) as [[x | e] w1] eqn:Eb.
  - intros [= <- _]. exact (Hbody _ _ _ _ Eb).
  - destruct (is_Exception e); [apply IH | discriminate].
Qed.

Lemma requests_record_name env (t : requests_target) :
  returns_only (fun record => outcome_name record = t_name t)
    (requests_perform env t).
Proof.
  unfold requests_perform, HttpRunner.perform_request_with_retries.
  apply (returns_only_retry_while (fun r => outcome_name r = t_name t)).
  - intros a. unfold HttpRunner.attempt_once.
    repeat (apply returns_only_bind; intros). now apply returns_only_ret.
  - intros last. now apply returns_only_ret.
Qed.

Lemma urllib_record_name env (t : urllib_target) :
  returns_only (fun record => outcome_name record = t_name t)
    (urllib_perform env t).
Proof.
  unfold urllib_perform, HttpRunnerStdlib.perform_request_with_retries.
  apply (returns_only_retry_while (fun r => outcome_name r = t_name t)).
  - intros a. unfold HttpRunnerStdlib.attempt_once.
    do 3 (apply returns_only_bind; intros).
    destruct a2 as [[[status headers_dict] content] elapsed_ms].
    apply returns_only_bind; intros. now apply returns_only_ret.
  - intros last. now apply returns_only_ret.
Qed.

(** X2.  In both programs the record [perform_request_with_retries]
    returns carries the name it was called with, be it a success or a
    failure. *)
Theorem record_carries_the_name env :
  (forall (t : requests_target) w record w',
      requests_perform env t w = (Ok record, w') ->
      outcome_name record = t_name t)
  /\ (forall (t : urllib_target) w record w',
         urllib_perform env t w = (Ok record, w') ->
         outcome_name record = t_name t).
Proof.
  split; intros t w record w'.
  - apply requests_record_name.
  - apply urllib_record_name.
Qed.

Lemma record_carries_the_name_witness :
  outcome_name (Failure "request" "Read timed out. (call 2)") = "request"
  /\ outcome_name (Success "request" 500 Sample.ms_12_5 [("Content-Length", "0")])
     = "request".
Proof.
  split.
  - apply (proj1 (record_carries_the_name Sample.env_timeout)
             (Sample.requests_target_of Sample.args JNull) Sample.disk_empty
             _ (snd (requests_perform Sample.env_timeout
                       (Sample.requests_target_of Sample.args JNull)
                       Sample.disk_empty))).
    reflexivity.
  - apply (proj2 (record_carries_the_name (Sample.env_status 500))
             (Sample.urllib_target_of Sample.args None) Sample.disk_empty
             _ (snd (urllib_perform (Sample.env_status 500)
                       (Sample.urllib_target_of Sample.args None)
                       Sample.disk_empty))).
    reflexivity.
Defined.

(** ** The number of attempts *)

(** X3.  With a negative retry count the loop is never entered: in both
    programs no request is made, nothing is slept or written, and the
    record is the failure with the error [Unknown error]. *)
Theorem negative_retries_no_attempt env :
  (forall (t : requests_target) w,
      t_retries t < 0 ->
      requests_perform env t w = (Ok (Failure (t_name t) "Unknown error"), w))
  /\ (forall (t : urllib_target) w,
         t_retries t < 0 ->
         urllib_perform env t w = (Ok (Failure (t_name t) "Unknown error"), w)).
Proof.
  split; intros t w Hneg.
  - unfold requests_perform, HttpRunner.perform_request_with_retries.
    now rewrite retry_while_exit by lia.
  - unfold urllib_perform, HttpRunnerStdlib.perform_request_with_retries.
    now rewrite retry_while_exit by lia.
Qed.

Lemma negative_retries_no_attempt_witness :
  requests_perform (Sample.env_status 200)
    (Sample.requests_target_of (with_retries (-1) Sample.args) JNull)
    Sample.disk_empty
  = (Ok (Failure "request" "Unknown error"), Sample.disk_empty)
  /\ urllib_perform (Sample.env_status 200)
       (Sample.urllib_target_of (with_retries (-1) Sample.args) None)
       Sample.disk_empty
     = (Ok (Failure "request" "Unknown error"), Sample.disk_empty).
Proof.
  split.
  - apply (proj1 (negative_retries_no_attempt (Sample.env_status 200))
             (Sample.requests_target_of (with_retries (-1) Sample.args) JNull)).
    simpl. lia.
  - apply (proj2 (negative_retries_no_attempt (Sample.env_status 200))
             (Sample.urllib_target_of (with_retries (-1) Sample.args) None)).
    simpl. lia.
Defined.

(** A computation followed by another either raises, or returns and
    the other one runs. *)
Lemma bind_inv {A B} (m : M A) (k : A -> M B) w r w' :
  bind m k w = (r, w') ->
  (exists e, m w = (Raise e, w') /\ r = Raise e)
  \/ (exists a w1, m w = (Ok a, w1) /\ k a w1 = (r, w')).
Proof.
  unfold bind. destruct (m w) as [[a | e] w1]; intros H.
  - right. eauto.
  - injection H as <- <-. left. eauto.
Qed.

Lemma guarded_sleep_same_calls l c ms :
  steps same_calls (when c (sleep_ms l ms)).
Proof.
  apply (steps_when _ same_calls_refl), (steps_sleep_ms _ same_calls_refl).
  intros w. unfold same_calls, log_event. cbn [log].
  rewrite calls_made_app. cbn. lia.
Qed.

(** The two guarded sleeps of an attempt hand nothing to the transport:
    either one of them raises, or the rest of the attempt runs. *)
Lemma guarded_sleeps_inv {A} l c1 ms1 c2 ms2 (k : M A) w r w' :
  (when c1 (sleep_ms l ms1) ;; when c2 (sleep_ms l ms2) ;; k) w = (r, w') ->
  same_calls w w' \/ exists w0, same_calls w w0 /\ k w0 = (r, w').
Proof.
  intros H. apply bind_inv in H as [(e & H & _) | ([] & w1 & H1 & H)].
  { left. exact (guarded_sleep_same_calls _ _ _ _ _ _ H). }
  apply guarded_sleep_same_calls in H1.
  apply bind_inv in H as [(e & H & _) | ([] & w2 & H2 & H)].
  { left. apply guarded_sleep_same_calls in H.
    exact (same_calls_trans _ _ _ H1 H). }
  apply guarded_sleep_same_calls in H2.
  right. exists w2. split; [exact (same_calls_trans _ _ _ H1 H2) | exact H].
Qed.

(** The request of [http_runner.py] and what follows it in the attempt:
    one request, however it ends. *)
Ltac requests_request_and_save H :=
  unfold bind at 1 in H; unfold HttpRunner.build_request in H;
  match type of H with
  | context [requests_net ?env ?k ?c] =>
      destruct (requests_net env k c) as [resp el | e]
  end;
  [ apply save_step_same_calls in H; unfold same_calls in H; rewrite H
  | injection H as _ <- ];
  unfold log_event; cbn [log]; rewrite calls_made_app; cbn.

(** An attempt hands at most one request to the transport, however it
    ends; the first attempt hands exactly one when its pacing sleep is
    accepted. *)
Lemma requests_attempt_calls env (t : requests_target) a w r w' :
  requests_attempt env t a w = (r, w') ->
  (calls_made (log w) <= calls_made (log w') <= S (calls_made (log w)))%nat.
Proof.
  unfold requests_attempt, HttpRunner.attempt_once. intros H.
  apply guarded_sleeps_inv in H as [H | (w0 & Hw0 & H)]; unfold same_calls in *.
  - lia.
  - requests_request_and_save H; lia.
Qed.

Lemma requests_first_attempt_one_call env (t : requests_target) w r w' :
  sleep_accepted (lib env) (t_delay_between_ms t) = true ->
  requests_attempt env t 0 w = (r, w') ->
  calls_made (log w') = S (calls_made (log w)).
Proof.
  unfold requests_attempt, HttpRunner.attempt_once. intros Hd H.
  rewrite guarded_sleeps in H; [| lia | reflexivity | exact Hd].
  match type of H with
  | _ ?w0 = _ =>
      assert (Hw0 : calls_made (log w0) = calls_made (log w))
        by (cbn [log]; rewrite calls_made_app, calls_made_sleeps; lia);
      generalize dependent w0
  end.
  intros w0 H Hw0. requests_request_and_save H; lia.
Qed.

(** In [http_runner_stdlib.py] an attempt hands no request to the opener
    when [urlrequest.Request] refuses the URL. *)
Lemma urllib_attempt_calls env (t : urllib_target) a w r w' :
  urllib_attempt env t a w = (r, w') ->
  (calls_made (log w) <= calls_made (log w') <= S (calls_made (log w)))%nat.
Proof.
  unfold urllib_attempt, HttpRunnerStdlib.attempt_once. intros H.
  apply guarded_sleeps_inv in H as [H | (w0 & Hw0 & H)]; unfold same_calls in *.
  - lia.
  - unfold bind at 1 in H. unfold HttpRunnerStdlib.build_and_send_request in H.
    destruct (request_error _ _ _).
    + injection H as _ <-. lia.
    + destruct (urllib_net env _ _) as [resp el | code hs body el | text | e];
        try (injection H as _ <-);
        try (apply save_step_same_calls in H; unfold same_calls in H; rewrite H);
        unfold log_event; cbn [log]; rewrite calls_made_app; cbn; lia.
Qed.

Lemma urllib_first_attempt_one_call env (t : urllib_target) w r w' :
  sleep_accepted (lib env) (t_delay_between_ms t) = true ->
  request_built (lib env) t = true ->
  urllib_attempt env t 0 w = (r, w') ->
  calls_made (log w') = S (calls_made (log w)).
Proof.
  unfold urllib_attempt, HttpRunnerStdlib.attempt_once. intros Hd Hreq H.
  rewrite guarded_sleeps in H; [| lia | reflexivity | exact Hd].
  match type of H with
  | _ ?w0 = _ =>
      assert (Hw0 : calls_made (log w0) = calls_made (log w))
        by (cbn [log]; rewrite calls_made_app, calls_made_sleeps; lia);
      generalize dependent w0
  end.
  intros w0 H Hw0.
  unfold bind at 1 in H. unfold HttpRunnerStdlib.build_and_send_request in H.
  fold (urllib_request (lib env) t) in H.
  rewrite (request_built_error _ _ Hreq) in H.
  destruct (urllib_net env _ _) as [resp el | code hs body el | text | e];
    try (injection H as _ <-);
    try (apply save_step_same_calls in H; unfold same_calls in H; rewrite H);
    unfold log_event; cbn [log]; rewrite calls_made_app; cbn; lia.
Qed.

(** A loop whose attempts make at most one request each makes at most
    as many requests as it has fuel. *)
Lemma retry_while_calls_bound {A} retries (body : Z -> M A) otherwise :
  (forall a w r w', body a w = (r, w') ->
     (calls_made (log w) <= calls_made (log w') <= S (calls_made (log w)))%nat) ->
  (forall last, steps same_calls (otherwise last)) ->
  forall fuel a last w r w',
    retry_while fuel retries body otherwise a last w = (r, w') ->
    (calls_made (log w) <= calls_made (log w') <= calls_made (log w) + fuel)%nat.
Proof.
  intros Hbody Hotherwise.
  induction fuel as [| fuel IH]; intros a last w r w'; cbn [retry_while];
    destruct (Z.leb_spec a retries) as [Hle | Hgt]; intros H.
  - injection H as _ <-. lia.
  - apply Hotherwise in H. unfold same_calls in H. lia.
  - unfold try_except in H. destruct (body a w) as [[x | e] w1] eqn:Eb.
    + injection H as _ <-. apply Hbody in Eb. lia.
    + apply Hbody in Eb. destruct (is_Exception e).
      * apply IH in H. lia.
      * injection H as _ <-. lia.
  - apply Hotherwise in H. unfold same_calls in H. lia.
Qed.

(** And at least one when its first attempt makes one. *)
Lemma retry_while_first_call {A} retries (body : Z -> M A) otherwise fuel a
    last w r w' :
  (forall a w r w', body a w = (r, w') ->
     (calls_made (log w) <= calls_made (log w') <= S (calls_made (log w)))%nat) ->
  (forall last, steps same_calls (otherwise last)) ->
  a <= retries ->
  (forall r1 w1, body a w = (r1, w1) ->
     calls_made (log w1) = S (calls_made (log w))) ->
  retry_while (S fuel) retries body otherwise a last w = (r, w') ->
  (calls_made (log w) < calls_made (log w'))%nat.
Proof.
  intros Hbody Hotherwise Hle Hfirst. cbn [retry_while].
  destruct (Z.leb_spec a retries) as [_ | Hgt]; [| lia].
  unfold try_except. destruct (body a w) as [[x | e] w1] eqn:Eb; intros H;
    specialize (Hfirst _ _ eq_refl).
  - injection H as _ <-. lia.
  - destruct (is_Exception e).
    + apply (retry_while_calls_bound _ _ _ Hbody Hotherwise) in H. lia.
    + injection H as _ <-. lia.
Qed.

(** X4.  In both programs a call of [perform_request_with_retries] hands
    at most [retries + 1] requests to the transport, however it ends, and
    each attempt at most one.  (An attempt hands none when [time.sleep]
    or, in [http_runner_stdlib.py], [urlrequest.Request] raises before
    the request, both inside the [try].)  The call hands at least one
    request when [retries] is not negative, [time.sleep] accepts the
    pacing delay and, in [http_runner_stdlib.py], [urlrequest.Request]
    accepts the URL. *)
Theorem requests_per_target_bounded env :
  (forall (t : requests_target) w r w',
      requests_perform env t w = (r, w') ->
      (calls_made (log w) <= calls_made (log w')
       <= calls_made (log w) + Z.to_nat (t_retries t + 1))%nat
      /\ (0 <= t_retries t ->
          sleep_accepted (lib env) (t_delay_between_ms t) = true ->
          (calls_made (log w) < calls_made (log w'))%nat))
  /\ (forall (t : urllib_target) w r w',
         urllib_perform env t w = (r, w') ->
         (calls_made (log w) <= calls_made (log w')
          <= calls_made (log w) + Z.to_nat (t_retries t + 1))%nat
         /\ (0 <= t_retries t ->
             sleep_accepted (lib env) (t_delay_between_ms t) = true ->
             request_built (lib env) t = true ->
             (calls_made (log w) < calls_made (log w'))%nat))
  /\ (forall (t : requests_target) a w r w',
         requests_attempt env t a w = (r, w') ->
         (calls_made (log w) <= calls_made (log w')
          <= calls_made (log w) + 1)%nat)
  /\ (forall (t : urllib_target) a w r w',
         urllib_attempt env t a w = (r, w') ->
         (calls_made (log w) <= calls_made (log w')
          <= calls_made (log w) + 1)%nat).
Proof.
  split; [| split; [| split]];
    [| | intros t a w r w' H; apply requests_attempt_calls in H; lia
         | intros t a w r w' H; apply urllib_attempt_calls in H; lia];
    intros t w r w' H.
  - split.
    + eapply (retry_while_calls_bound (t_retries t) (requests_attempt env t));
        [| | exact H].
      * intros a w0 r0 w0'. apply requests_attempt_calls.
      * intros last. apply steps_ret, same_calls_refl.
    + intros Hr Hd.
      unfold requests_perform, HttpRunner.perform_request_with_retries,
        retry_fuel in H.
      replace (Z.to_nat (t_retries t + 1)) with (S (Z.to_nat (t_retries t)))
        in H by lia.
      eapply (retry_while_first_call (t_retries t) (requests_attempt env t));
        [| | exact Hr | | exact H].
      * intros a w0 r0 w0'. apply requests_attempt_calls.
      * intros last. apply steps_ret, same_calls_refl.
      * intros r1 w1. now apply requests_first_attempt_one_call.
  - split.
    + eapply (retry_while_calls_bound (t_retries t) (urllib_attempt env t));
        [| | exact H].
      * intros a w0 r0 w0'. apply urllib_attempt_calls.
      * intros last. apply steps_ret, same_calls_refl.
    + intros Hr Hd Hreq.
      unfold urllib_perform, HttpRunnerStdlib.perform_request_with_retries,
        retry_fuel in H.
      replace (Z.to_nat (t_retries t + 1)) with (S (Z.to_nat (t_retries t)))
        in H by lia.
      eapply (retry_while_first_call (t_retries t) (urllib_attempt env t));
        [| | exact Hr | | exact H].
      * intros a w0 r0 w0'. apply urllib_attempt_calls.
      * intros last. apply steps_ret, same_calls_refl.
      * intros r1 w1. now apply urllib_first_attempt_one_call.
Qed.

Lemma requests_per_target_bounded_witness :
  let r1 := requests_perform (Sample.env_status 200)
              (Sample.requests_target_of Sample.args JNull) Sample.disk_empty in
  let r2 := urllib_perform Sample.env_timeout
              (Sample.urllib_target_of Sample.args None) Sample.disk_empty in
  ((0 <= calls_made (log (snd r1)) <= 0 + 3)%nat
   /\ (0 < calls_made (log (snd r1)))%nat)
  /\ ((0 <= calls_made (log (snd r2)) <= 0 + 3)%nat
      /\ (0 < calls_made (log (snd r2)))%nat).
Proof.
  intros r1 r2. split.
  - destruct (proj1 (requests_per_target_bounded (Sample.env_status 200))
                (Sample.requests_target_of Sample.args JNull) Sample.disk_empty
                (fst r1) (snd r1) (surjective_pairing r1)) as [H1 H2].
    split; [exact H1 |]. apply H2; [simpl; lia | reflexivity].
  - destruct (proj1 (proj2 (requests_per_target_bounded Sample.env_timeout))
                (Sample.urllib_target_of Sample.args None) Sample.disk_empty
                (fst r2) (snd r2) (surjective_pairing r2)) as [H1 H2].
    split; [exact H1 |]. apply H2; [simpl; lia | reflexivity | reflexivity].
Defined.

(** A pacing delay [time.sleep] refuses, and a URL without a scheme:
    three attempts and no request, the record holding the text of the
    error of the last attempt. *)
Example attempts_without_request :
  let r1 := requests_perform (Sample.env_status 200)
              (Sample.requests_target_of
                 (with_delays 100 10000000000000 Sample.args) JNull)
              Sample.disk_empty in
  let r2 := urllib_perform (Sample.env_status 200)
              (Sample.urllib_target_of (with_url "host/path" Sample.args) None)
              Sample.disk_empty in
  fst r1 = Ok (Failure "request" "timestamp too large to convert to C _PyTime_t")
  /\ log (snd r1) = [EvSleep 100; EvSleep 200]
  /\ fst r2 = Ok (Failure "request" "unknown url type: 'host/path'")
  /\ log (snd r2) = [EvSleep 100; EvSleep 200].
Proof. repeat split; reflexivity. Qed.

(** A backoff delay [time.sleep] refuses: the first request is made and
    fails, the two retries raise at their backoff sleep, and the record
    holds the text of the error of the sleep. *)
Example backoff_refused :
  let t := Sample.requests_target_of
             (with_delays 10000000000000 0 Sample.args) JNull in
  let r := requests_perform Sample.env_timeout t Sample.disk_empty in
  fst r = Ok (Failure "request" "timestamp too large to convert to C _PyTime_t")
  /\ log (snd r) = [EvCall (ViaRequests (requests_request t))].
Proof. split; reflexivity. Qed.

(** ** [http_runner_stdlib.py] when the opener always fails *)

(** X5.  [perform_request_with_retries] of [http_runner_stdlib.py], for
    a target with [retries >= 0] whose every request fails at the
    opener, with a [URLError] (which [build_and_send_request] turns into
    a [RuntimeError] of the same text) or with another [Exception], when
    [time.sleep] accepts the delays of the attempts 0 to [retries] and
    [urlrequest.Request] accepts the URL: it returns the failure record
    whose error is the text of the failure of the last attempt, after
    exactly [retries + 1] requests, each preceded by its backoff and
    pacing sleeps, and it writes no file. *)
Theorem urllib_all_attempts_fail env (t : urllib_target) w :
  0 <= t_retries t ->
  sleeps_accepted (lib env) (t_backoff_base_ms t) (t_delay_between_ms t)
    (Z.to_nat (t_retries t) + 1) = true ->
  request_built (lib env) t = true ->
  (forall k, exists e,
      urllib_failure (urllib_net env k (urllib_request (lib env) t)) = Some e
      /\ is_Exception e = true) ->
  exists e_last w',
    urllib_perform env t w = (Ok (Failure (t_name t) (exn_str e_last)), w')
    /\ urllib_failure
         (urllib_net env (calls_made (log w) + Z.to_nat (t_retries t))
            (urllib_request (lib env) t)) = Some e_last
    /\ log w' = log w ++ attempts_log (t_backoff_base_ms t) (t_delay_between_ms t)
                           (ViaUrllib (urllib_request (lib env) t))
                           (Z.to_nat (t_retries t) + 1)
    /\ calls_made (log w') = (calls_made (log w) + (Z.to_nat (t_retries t) + 1))%nat
    /\ files w' = files w.
Proof.
  intros Hretries Hsleeps Hreq Hfail.
  set (b := t_backoff_base_ms t). set (d := t_delay_between_ms t).
  set (c := ViaUrllib (urllib_request (lib env) t)).
  pose (P := fun (a : Z) (last : option exn) (w1 : world) =>
    log w1 = log w ++ attempts_log b d c (Z.to_nat a)
    /\ files w1 = files w
    /\ (0 < a -> exists e, last = Some e
          /\ urllib_failure
               (urllib_net env (calls_made (log w) + Z.to_nat (a - 1))
                  (urllib_request (lib env) t)) = Some e)).
  assert (Hstep : forall a last w1, 0 <= a <= t_retries t -> P a last w1 ->
            exists e w2, urllib_attempt env t a w1 = (Raise e, w2)
                         /\ is_Exception e = true /\ P (a + 1) (Some e) w2).
  { intros a last w1 [Ha Ha'] (Hlog & Hfiles & _).
    assert (Hn : calls_made (log w1) = (calls_made (log w) + Z.to_nat a)%nat).
    { rewrite Hlog, calls_made_app. unfold b, d, c.
      now rewrite calls_made_attempts_log. }
    destruct (Hfail (calls_made (log w1))) as (e & Hnet & He).
    destruct (sleeps_accepted_at _ _ _ _ (Z.to_nat a) Hsleeps) as [Hb Hd];
      [lia |].
    exists e. eexists. split; [| split; [exact He |]].
    - apply urllib_attempt_failed;
        [exact Ha | exact Hb | exact Hd | exact Hreq | exact Hnet].
    - unfold P. cbn [log files]. split; [| split].
      + replace (Z.to_nat (a + 1)) with (S (Z.to_nat a)) by lia.
        rewrite attempts_log_S, Hlog, <- app_assoc. reflexivity.
      + exact Hfiles.
      + intros _. exists e. split; [reflexivity |].
        replace (a + 1 - 1) with a by lia. now rewrite <- Hn. }
  destruct (retry_while_all_raise P (t_retries t) (urllib_attempt env t)
              (fun last_exc => ret (Failure (t_name t) (failure_message last_exc)))
              Hstep (retry_fuel (t_retries t)) 0 None w)
    as (last' & w' & Hrun & Hlog & Hfiles & Hlast).
  - lia.
  - unfold retry_fuel. lia.
  - unfold P. cbn. rewrite app_nil_r. split; [reflexivity | split; [reflexivity | lia]].
  - replace (Z.max 0 (t_retries t + 1)) with (t_retries t + 1) in * by lia.
    destruct Hlast as (e & -> & Hnet); [lia |].
    replace (t_retries t + 1 - 1) with (t_retries t) in Hnet by lia.
    replace (Z.to_nat (t_retries t + 1))
      with (Z.to_nat (t_retries t) + 1)%nat in Hlog by lia.
    exists e, w'. split; [exact Hrun |]. split; [exact Hnet |].
    split; [exact Hlog |]. split; [| exact Hfiles].
    rewrite Hlog, calls_made_app. unfold b, d, c.
    now rewrite calls_made_attempts_log.
Qed.

Lemma urllib_all_attempts_fail_witness :
  exists e_last w',
    urllib_perform Sample.env_timeout (Sample.urllib_target_of Sample.args None)
      Sample.disk_empty
    = (Ok (Failure "request" (exn_str e_last)), w')
    /\ urllib_failure
         (urllib_net Sample.env_timeout 2
            (urllib_request Sample.lib (Sample.urllib_target_of Sample.args None)))
       = Some e_last
    /\ log w' = attempts_log 100 0
                  (ViaUrllib (urllib_request Sample.lib
                                (Sample.urllib_target_of Sample.args None))) 3
    /\ calls_made (log w') = 3%nat
    /\ files w' = ∅.
Proof.
  apply (urllib_all_attempts_fail Sample.env_timeout
           (Sample.urllib_target_of Sample.args None) Sample.disk_empty).
  - simpl. lia.
  - reflexivity.
  - reflexivity.
  - intros k. eexists. split; reflexivity.
Defined.

(** The run behind the witness: the text of the [URLError] of the third
    request is the error of the record. *)
Example urllib_always_timing_out :
  fst (urllib_perform Sample.env_timeout
         (Sample.urllib_target_of Sample.args None) Sample.disk_empty)
  = Ok (Failure "request" "<urlopen error timed out> (call 2)").
Proof. reflexivity. Qed.

(* ===================================================================== *)
(** * The files of a target *)
(* ===================================================================== *)

Lemma writes_within_log paths ev w : writes_within paths w (log_event ev w).
Proof. split; reflexivity. Qed.

Lemma writes_within_write paths path data w :
  In path paths ->
  writes_within paths w
    (World (<[path := data]> (files w)) (denied w) (log w ++ [EvWrite path data])).
Proof.
  intros Hin. split; [reflexivity |]. intros p Hp. cbn [files].
  apply lookup_insert_ne. intros ->. contradiction.
Qed.

(** What follows the response in an attempt writes the files of the
    target only. *)
Lemma save_step_writes (save_dir : option string) name record save_body content :
  steps (writes_within (save_paths save_dir name save_body))
    (match save_dir with
     | Some dir => when (truthy_str dir)
                     (HttpRunner.save_record dir name record save_body content)
     | None => ret tt
     end ;; ret record).
Proof.
  set (paths := save_paths save_dir name save_body).
  apply (steps_bind _ (writes_within_trans paths));
    [| intros; apply steps_ret, writes_within_refl].
  destruct save_dir as [dir |]; [| apply steps_ret, writes_within_refl].
  destruct (truthy_str dir) eqn:Edir; [| apply steps_ret, writes_within_refl].
  cbn [when].
  assert (Hpaths : paths = meta_path dir (HttpRunner.safe_filename name)
                           :: (if save_body
                               then [body_path dir (HttpRunner.safe_filename name)]
                               else [])).
  { unfold paths, save_paths, saving. now rewrite Edir. }
  apply (steps_save_record _ (writes_within_refl paths) (writes_within_trans paths)).
  - intros w. apply writes_within_log.
  - intros data w. apply writes_within_write. rewrite Hpaths. now left.
  - intros -> data w. apply writes_within_write. rewrite Hpaths. right. now left.
Qed.

Lemma requests_perform_writes env (t : requests_target) :
  steps (writes_within (save_paths (t_save_dir t) (t_name t) (t_save_body t)))
    (requests_perform env t).
Proof.
  set (paths := save_paths (t_save_dir t) (t_name t) (t_save_body t)).
  unfold requests_perform, HttpRunner.perform_request_with_retries.
  apply (steps_retry_while _ (writes_within_refl paths) (writes_within_trans paths));
    [| intros; apply steps_ret, writes_within_refl].
  intros a. unfold HttpRunner.attempt_once.
  apply (steps_bind _ (writes_within_trans paths)).
  { apply (steps_when _ (writes_within_refl paths)),
      (steps_sleep_ms _ (writes_within_refl paths)).
    intros w. apply writes_within_log. }
  intros _. apply (steps_bind _ (writes_within_trans paths)).
  { apply (steps_when _ (writes_within_refl paths)),
      (steps_sleep_ms _ (writes_within_refl paths)).
    intros w. apply writes_within_log. }
  intros _. apply (steps_bind _ (writes_within_trans paths)).
  { intros w r w'. unfold HttpRunner.build_request.
    destruct (requests_net env _ _); intros [= _ <-]; apply writes_within_log. }
  intros reply. apply save_step_writes.
Qed.

Lemma urllib_perform_writes env (t : urllib_target) :
  steps (writes_within (save_paths (t_save_dir t) (t_name t) (t_save_body t)))
    (urllib_perform env t).
Proof.
  set (paths := save_paths (t_save_dir t) (t_name t) (t_save_body t)).
  unfold urllib_perform, HttpRunnerStdlib.perform_request_with_retries.
  apply (steps_retry_while _ (writes_within_refl paths) (writes_within_trans paths));
    [| intros; apply steps_ret, writes_within_refl].
  intros a. unfold HttpRunnerStdlib.attempt_once.
  apply (steps_bind _ (writes_within_trans paths)).
  { apply (steps_when _ (writes_within_refl paths)),
      (steps_sleep_ms _ (writes_within_refl paths)).
    intros w. apply writes_within_log. }
  intros _. apply (steps_bind _ (writes_within_trans paths)).
  { apply (steps_when _ (writes_within_refl paths)),
      (steps_sleep_ms _ (writes_within_refl paths)).
    intros w. apply writes_within_log. }
  intros _. apply (steps_bind _ (writes_within_trans paths)).
  { intros w r w'. unfold HttpRunnerStdlib.build_and_send_request.
    destruct (request_error _ _ _);
      [intros [= _ <-]; apply writes_within_refl |].
    destruct (urllib_net env _ _); intros [= _ <-]; apply writes_within_log. }
  intros [[[status headers_dict] content] elapsed_ms]. apply save_step_writes.
Qed.

Lemma startswith_append a b : startswith a (a +:+ b) = true.
Proof.
  induction a as [| c a IH]; [reflexivity |].
  change (startswith (String c a) (String c a +:+ b))
    with (if Ascii.eqb c c then startswith a (a +:+ b) else false).
  now rewrite Ascii.eqb_refl.
Qed.

(** A file name made of a sanitised name and a suffix that holds no
    slash holds none. *)
Lemma sanitised_file_flat name suffix :
  Forall (fun ch => ch <> "/"%char) (chars suffix) ->
  Forall (fun ch => ch <> "/"%char)
    (chars (HttpRunner.safe_filename name +:+ suffix)).
Proof.
  intros Hsuffix. rewrite chars_append. apply List.Forall_app. split; [| exact Hsuffix].
  rewrite chars_safe_filename. apply List.Forall_forall. intros ch Hin.
  apply in_map_iff in Hin as (c & <- & _). intros E.
  pose proof (keeps_sanitised c) as H. rewrite E in H. discriminate H.
Qed.

(** Joining a directory and a file name that does not start with a
    slash gives a path below the directory. *)
Lemma path_join_below dir file :
  startswith "/" file = false -> startswith dir (path_join dir file) = true.
Proof.
  intros H. unfold path_join. rewrite H.
  destruct (negb (truthy_str dir) || startswith "/" (str (rev (chars dir))));
    apply startswith_append.
Qed.

Lemma flat_not_absolute file :
  Forall (fun ch => ch <> "/"%char) (chars file) -> startswith "/" file = false.
Proof.
  destruct file as [| c file]; [reflexivity |]. intros H.
  apply List.Forall_inv in H.
  change (startswith "/" (String c file))
    with (if Ascii.eqb "/" c then true else false).
  destruct (Ascii.eqb_spec "/"%char c) as [<- | _]; [contradiction | reflexivity].
Qed.

(** The paths of a target lie directly in the directory of the saved
    results. *)
Lemma save_paths_below save_dir name save_body p :
  In p (save_paths save_dir name save_body) ->
  exists dir file,
    saving save_dir = Some dir
    /\ p = path_join dir file
    /\ Forall (fun ch => ch <> "/"%char) (chars file)
    /\ startswith dir p = true.
Proof.
  unfold save_paths. destruct (saving save_dir) as [dir |]; [| intros []].
  assert (Hmeta : Forall (fun ch => ch <> "/"%char) (chars ".meta.json"))
    by (repeat constructor; discriminate).
  assert (Hbody : Forall (fun ch => ch <> "/"%char) (chars ".body"))
    by (repeat constructor; discriminate).
  intros [<- | Hin].
  - exists dir, (HttpRunner.safe_filename name +:+ ".meta.json").
    pose proof (sanitised_file_flat name _ Hmeta) as Hflat.
    repeat split; auto. apply path_join_below, flat_not_absolute, Hflat.
  - destruct save_body; [| destruct Hin]. destruct Hin as [<- | []].
    exists dir, (HttpRunner.safe_filename name +:+ ".body").
    pose proof (sanitised_file_flat name _ Hbody) as Hflat.
    repeat split; auto. apply path_join_below, flat_not_absolute, Hflat.
Qed.

(** X6.  In both programs, whatever happens in a call of
    [perform_request_with_retries], the only files it can create or
    change are the meta file and, when bodies are saved, the body file
    of its target; each is the directory of the saved results joined with
    a file name that holds no slash, so it lies directly in that
    directory; every other file is as it was, and nothing is written at
    all when no directory is given. *)
Theorem saving_writes_confined env :
  (forall (t : requests_target) w r w',
      requests_perform env t w = (r, w') ->
      forall p,
        ~ In p (save_paths (t_save_dir t) (t_name t) (t_save_body t)) ->
        files w' !! p = files w !! p)
  /\ (forall (t : urllib_target) w r w',
         urllib_perform env t w = (r, w') ->
         forall p,
           ~ In p (save_paths (t_save_dir t) (t_name t) (t_save_body t)) ->
           files w' !! p = files w !! p)
  /\ (forall save_dir name save_body p,
         In p (save_paths save_dir name save_body) ->
         exists dir file,
           saving save_dir = Some dir
           /\ p = path_join dir file
           /\ Forall (fun ch => ch <> "/"%char) (chars file)
           /\ startswith dir p = true)
  /\ (forall save_dir name save_body,
         saving save_dir = None -> save_paths save_dir name save_body = []).
Proof.
  split; [| split; [| split]].
  - intros t w r w' H. exact (proj2 (requests_perform_writes env t _ _ _ H)).
  - intros t w r w' H. exact (proj2 (urllib_perform_writes env t _ _ _ H)).
  - apply save_paths_below.
  - intros save_dir name save_body H. unfold save_paths. now rewrite H.
Qed.

Lemma saving_writes_confined_witness :
  let t := Sample.requests_target_of (Sample.with_save_dir "out" Sample.args) JNull in
  let r := requests_perform (Sample.env_status 200) t Sample.disk_sessions in
  files (snd r) !! "sessions.txt" = files Sample.disk_sessions !! "sessions.txt"
  /\ exists dir file,
       saving (Some "out") = Some dir
       /\ "out/request.meta.json" = path_join dir file
       /\ Forall (fun ch => ch <> "/"%char) (chars file)
       /\ startswith dir "out/request.meta.json" = true.
Proof.
  intros t r. split.
  - apply (proj1 (saving_writes_confined (Sample.env_status 200))
             t Sample.disk_sessions (fst r) (snd r)).
    + apply surjective_pairing.
    + vm_compute. intros [H | []]. discriminate H.
  - apply (proj1 (proj2 (proj2 (saving_writes_confined (Sample.env_status 200))))
             (Some "out") "request" false).
    vm_compute. now left.
Defined.

(** The run behind the witness on an empty disk: bodies are not saved,
    and the meta file is the only file written. *)
Example saved_files :
  let t := Sample.requests_target_of
             (Sample.with_save_dir "out" Sample.args) JNull in
  let r := requests_perform (Sample.env_status 200) t Sample.disk_empty in
  List.filter (fun ev => match ev with EvWrite _ _ => true | _ => false end)
    (map (fun ev => match ev with EvWrite p _ => EvWrite p [] | _ => ev end)
       (log (snd r)))
  = [EvWrite "out/request.meta.json" []].
Proof. reflexivity. Qed.

(* ===================================================================== *)
(** * The session token of a target *)
(* ===================================================================== *)

Lemma truthy_str_true s : s <> "" -> truthy_str s = true.
Proof.
  intros H. unfold truthy_str. destruct (String.eqb_spec s ""); [contradiction | reflexivity].
Qed.

Lemma truthy_str_inv s : truthy_str s = true -> s <> "".
Proof.
  unfold truthy_str. destruct (String.eqb_spec s ""); [discriminate | auto].
Qed.

Lemma truthy_dict_set {V} k (v : V) d : truthy_list (dict_set k v d) = true.
Proof. destruct d as [| [k' v'] d]; cbn; [| destruct (String.eqb k' k)]; reflexivity. Qed.

(** A token and a name that are not empty: the token is put under the
    name, the rest of the dictionary stays. *)
Lemma with_session_carries v n base :
  v <> "" -> n <> "" ->
  HttpRunner.with_session (Some v) (Some n) base = dict_set n v base
  /\ carries n v base (dict_set n v base).
Proof.
  intros Hv Hn. unfold HttpRunner.with_session.
  rewrite (truthy_str_true v Hv), (truthy_str_true n Hn). split; [reflexivity |].
  split; [apply dict_get_set | intros k Hk; now apply dict_get_set_other].
Qed.

(** Every request of a call of [perform_request_with_retries] is the
    request of its target. *)
Lemma requests_perform_request env (t : requests_target) :
  logs_only (calls_are (fun c => c = ViaRequests (requests_request t)))
    (requests_perform env t).
Proof.
  unfold requests_perform, HttpRunner.perform_request_with_retries,
    HttpRunner.attempt_once.
  repeat first
    [ apply requests_build_request_calls; reflexivity
    | logs_only_step ].
Qed.

Lemma urllib_perform_request env (t : urllib_target) :
  logs_only (calls_are (fun c => c = ViaUrllib (urllib_request (lib env) t)))
    (urllib_perform env t).
Proof.
  unfold urllib_perform, HttpRunnerStdlib.perform_request_with_retries,
    HttpRunnerStdlib.attempt_once.
  repeat first
    [ apply urllib_build_and_send_request_calls; reflexivity
    | logs_only_step ].
Qed.

Lemma calls_are_impl (C D : net_call -> Prop) evs :
  (forall c, C c -> D c) ->
  List.Forall (calls_are C) evs -> List.Forall (calls_are D) evs.
Proof.
  intros H. apply List.Forall_impl. intros [ms | c | p | p b | l]; cbn; auto.
Qed.

(** [merge_cookies_into_header] leaves every header but [Cookie] as it
    is. *)
Lemma merge_cookies_other headers cookies k :
  k <> "Cookie" ->
  dict_get k (HttpRunnerStdlib.merge_cookies_into_header headers cookies)
  = dict_get k headers.
Proof.
  intros Hk. unfold HttpRunnerStdlib.merge_cookies_into_header.
  destruct (truthy_list cookies); cbn [negb]; [| reflexivity].
  apply dict_get_set_other. congruence.
Qed.

Lemma dict_get_In {V} k (v : V) d : dict_get k d = Some v -> In (k, v) d.
Proof.
  induction d as [| [k' v'] d IH]; cbn; [discriminate |].
  destruct (String.eqb_spec k' k) as [-> | _]; [intros [= ->]; now left | auto].
Qed.

(** What [dict_set] leaves in the dictionary. *)
Lemma dict_set_In {V} k (v : V) d k' x :
  In (k', x) (dict_set k v d) -> (k', x) = (k, v) \/ In (k', x) d.
Proof.
  induction d as [| [k0 v0] d IH]; cbn.
  - intros [[= <- <-] | []]. now left.
  - destruct (String.eqb_spec k0 k) as [-> | Hk]; cbn.
    + intros [[= <- <-] | H]; auto.
    + intros [H | H]; [auto |]. destruct (IH H); auto.
Qed.

(** In a dictionary, which holds a name once, the old value of the name
    set is gone. *)
Lemma dict_set_In_NoDup {V} k (v : V) d k' x :
  List.NoDup (map fst d) ->
  In (k', x) (dict_set k v d) -> (k', x) = (k, v) \/ (k' <> k /\ In (k', x) d).
Proof.
  induction d as [| [k0 v0] d IH]; cbn; intros Hd.
  - intros [[= <- <-] | []]. now left.
  - inversion Hd as [| ? ? Hk0 Hd']; subst. clear Hd. rename Hd' into Hd.
    destruct (String.eqb_spec k0 k) as [-> | Hk]; cbn.
    + intros [[= <- <-] | H]; [now left |]. right. split; [| now right].
      intros ->. apply Hk0. now apply (in_map fst) in H.
    + intros [[= <- <-] | H]; [right; split; [exact Hk | now left] |].
      destruct (IH Hd H) as [E | [Hne Hin]]; [now left | right; auto].
Qed.

(** The headers [build_and_send_request] adds to the request, away from
    [Cookie] and [Content-Type], are those given. *)
Lemma final_headers_other l headers cookies json_bytes k :
  k <> "Cookie" -> k <> "Content-Type" ->
  dict_get k (HttpRunnerStdlib.final_headers l headers cookies json_bytes)
  = dict_get k headers.
Proof.
  intros Hcookie Htype. unfold HttpRunnerStdlib.final_headers.
  destruct json_bytes as [b |]; [| now apply merge_cookies_other].
  destruct (HttpRunnerStdlib.lacks_content_type l _);
    [rewrite dict_get_set_other by congruence |];
    now apply merge_cookies_other.
Qed.

Lemma final_headers_In l headers cookies json_bytes k x :
  In (k, x) (HttpRunnerStdlib.final_headers l headers cookies json_bytes) ->
  k = "Content-Type" \/ k = "Cookie" \/ In (k, x) headers.
Proof.
  unfold HttpRunnerStdlib.final_headers.
  assert (Hmerge : forall k x,
            In (k, x) (HttpRunnerStdlib.merge_cookies_into_header headers cookies) ->
            k = "Cookie" \/ In (k, x) headers).
  { intros k0 x0. unfold HttpRunnerStdlib.merge_cookies_into_header.
    destruct (negb (truthy_list cookies)); [auto |].
    intros H. apply dict_set_In in H as [[= -> _] | H]; auto. }
  destruct json_bytes as [b |]; [| intros H; right; now apply Hmerge].
  destruct (HttpRunnerStdlib.lacks_content_type l _);
    [| intros H; right; now apply Hmerge].
  intros H. apply dict_set_In in H as [[= -> _] | H]; [now left |].
  right. now apply Hmerge.
Qed.

(** [add_header] keeps one value for the names that are the same once
    capitalised: the one added last.  A header whose capitalised name no
    other header shares, unless with the same value, is in the request
    under its capitalised name. *)
Lemma add_headers_get l final_headers n v :
  In (n, v) final_headers ->
  (forall k x, In (k, x) final_headers ->
     capitalize l k = capitalize l n -> x = v) ->
  dict_get (capitalize l n) (HttpRunnerStdlib.add_headers l final_headers)
  = Some v.
Proof.
  unfold HttpRunnerStdlib.add_headers.
  induction final_headers as [| [k x] d IH] using rev_ind; [intros [] |].
  intros Hin Hsame. rewrite fold_left_app. cbn [fold_left fst snd].
  destruct (string_dec (capitalize l k) (capitalize l n)) as [E | Hne].
  - rewrite E, (Hsame k x); [apply dict_get_set | | exact E].
    apply in_or_app. right. now left.
  - rewrite dict_get_set_other by exact Hne. apply IH.
    + apply in_app_or in Hin as [Hin | [[= -> ->] | []]]; [exact Hin |].
      contradiction.
    + intros k0 x0 H0. apply Hsame, in_or_app. now left.
Qed.

(** X7.  A target with a session token that is not empty.  In
    [http_runner.py] every request of [perform_request_with_retries]
    carries the token under the session header name and under the session
    cookie name, when these are given and not empty, and the other base
    headers and cookies as they were.  In [http_runner_stdlib.py], where
    [Request.add_header] stores a header under its capitalised name,
    every request carries the token under the capitalised session header
    name, when that name, capitalised, is neither the one of [Cookie] nor
    the one of [Content-Type] nor the one of another base header. *)
Theorem session_token_sent env :
  (forall (t : requests_target) v w r w',
      t_session_value t = Some v -> v <> "" ->
      requests_perform env t w = (r, w') ->
      exists evs,
        log w' = log w ++ evs
        /\ List.Forall
             (calls_are (fun c => exists q,
                c = ViaRequests q
                /\ (forall n, t_session_header_name t = Some n -> n <> "" ->
                      exists d, rc_headers q = Some d
                                /\ carries n v (t_base_headers t) d)
                /\ (forall n, t_session_cookie_name t = Some n -> n <> "" ->
                      exists d, rc_cookies q = Some d
                                /\ carries n v (t_base_cookies t) d)))
             evs)
  /\ (forall (t : urllib_target) v w r w',
         t_session_value t = Some v -> v <> "" ->
         List.NoDup (map fst (t_base_headers t)) ->
         urllib_perform env t w = (r, w') ->
         exists evs,
           log w' = log w ++ evs
           /\ List.Forall
                (calls_are (fun c => exists u,
                   c = ViaUrllib u
                   /\ forall n, t_session_header_name t = Some n -> n <> "" ->
                        capitalize (lib env) n <> capitalize (lib env) "Cookie" ->
                        capitalize (lib env) n
                        <> capitalize (lib env) "Content-Type" ->
                        (forall k, In k (map fst (t_base_headers t)) ->
                           capitalize (lib env) k = capitalize (lib env) n ->
                           k = n) ->
                        dict_get (capitalize (lib env) n) (uc_headers u)
                        = Some v))
                evs).
Proof.
  split.
  - intros t v w r w' Hv Hne Hrun.
    destruct (requests_perform_request env t _ _ _ Hrun) as (evs & Hlog & Hevs).
    exists evs. split; [exact Hlog |].
    eapply calls_are_impl; [| exact Hevs]. intros c ->.
    exists (requests_request t). split; [reflexivity |].
    unfold requests_request, HttpRunner.request_kwargs.
    cbn [rc_headers rc_cookies]. rewrite Hv.
    split; intros n Hn Hn0; rewrite Hn;
      destruct (with_session_carries v n (t_base_headers t) Hne Hn0) as [Eh Hh];
      destruct (with_session_carries v n (t_base_cookies t) Hne Hn0) as [Ec Hc];
      rewrite ?Eh, ?Ec; unfold HttpRunner.or_None; rewrite truthy_dict_set; eauto.
  - intros t v w r w' Hv Hne Hbase Hrun.
    destruct (urllib_perform_request env t _ _ _ Hrun) as (evs & Hlog & Hevs).
    exists evs. split; [exact Hlog |].
    eapply calls_are_impl; [| exact Hevs]. intros c ->.
    exists (urllib_request (lib env) t). split; [reflexivity |].
    intros n Hn Hn0 Hcookie Htype Hother.
    unfold urllib_request, HttpRunnerStdlib.request_of. cbn [uc_headers].
    rewrite Hv, Hn.
    change HttpRunnerStdlib.with_session with HttpRunner.with_session.
    destruct (with_session_carries v n (t_base_headers t) Hne Hn0) as [-> [Hget _]].
    apply add_headers_get.
    + apply dict_get_In. rewrite final_headers_other; [exact Hget | |];
        intros ->; congruence.
    + intros k x Hin Hcap.
      apply final_headers_In in Hin as [-> | [-> | Hin]]; [congruence.. |].
      apply dict_set_In_NoDup in Hin as [[= _ ->] | [Hk Hin]];
        [reflexivity | | exact Hbase].
      exfalso. apply Hk, Hother; [| exact Hcap]. now apply (in_map fst) in Hin.
Qed.

Lemma session_token_sent_witness :
  let a := with_session_cookie "sid"
             (Sample.with_session_file "sessions.txt" Sample.args) in
  let r1 := requests_perform (Sample.env_status 200)
              (requests_session_target "alice" a) Sample.disk_empty in
  let r2 := urllib_perform (Sample.env_status 200)
              (urllib_session_target "alice" a) Sample.disk_empty in
  (exists evs,
      log (snd r1) = log Sample.disk_empty ++ evs
      /\ List.Forall
           (calls_are (fun c => exists q,
              c = ViaRequests q
              /\ (forall n, Some "Authorization" = Some n -> n <> "" ->
                    exists d, rc_headers q = Some d
                              /\ carries n "alice" [("Accept", "*/*")] d)
              /\ (forall n, Some "sid" = Some n -> n <> "" ->
                    exists d, rc_cookies q = Some d /\ carries n "alice" [] d)))
           evs)
  /\ (exists evs,
         log (snd r2) = log Sample.disk_empty ++ evs
         /\ List.Forall
              (calls_are (fun c => exists u,
                 c = ViaUrllib u
                 /\ forall n, Some "Authorization" = Some n -> n <> "" ->
                      Sample.capitalize_ascii n <> "Cookie" ->
                      Sample.capitalize_ascii n <> "Content-type" ->
                      (forall k, In k ["Accept"] ->
                         Sample.capitalize_ascii k = Sample.capitalize_ascii n ->
                         k = n) ->
                      dict_get (Sample.capitalize_ascii n) (uc_headers u)
                      = Some "alice"))
              evs).
Proof.
  intros a r1 r2. split.
  - apply (proj1 (session_token_sent (Sample.env_status 200))
             (requests_session_target "alice" a) "alice" Sample.disk_empty
             (fst r1) (snd r1)).
    + reflexivity.
    + discriminate.
    + apply surjective_pairing.
  - apply (proj2 (session_token_sent (Sample.env_status 200))
             (urllib_session_target "alice" a) "alice" Sample.disk_empty
             (fst r2) (snd r2)).
    + reflexivity.
    + discriminate.
    + repeat constructor. intros [].
    + apply surjective_pairing.
Defined.

(** The requests behind the witness: the token under [Authorization]
    next to the base header and under [sid] among the cookies, and in
    [http_runner_stdlib.py] the cookies merged into the [Cookie] header.
    With the session header name [cookie] the token is lost in
    [http_runner_stdlib.py]: the [Cookie] header made of the cookies is
    added after it under the same capitalised name. *)
Example session_requests :
  let a := with_session_cookie "sid"
             (Sample.with_session_file "sessions.txt" Sample.args) in
  let q := requests_request (requests_session_target "alice" a) in
  let u := urllib_request Sample.lib (urllib_session_target "alice" a) in
  let u' := urllib_request Sample.lib
              (urllib_session_target "alice" (with_session_header "cookie" a)) in
  rc_headers q = Some [("Accept", "*/*"); ("Authorization", "alice")]
  /\ rc_cookies q = Some [("sid", "alice")]
  /\ uc_headers u = [("Accept", "*/*"); ("Authorization", "alice");
                     ("Cookie", "lang=en; sid=alice")]
  /\ uc_headers u' = [("Accept", "*/*"); ("Cookie", "lang=en; sid=alice")].
Proof. repeat split; reflexivity. Qed.

(* ===================================================================== *)
(** * The targets of a run *)
(* ===================================================================== *)

(** Stripping is idempotent. *)
Lemma rstrip_by_idem drop s : rstrip_by drop (rstrip_by drop s) = rstrip_by drop s.
Proof.
  induction s as [| c s IH]; [reflexivity |]. cbn [rstrip_by].
  destruct (rstrip_by drop s) as [| x r] eqn:E.
  - destruct (drop c) eqn:Ec; [reflexivity |]. cbn [rstrip_by]. now rewrite Ec.
  - cbn [rstrip_by]. cbn [rstrip_by] in IH. rewrite IH. reflexivity.
Qed.

Lemma lstrip_by_head drop s :
  lstrip_by drop s = ""
  \/ exists c s', lstrip_by drop s = String c s' /\ drop c = false.
Proof.
  induction s as [| c s IH]; [now left |]. cbn [lstrip_by].
  destruct (drop c) eqn:Ec; [exact IH | right; eauto].
Qed.

Lemma rstrip_by_head drop c s :
  drop c = false -> exists r, rstrip_by drop (String c s) = String c r.
Proof.
  intros Hc. cbn [rstrip_by]. destruct (rstrip_by drop s) as [| x r].
  - rewrite Hc. eauto.
  - eauto.
Qed.

Lemma strip_by_idem drop s : strip_by drop (strip_by drop s) = strip_by drop s.
Proof.
  unfold strip_by. destruct (lstrip_by_head drop s) as [-> | (c & s' & -> & Hc)];
    [reflexivity |].
  destruct (rstrip_by_head drop c s' Hc) as (r & Er).
  assert (El : lstrip_by drop (rstrip_by drop (String c s'))
               = rstrip_by drop (String c s')).
  { rewrite Er. cbn [lstrip_by]. now rewrite Hc. }
  rewrite El. apply rstrip_by_idem.
Qed.

Lemma strip_idem s : strip (strip s) = strip s.
Proof. apply strip_by_idem. Qed.

(** The targets made of the lines of a session file: the token is the
    name, it is not empty and has no white space around it. *)
Lemma session_targets_tokens lines :
  List.Forall (fun target => snd target = Some (fst target)
                             /\ fst target <> ""
                             /\ strip (fst target) = fst target)
    (session_targets lines).
Proof.
  induction lines as [| line rest IH]; cbn [session_targets]; [constructor |].
  destruct (truthy_str (strip line)) eqn:E; cbn [negb]; [| exact IH].
  constructor; [| exact IH]. cbn [fst snd].
  split; [reflexivity |]. split; [now apply truthy_str_inv | apply strip_idem].
Qed.

(** The blank lines are the only ones that give no target. *)
Lemma session_targets_length lines :
  length (session_targets lines)
  = length (List.filter (fun line => truthy_str (strip line)) lines).
Proof.
  induction lines as [| line rest IH]; cbn [session_targets List.filter];
    [reflexivity |].
  destruct (truthy_str (strip line)); cbn [negb length]; now rewrite IH.
Qed.

Lemma names_and_sessions_reads_only args :
  reads_only (HttpRunner.names_and_sessions args).
Proof.
  unfold HttpRunner.names_and_sessions.
  destruct (truthy_opt_str (session_file args)); [| apply reads_only_ret].
  destruct (session_file args) as [path |]; [| apply reads_only_ret].
  apply reads_only_bind; [apply reads_only_isfile |]. intros is_file.
  destruct is_file; cbn [negb]; [| apply reads_only_raise].
  apply reads_only_bind; [apply reads_only_read_text |]. intros text.
  apply reads_only_ret.
Qed.

(** X8.  The targets of a run, the same in both programs.  With a
    session file that does not exist the run stops with
    [FileNotFoundError] and the text [Session file not found: <path>],
    the world being as it was.  With one that is read, there is one
    target for each line that is not blank, in the order of the lines;
    its name and its token are the line without the white space around
    it, hence not empty.  Without a session file there is one target
    without token, named by [--name], or [request] when that is missing
    or empty. *)
Theorem targets_of_a_run args w :
  HttpRunnerStdlib.names_and_sessions args = HttpRunner.names_and_sessions args
  /\ (forall path,
         session_file args = Some path -> path <> "" ->
         files w !! path = None ->
         HttpRunner.names_and_sessions args w
         = (Raise (Exn FileNotFoundError ("Session file not found: " +:+ path)), w))
  /\ (forall path targets w',
         session_file args = Some path -> path <> "" ->
         HttpRunner.names_and_sessions args w = (Ok targets, w') ->
         w' = w
         /\ (exists text,
                read_text path w = (Ok text, w)
                /\ targets = session_targets (file_lines text)
                /\ length targets
                   = length (List.filter (fun line => truthy_str (strip line))
                               (file_lines text)))
         /\ List.Forall (fun target => snd target = Some (fst target)
                                       /\ fst target <> ""
                                       /\ strip (fst target) = fst target)
              targets)
  /\ (truthy_opt_str (session_file args) = false ->
      HttpRunner.names_and_sessions args w
      = (Ok [(match name args with
              | Some n => if String.eqb n "" then "request" else n
              | None => "request"
              end, None)], w)).
Proof.
  split; [reflexivity |]. split; [| split].
  - intros path Hpath Hne Hfile. unfold HttpRunner.names_and_sessions.
    rewrite Hpath. cbn [truthy_opt_str]. rewrite (truthy_str_true path Hne).
    unfold bind, isfile. rewrite Hfile.
    rewrite bool_decide_eq_false_2; [reflexivity |]. intros [x Hx]. discriminate Hx.
  - intros path targets w' Hpath Hne Hrun.
    pose proof (names_and_sessions_reads_only args _ _ _ Hrun) as ->.
    split; [reflexivity |].
    unfold HttpRunner.names_and_sessions in Hrun.
    rewrite Hpath in Hrun. cbn [truthy_opt_str] in Hrun.
    rewrite (truthy_str_true path Hne) in Hrun.
    apply bind_Ok_inv in Hrun as (is_file & w1 & Hisfile & Hrun).
    pose proof (reads_only_isfile path _ _ _ Hisfile) as ->.
    destruct is_file; cbn [negb] in Hrun; [| discriminate].
    apply bind_Ok_inv in Hrun as (text & w2 & Hread & Hrun).
    pose proof (reads_only_read_text path _ _ _ Hread) as ->.
    injection Hrun as <-.
    split; [| apply session_targets_tokens].
    exists text. split; [exact Hread |]. split; [reflexivity |].
    apply session_targets_length.
  - intros Hnone. unfold HttpRunner.names_and_sessions. rewrite Hnone.
    unfold ret. do 3 f_equal.
    destruct (name args) as [n |]; [| reflexivity].
    cbn [truthy_opt_str default]. unfold truthy_str.
    destruct (String.eqb n ""); reflexivity.
Qed.

Lemma targets_of_a_run_witness :
  let a := Sample.with_session_file "sessions.txt" Sample.args in
  HttpRunner.names_and_sessions a Sample.disk_empty
  = (Raise (Exn FileNotFoundError "Session file not found: sessions.txt"),
     Sample.disk_empty)
  /\ (Sample.disk_sessions = Sample.disk_sessions
      /\ (exists text,
             read_text "sessions.txt" Sample.disk_sessions
             = (Ok text, Sample.disk_sessions)
             /\ [("alice", Some "alice"); ("bob", Some "bob");
                 ("../../etc/passwd", Some "../../etc/passwd")]
                = session_targets (file_lines text)
             /\ 3%nat = length (List.filter (fun line => truthy_str (strip line))
                                  (file_lines text)))
      /\ List.Forall (fun target => snd target = Some (fst target)
                                    /\ fst target <> ""
                                    /\ strip (fst target) = fst target)
           [("alice", Some "alice"); ("bob", Some "bob");
            ("../../etc/passwd", Some "../../etc/passwd")])
  /\ HttpRunner.names_and_sessions Sample.args Sample.disk_empty
     = (Ok [("request", None)], Sample.disk_empty).
Proof.
  intros a. split; [| split].
  - apply (proj1 (proj2 (targets_of_a_run a Sample.disk_empty)) "sessions.txt").
    + reflexivity.
    + discriminate.
    + reflexivity.
  - apply (proj1 (proj2 (proj2 (targets_of_a_run a Sample.disk_sessions)))
             "sessions.txt"
             [("alice", Some "alice"); ("bob", Some "bob");
              ("../../etc/passwd", Some "../../etc/passwd")]
             Sample.disk_sessions).
    + reflexivity.
    + discriminate.
    + vm_compute. reflexivity.
  - apply (proj2 (proj2 (proj2 (targets_of_a_run Sample.args Sample.disk_empty)))).
    reflexivity.
Defined.

(* ===================================================================== *)
(** * One record for each target *)
(* ===================================================================== *)

Lemma for_each_Forall2 {A B} (P : A -> B -> Prop) (l : list A) (body : A -> M B) :
  (forall x, returns_only (P x) (body x)) ->
  returns_only (Forall2 P l) (for_each l body).
Proof.
  intros Hbody. induction l as [| x l IH]; cbn [for_each]; intros w ys w' H.
  - injection H as <- _. constructor.
  - apply bind_Ok_inv in H as (y & w1 & Hy & H).
    apply bind_Ok_inv in H as (ys' & w2 & Hys & H).
    injection H as <- _. constructor; [exact (Hbody _ _ _ _ Hy) | exact (IH _ _ _ Hys)].
Qed.

(** The names of the records the futures stand for are the names of the
    targets, in the order of submission. *)
Lemma resolve_names targets futures :
  Forall2 future_of targets futures ->
  map (fun fn => outcome_name (resolve fn)) futures = map fst targets.
Proof.
  induction 1 as [| target [future name] targets futures [Hname Hrecord] _ IH];
    cbn [map]; [reflexivity |].
  f_equal; [| exact IH]. cbn [fst snd] in *.
  destruct future as [r | exc]; cbn [resolve outcome_name];
    [now apply Hrecord | exact Hname].
Qed.

(** What [executor.submit] keeps for a task that names its record. *)
Lemma submit_future_of (task : M Outcome) (target : string * option string) :
  returns_only (fun r => outcome_name r = fst target) task ->
  returns_only (future_of target)
    (future <- submit task ;; ret (future, fst target)).
Proof.
  intros Htask w fn w' H.
  apply bind_Ok_inv in H as (future & w1 & Hsubmit & H). injection H as <- _.
  split; [reflexivity |]. cbn [fst]. intros r ->.
  unfold submit in Hsubmit. destruct (task w) as [x wx] eqn:E.
  injection Hsubmit as -> _. exact (Htask _ _ _ E).
Qed.

Lemma requests_run_records env args w results w' :
  HttpRunner.run_concurrent_requests env args w = (Ok results, w') ->
  exists targets,
    HttpRunner.names_and_sessions args w = (Ok targets, w)
    /\ Permutation (map outcome_name results) (map fst targets).
Proof.
  intros Hrun. unfold HttpRunner.run_concurrent_requests in Hrun.
  apply bind_Ok_inv in Hrun as (base_params & w1 & H1 & Hrun).
  pose proof (reads_only_lift _ _ _ _ H1) as ->.
  apply bind_Ok_inv in Hrun as (base_cookies & w2 & H2 & Hrun).
  pose proof (reads_only_lift _ _ _ _ H2) as ->.
  apply bind_Ok_inv in Hrun as (base_headers & w3 & H3 & Hrun).
  pose proof (reads_only_lift _ _ _ _ H3) as ->.
  apply bind_Ok_inv in Hrun as (body & w4 & Hbody & Hrun).
  pose proof (requests_parse_body_reads_only _ _ _ _ _ Hbody) as ->.
  apply bind_Ok_inv in Hrun as (targets & w5 & Htargets & Hrun).
  pose proof (names_and_sessions_reads_only _ _ _ _ Htargets) as ->.
  apply bind_Ok_inv in Hrun as ([] & w6 & _ & Hrun).
  apply bind_Ok_inv in Hrun as (futures & w7 & Hfutures & Hrun).
  apply bind_Ok_inv in Hrun as (collected & w8 & Hcollect & Hrun).
  apply bind_Ok_inv in Hrun as ([] & w9 & _ & Hrun).
  injection Hrun as <- _.
  exists targets. split; [exact Htargets |].
  apply collect_results in Hcollect. cbn [app] in Hcollect. subst collected.
  rewrite List.map_map.
  apply (for_each_Forall2 future_of) in Hfutures.
  - rewrite <- (resolve_names _ _ Hfutures).
    apply Permutation_map, as_completed_Permutation.
  - intros target. apply submit_future_of.
    exact (requests_record_name env
             (Target (fst target) (url args) (method args) base_params
                base_headers base_cookies (snd target)
                (session_header_name args) (session_cookie_name args)
                (timeout args) (follow_redirects args) (negb (no_verify args))
                (HttpRunner.build_proxies args) (fst body) (snd body)
                (retries args) (backoff_ms args) (delay_ms args)
                (save_dir args) (save_body args))).
Qed.

Lemma urllib_run_records env args w results w' :
  HttpRunnerStdlib.run_concurrent_requests env args w = (Ok results, w') ->
  exists targets,
    HttpRunner.names_and_sessions args w = (Ok targets, w)
    /\ Permutation (map outcome_name results) (map fst targets).
Proof.
  intros Hrun. unfold HttpRunnerStdlib.run_concurrent_requests in Hrun.
  apply bind_Ok_inv in Hrun as (base_params & w1 & H1 & Hrun).
  pose proof (reads_only_lift _ _ _ _ H1) as ->.
  apply bind_Ok_inv in Hrun as (base_cookies & w2 & H2 & Hrun).
  pose proof (reads_only_lift _ _ _ _ H2) as ->.
  apply bind_Ok_inv in Hrun as (base_headers & w3 & H3 & Hrun).
  pose proof (reads_only_lift _ _ _ _ H3) as ->.
  apply bind_Ok_inv in Hrun as (body & w4 & Hbody & Hrun).
  pose proof (urllib_parse_body_reads_only _ _ _ _ _ Hbody) as ->.
  apply bind_Ok_inv in Hrun as (targets & w5 & Htargets & Hrun).
  change HttpRunnerStdlib.names_and_sessions
    with HttpRunner.names_and_sessions in Htargets.
  pose proof (names_and_sessions_reads_only _ _ _ _ Htargets) as ->.
  apply bind_Ok_inv in Hrun as ([] & w6 & _ & Hrun).
  apply bind_Ok_inv in Hrun as (futures & w7 & Hfutures & Hrun).
  apply bind_Ok_inv in Hrun as (collected & w8 & Hcollect & Hrun).
  apply bind_Ok_inv in Hrun as ([] & w9 & _ & Hrun).
  injection Hrun as <- _.
  exists targets. split; [exact Htargets |].
  apply collect_results in Hcollect. cbn [app] in Hcollect. subst collected.
  rewrite List.map_map.
  apply (for_each_Forall2 future_of) in Hfutures.
  - rewrite <- (resolve_names _ _ Hfutures).
    apply Permutation_map, as_completed_Permutation.
  - intros target. apply submit_future_of.
    exact (urllib_record_name env
             (Target (fst target) (url args) (method args) base_params
                base_headers base_cookies (snd target)
                (session_header_name args) (session_cookie_name args)
                (timeout args) (follow_redirects args) (negb (no_verify args))
                (HttpRunnerStdlib.build_proxies args) (fst body) (snd body)
                (retries args) (backoff_ms args) (delay_ms args)
                (save_dir args) (save_body args))).
Qed.

(** C6.  [run_concurrent_requests] of [http_runner.py], when it returns
    its records and an output path is configured.  The records are tied
    to the run: one task is submitted for each target, in the order of
    the targets, and its future is kept with the name of the target; the
    records returned are those of these futures, each taken from its
    future in the order [as_completed] yields the futures (the order of
    completion, a rearrangement of the order of submission), so there are
    as many records as targets.  The file at the output path holds, in
    UTF-8, one [json.dumps] per record, each followed by a line feed; read
    back line by line it gives as many lines as there are records, the
    [i]-th line being the [i]-th record received; and each record has
    exactly one of the two shapes. *)
Theorem output_is_json_lines env args w results w' path :
  HttpRunner.run_concurrent_requests env args w = (Ok results, w') ->
  output args = Some path -> truthy_str path = true ->
  read_text path w' = (Ok (jsonl results), w')
  /\ file_lines (jsonl results)
     = map (fun item => Json.dumps (outcome_json item)) results
  /\ length (file_lines (jsonl results)) = length results
  /\ List.Forall (fun item =>
                    xorb (success_shape (outcome_json item))
                         (failure_shape (outcome_json item)) = true) results
  /\ exists base_params base_cookies base_headers body targets futures w1,
       HttpRunner.parse_key_value_pairs (entries (param args)) "="
       = Ok base_params
       /\ HttpRunner.parse_key_value_pairs (entries (cookie args)) "="
          = Ok base_cookies
       /\ HttpRunner.parse_header_pairs (entries (header args)) = Ok base_headers
       /\ HttpRunner.parse_body (lib env) args w = (Ok body, w)
       /\ HttpRunner.names_and_sessions args w = (Ok targets, w)
       /\ requests_submitted env args base_params base_headers base_cookies
            body targets w = (Ok futures, w1)
       /\ Forall2 future_of targets futures
       /\ results = map resolve (as_completed (pick env) futures)
       /\ Permutation results (map resolve futures)
       /\ length results = length targets.
Proof.
  intros Hrun Hout Hpath. unfold HttpRunner.run_concurrent_requests in Hrun.
  apply bind_Ok_inv in Hrun as (base_params & w1 & H1 & Hrun).
  pose proof (reads_only_lift _ _ _ _ H1) as ->.
  apply bind_Ok_inv in Hrun as (base_cookies & w2 & H2 & Hrun).
  pose proof (reads_only_lift _ _ _ _ H2) as ->.
  apply bind_Ok_inv in Hrun as (base_headers & w3 & H3 & Hrun).
  pose proof (reads_only_lift _ _ _ _ H3) as ->.
  apply bind_Ok_inv in Hrun as (body & w4 & Hbody & Hrun).
  pose proof (requests_parse_body_reads_only _ _ _ _ _ Hbody) as ->.
  apply bind_Ok_inv in Hrun as (targets & w5 & Htargets & Hrun).
  pose proof (names_and_sessions_reads_only _ _ _ _ Htargets) as ->.
  apply bind_Ok_inv in Hrun as ([] & w6 & Hworkers & Hrun).
  assert (w6 = w) as ->.
  { destruct (concurrency args <=? 0); [discriminate |]. now injection Hworkers. }
  apply bind_Ok_inv in Hrun as (futures & w7 & Hfutures & Hrun).
  apply bind_Ok_inv in Hrun as (collected & w8 & Hcollect & Hrun).
  apply bind_Ok_inv in Hrun as ([] & w9 & Hwrite & Hrun).
  injection Hrun as <- <-.
  rewrite Hout in Hwrite. unfold when in Hwrite. rewrite Hpath in Hwrite.
  apply write_output_stored in Hwrite as [Hfile _].
  apply collect_results in Hcollect. cbn [app] in Hcollect.
  assert (Hnamed : Forall2 future_of targets futures).
  { apply (for_each_Forall2 future_of) in Hfutures; [exact Hfutures |].
    intros target. apply submit_future_of.
    exact (requests_record_name env
             (requests_target_for args base_params base_headers base_cookies
                body target)). }
  assert (Hperm : Permutation collected (map resolve futures)).
  { rewrite Hcollect. apply Permutation_map, as_completed_Permutation. }
  split; [| split; [| split; [| split]]].
  - unfold read_text, read_bytes, bind, lift. rewrite Hfile.
    now rewrite decode_encode_utf8.
  - apply file_lines_jsonl.
  - now rewrite file_lines_jsonl, List.length_map.
  - apply List.Forall_forall. intros item _. apply outcome_shape.
  - exists base_params, base_cookies, base_headers, body, targets, futures, w7.
    unfold lift in H1, H2, H3.
    split; [congruence |]. split; [congruence |]. split; [congruence |].
    split; [exact Hbody |]. split; [exact Htargets |].
    split; [exact Hfutures |]. split; [exact Hnamed |].
    split; [exact Hcollect |]. split; [exact Hperm |].
    apply Permutation_length in Hperm.
    rewrite Hperm, List.length_map. symmetry. exact (Forall2_length _ _ _ Hnamed).
Qed.

Lemma output_is_json_lines_witness :
  exists results w',
    HttpRunner.run_concurrent_requests Sample.env_reordered Sample.args_sessions
      Sample.disk_sessions = (Ok results, w')
    /\ read_text "out.jsonl" w' = (Ok (jsonl results), w')
    /\ file_lines (jsonl results)
       = map (fun item => Json.dumps (outcome_json item)) results
    /\ length (file_lines (jsonl results)) = length results
    /\ List.Forall (fun item =>
                      xorb (success_shape (outcome_json item))
                           (failure_shape (outcome_json item)) = true) results
    /\ exists base_params base_cookies base_headers body targets futures w1,
         HttpRunner.parse_key_value_pairs (entries (param Sample.args_sessions))
           "=" = Ok base_params
         /\ HttpRunner.parse_key_value_pairs
              (entries (cookie Sample.args_sessions)) "=" = Ok base_cookies
         /\ HttpRunner.parse_header_pairs (entries (header Sample.args_sessions))
            = Ok base_headers
         /\ HttpRunner.parse_body Sample.lib Sample.args_sessions
              Sample.disk_sessions = (Ok body, Sample.disk_sessions)
         /\ HttpRunner.names_and_sessions Sample.args_sessions
              Sample.disk_sessions = (Ok targets, Sample.disk_sessions)
         /\ requests_submitted Sample.env_reordered Sample.args_sessions
              base_params base_headers base_cookies body targets
              Sample.disk_sessions = (Ok futures, w1)
         /\ Forall2 future_of targets futures
         /\ results
            = map resolve (as_completed (pick Sample.env_reordered) futures)
         /\ Permutation results (map resolve futures)
         /\ length results = length targets.
Proof.
  destruct (HttpRunner.run_concurrent_requests Sample.env_reordered
              Sample.args_sessions Sample.disk_sessions)
    as [[results | e] w'] eqn:Hrun; [| vm_compute in Hrun; discriminate Hrun].
  exists results, w'. split; [reflexivity |].
  apply (output_is_json_lines Sample.env_reordered Sample.args_sessions
           Sample.disk_sessions results w' "out.jsonl" Hrun); reflexivity.
Defined.

(** X9.  In both programs, when [run_concurrent_requests] returns, its
    list holds exactly one record for each target, under the name of
    that target: the names of the records are the names of the targets
    rearranged (the order is the one of completion), so there are as
    many records as targets. *)
Theorem one_record_per_target env args w :
  (forall results w',
      HttpRunner.run_concurrent_requests env args w = (Ok results, w') ->
      exists targets,
        HttpRunner.names_and_sessions args w = (Ok targets, w)
        /\ Permutation (map outcome_name results) (map fst targets)
        /\ length results = length targets)
  /\ (forall results w',
         HttpRunnerStdlib.run_concurrent_requests env args w = (Ok results, w') ->
         exists targets,
           HttpRunnerStdlib.names_and_sessions args w = (Ok targets, w)
           /\ Permutation (map outcome_name results) (map fst targets)
           /\ length results = length targets).
Proof.
  split; intros results w' Hrun.
  - destruct (requests_run_records _ _ _ _ _ Hrun) as (targets & Ht & Hperm).
    exists targets. split; [exact Ht |]. split; [exact Hperm |].
    apply Permutation_length in Hperm. now rewrite !List.length_map in Hperm.
  - destruct (urllib_run_records _ _ _ _ _ Hrun) as (targets & Ht & Hperm).
    exists targets. split; [exact Ht |]. split; [exact Hperm |].
    apply Permutation_length in Hperm. now rewrite !List.length_map in Hperm.
Qed.

Lemma one_record_per_target_witness :
  let r1 := HttpRunner.run_concurrent_requests Sample.env_reordered
              Sample.args_sessions Sample.disk_sessions in
  let r2 := HttpRunnerStdlib.run_concurrent_requests Sample.env_timeout
              Sample.args_sessions Sample.disk_sessions in
  (exists results targets,
      fst r1 = Ok results
      /\ HttpRunner.names_and_sessions Sample.args_sessions Sample.disk_sessions
         = (Ok targets, Sample.disk_sessions)
      /\ Permutation (map outcome_name results) (map fst targets)
      /\ length results = length targets)
  /\ (exists results targets,
         fst r2 = Ok results
         /\ HttpRunnerStdlib.names_and_sessions Sample.args_sessions
              Sample.disk_sessions
            = (Ok targets, Sample.disk_sessions)
         /\ Permutation (map outcome_name results) (map fst targets)
         /\ length results = length targets).
Proof.
  intros r1 r2. split.
  - destruct r1 as [[results | e] w'] eqn:Hrun;
      [| vm_compute in Hrun; discriminate Hrun].
    destruct (proj1 (one_record_per_target Sample.env_reordered
                       Sample.args_sessions Sample.disk_sessions)
                results w' Hrun) as (targets & H).
    exists results, targets. split; [reflexivity | exact H].
  - destruct r2 as [[results | e] w'] eqn:Hrun;
      [| vm_compute in Hrun; discriminate Hrun].
    destruct (proj2 (one_record_per_target Sample.env_timeout
                       Sample.args_sessions Sample.disk_sessions)
                results w' Hrun) as (targets & H).
    exists results, targets. split; [reflexivity | exact H].
Defined.

(* ===================================================================== *)
(** * A run that completes *)
(* ===================================================================== *)



(** ** The directories of a run *)















(** The output path is the directory results are saved to: the first
    record saved makes the directory, the output file cannot be opened,
    and [main] returns 1.  When no request gets a response nothing is
    saved, no directory is made, and the output is written. *)
Example output_is_the_save_directory :
  let a := Sample.with_output "out" (Sample.with_save_dir "out" Sample.args) in
  fst (HttpRunner.run_concurrent_requests (Sample.env_status 200) a
         Sample.disk_empty)
  = Raise (Exn IsADirectoryError "[Errno 21] Is a directory: 'out'")
  /\ fst (HttpRunner.main (Sample.env_status 200) (Ok a) Sample.disk_empty)
     = Ok 1
  /\ fst (HttpRunnerStdlib.main (Sample.env_status 200) (Ok a) Sample.disk_empty)
     = Ok 1
  /\ fst (HttpRunner.main Sample.env_timeout (Ok a) Sample.disk_empty) = Ok 0.
Proof. repeat split; reflexivity. Qed.

(* ===================================================================== *)
(** * Dictionaries *)
(* ===================================================================== *)


Lemma dict_get_None {V} k (d : dict V) :
  dict_get k d = None <-> ~ In k (map fst d).
Proof.
  induction d as [| [k' v'] d IH]; cbn; [tauto |].
  destruct (String.eqb_spec k' k) as [-> | Hne].
  - split; [discriminate | intros H; exfalso; apply H; now left].
  - rewrite IH. tauto.
Qed.

Lemma dict_set_keys {V} k (v : V) d x :
  In x (map fst (dict_set k v d)) <-> x = k \/ In x (map fst d).
Proof.
  induction d as [| [k' v'] d IH]; cbn.
  - split; [intros [<- | []]; now left | intros [-> | []]; now left].
  - destruct (String.eqb_spec k' k) as [-> | Hne]; cbn.
    + split; [intros [<- | H]; auto | intros [-> | [<- | H]]; auto].
    + rewrite IH. split; [intros [<- | [-> | H]]; auto | intros [-> | [<- | H]]; auto].
Qed.

(** A dictionary never holds a key twice. *)
Lemma dict_set_NoDup {V} k (v : V) d :
  List.NoDup (map fst d) -> List.NoDup (map fst (dict_set k v d)).
Proof.
  induction d as [| [k' v'] d IH]; cbn; intros H.
  - constructor; [intros [] | constructor].
  - inversion H as [| ? ? Hnotin Hrest]; subst.
    destruct (String.eqb_spec k' k) as [-> | Hne]; cbn; [exact H |].
    constructor; [| now apply IH].
    rewrite dict_set_keys. intros [-> | Hin]; [now apply Hne | contradiction].
Qed.

Lemma dict_update_NoDup {V} (d e : dict V) :
  List.NoDup (map fst d) -> List.NoDup (map fst (dict_update d e)).
Proof.
  unfold dict_update. revert d. induction e as [| [k v] e IH]; intros d H; cbn;
    [exact H |].
  apply IH. now apply dict_set_NoDup.
Qed.

Lemma dict_of_items_NoDup {V} (items : list (string * V)) :
  List.NoDup (map fst (dict_of_items items)).
Proof. apply (dict_update_NoDup [] items). constructor. Qed.

(** [d.update(e)]: the values of [e] where it has the key, those of [d]
    elsewhere. *)
Lemma dict_get_update {V} k (d e : dict V) :
  List.NoDup (map fst e) ->
  dict_get k (dict_update d e)
  = match dict_get k e with
    | Some v => Some v
    | None => dict_get k d
    end.
Proof.
  unfold dict_update. revert d. induction e as [| [k' v'] e IH]; intros d H;
    [reflexivity |].
  inversion H as [| ? ? Hnotin Hrest]; subst.
  cbn [fold_left fst snd]. rewrite (IH _ Hrest). cbn [dict_get].
  destruct (String.eqb_spec k' k) as [-> | Hne].
  - apply dict_get_None in Hnotin. rewrite Hnotin. apply dict_get_set.
  - destruct (dict_get k e); [reflexivity | now apply dict_get_set_other].
Qed.

(* ===================================================================== *)
(** * The request of [http_runner_stdlib.py] *)
(* ===================================================================== *)

(** X11.  [merge_cookies_into_header]: without cookies the headers are
    left as they are; with cookies, only the [Cookie] header changes,
    every other header keeps its value, and the [Cookie] header is there
    afterwards, with no white space around its value. *)
Theorem cookies_go_into_one_header headers cookies :
  let merged := HttpRunnerStdlib.merge_cookies_into_header headers cookies in
  (cookies = [] -> merged = headers)
  /\ (forall k, k <> "Cookie" -> dict_get k merged = dict_get k headers)
  /\ (cookies <> [] ->
      exists v, dict_get "Cookie" merged = Some v /\ strip v = v).
Proof.
  intros merged. split; [| split].
  - intros ->. reflexivity.
  - intros k Hk. now apply merge_cookies_other.
  - intros Hne. unfold merged, HttpRunnerStdlib.merge_cookies_into_header.
    destruct cookies as [| kv cookies]; [contradiction |]. cbn [truthy_list negb].
    eexists. split; [apply dict_get_set | apply strip_idem].
Qed.

Lemma cookies_go_into_one_header_witness :
  let merged := HttpRunnerStdlib.merge_cookies_into_header
                  [("Accept", "*/*"); ("Cookie", " a=1 ")]
                  [("b", "2"); ("c", "3;")] in
  HttpRunnerStdlib.merge_cookies_into_header [("Accept", "*/*")] []
  = [("Accept", "*/*")]
  /\ dict_get "Accept" merged = Some "*/*"
  /\ exists v, dict_get "Cookie" merged = Some v /\ strip v = v.
Proof.
  intros merged. split; [| split].
  - apply (proj1 (cookies_go_into_one_header [("Accept", "*/*")] [])). reflexivity.
  - apply (proj1 (proj2 (cookies_go_into_one_header
                           [("Accept", "*/*"); ("Cookie", " a=1 ")]
                           [("b", "2"); ("c", "3;")]))).
    discriminate.
  - apply (proj2 (proj2 (cookies_go_into_one_header
                           [("Accept", "*/*"); ("Cookie", " a=1 ")]
                           [("b", "2"); ("c", "3;")]))).
    discriminate.
Defined.

(** The merge behind the witness: the cookies follow the value that was
    there, and a semicolon at the end of the last one is lost. *)
Example cookies_merged :
  HttpRunnerStdlib.merge_cookies_into_header
    [("Accept", "*/*"); ("Cookie", " a=1 ")] [("b", "2"); ("c", "3;")]
  = [("Accept", "*/*"); ("Cookie", "a=1; b=2; c=3")].
Proof. reflexivity. Qed.

Lemma lacks_content_type_false l headers :
  HttpRunnerStdlib.lacks_content_type l headers = false
  <-> exists k v, In (k, v) headers /\ title l k = "Content-Type".
Proof.
  unfold HttpRunnerStdlib.lacks_content_type. rewrite negb_false_iff, existsb_exists.
  split.
  - intros ([k v] & Hin & Heq). apply String.eqb_eq in Heq. eauto.
  - intros (k & v & Hin & Heq). exists (k, v). split; [exact Hin |].
    now apply String.eqb_eq.
Qed.

(** X12.  The request [build_and_send_request] hands to the opener.  Its
    body is the JSON bytes when there are some, else the raw data.  Its
    headers are those of [final_headers], each added with
    [Request.add_header], which stores it under its capitalised name
    ([Content-type]), a later header taking the place of an earlier one of
    the same capitalised name; so a header of [final_headers] is in the
    request under its capitalised name when no header of another value
    shares that name.  Without a JSON body [final_headers] is the given
    headers with the cookies merged in: nothing is added for raw data.
    With a JSON body, a header whose name reads [Content-Type] once
    title-cased, whatever its letter case, is kept and none is added;
    when there is none, [Content-Type: application/json; charset=utf-8] is
    set in [final_headers], and the request carries it under the
    capitalised name when no given header has that capitalised name. *)
Theorem json_body_gets_content_type l url method params headers cookies timeout
    allow_redirects verify_tls proxies data_bytes json_bytes :
  let merged := HttpRunnerStdlib.merge_cookies_into_header headers cookies in
  let final := HttpRunnerStdlib.final_headers l headers cookies json_bytes in
  let u := HttpRunnerStdlib.request_of l url method params headers cookies
             timeout allow_redirects verify_tls proxies data_bytes json_bytes in
  uc_data u = body_bytes data_bytes json_bytes
  /\ uc_headers u = HttpRunnerStdlib.add_headers l final
  /\ (forall n v,
        In (n, v) final ->
        (forall k x, In (k, x) final ->
           capitalize l k = capitalize l n -> x = v) ->
        dict_get (capitalize l n) (uc_headers u) = Some v)
  /\ (json_bytes = None -> final = merged)
  /\ (json_bytes <> None ->
      (exists k v, In (k, v) merged /\ title l k = "Content-Type") ->
      final = merged)
  /\ (json_bytes <> None ->
      (forall k v, In (k, v) merged -> title l k <> "Content-Type") ->
      final = dict_set "Content-Type" "application/json; charset=utf-8" merged
      /\ ((forall k v, In (k, v) merged ->
             capitalize l k <> capitalize l "Content-Type") ->
          dict_get (capitalize l "Content-Type") (uc_headers u)
          = Some "application/json; charset=utf-8"))
  /\ (json_bytes <> None -> title l "Content-Type" = "Content-Type" ->
      exists k v, In (k, v) final /\ title l k = "Content-Type").
Proof.
  intros merged final u. unfold u, HttpRunnerStdlib.request_of.
  cbn [uc_data uc_headers]. fold final.
  unfold final, HttpRunnerStdlib.final_headers. fold merged.
  split; [| split; [| split; [| split; [| split; [| split]]]]].
  - destruct json_bytes, data_bytes; reflexivity.
  - reflexivity.
  - intros n v. apply add_headers_get.
  - intros ->. reflexivity.
  - intros Hjson Hhas. destruct json_bytes as [b |]; [| contradiction].
    apply lacks_content_type_false in Hhas. now rewrite Hhas.
  - intros Hjson Hnone. destruct json_bytes as [b |]; [| contradiction].
    destruct (HttpRunnerStdlib.lacks_content_type l merged) eqn:E.
    + split; [reflexivity |]. intros Hcap. apply add_headers_get.
      * apply dict_get_In, dict_get_set.
      * intros k x Hin Hk. apply dict_set_In in Hin as [[= _ ->] | Hin];
          [reflexivity |].
        exfalso. exact (Hcap k x Hin Hk).
    + apply lacks_content_type_false in E as (k & v & Hin & Heq).
      exfalso. exact (Hnone k v Hin Heq).
  - intros Hjson Htitle. destruct json_bytes as [b |]; [| contradiction].
    destruct (HttpRunnerStdlib.lacks_content_type l merged) eqn:E.
    + exists "Content-Type", "application/json; charset=utf-8".
      split; [apply dict_get_In, dict_get_set | exact Htitle].
    + now apply lacks_content_type_false in E.
Qed.

Lemma json_body_gets_content_type_witness :
  let request := fun headers data_bytes json_bytes =>
    HttpRunnerStdlib.request_of Sample.lib "http://host/" "POST" [] headers []
      Sample.seconds_30 false true None data_bytes json_bytes in
  dict_get "Accept"
    (uc_headers (request [("accept", "*/*")] (Some (encode_utf8 "a=1")) None))
  = Some "*/*"
  /\ HttpRunnerStdlib.final_headers Sample.lib [] [] None = []
  /\ HttpRunnerStdlib.final_headers Sample.lib [("content-type", "text/plain")] []
       (Some (encode_utf8 "{}"))
     = [("content-type", "text/plain")]
  /\ dict_get "Content-type"
       (uc_headers (request [("Accept", "*/*")] None (Some (encode_utf8 "{}"))))
     = Some "application/json; charset=utf-8"
  /\ exists k v,
       In (k, v) (HttpRunnerStdlib.final_headers Sample.lib [] []
                    (Some (encode_utf8 "{}")))
       /\ title Sample.lib k = "Content-Type".
Proof.
  intros request. split; [| split; [| split; [| split]]].
  - apply (proj1 (proj2 (proj2 (json_body_gets_content_type Sample.lib
             "http://host/" "POST" [] [("accept", "*/*")] []
             Sample.seconds_30 false true None
             (Some (encode_utf8 "a=1")) None))) "accept" "*/*").
    + now left.
    + intros k x [[= <- <-] | []] _. reflexivity.
  - apply (proj1 (proj2 (proj2 (proj2 (json_body_gets_content_type Sample.lib
             "http://host/" "POST" [] [] [] Sample.seconds_30 false true None
             None None))))).
    reflexivity.
  - apply (proj1 (proj2 (proj2 (proj2 (proj2 (json_body_gets_content_type
             Sample.lib "http://host/" "POST" [] [("content-type", "text/plain")]
             [] Sample.seconds_30 false true None None
             (Some (encode_utf8 "{}")))))))).
    + discriminate.
    + exists "content-type", "text/plain". split; [now left | reflexivity].
  - apply (proj1 (proj2 (proj2 (proj2 (proj2 (proj2
             (json_body_gets_content_type Sample.lib
                "http://host/" "POST" [] [("Accept", "*/*")] []
                Sample.seconds_30 false true None None
                (Some (encode_utf8 "{}")))))))));
      try discriminate;
      intros k v [[= <- <-] | []]; discriminate.
  - apply (proj2 (proj2 (proj2 (proj2 (proj2 (proj2
             (json_body_gets_content_type Sample.lib
                "http://host/" "POST" [] [] []
                Sample.seconds_30 false true None None
                (Some (encode_utf8 "{}"))))))))).
    + discriminate.
    + reflexivity.
Defined.

(** The headers of three requests with a JSON body: the content type
    added under its capitalised name; a content type given in lower case
    kept, and stored under the same capitalised name; and two given
    headers that differ by their letter case only, of which the request
    has the second. *)
Example content_type_headers :
  let request := fun headers =>
    HttpRunnerStdlib.request_of Sample.lib "http://host/" "POST" [] headers []
      Sample.seconds_30 false true None None (Some (encode_utf8 "{}")) in
  uc_headers (request [("Accept", "*/*")])
  = [("Accept", "*/*"); ("Content-type", "application/json; charset=utf-8")]
  /\ uc_headers (request [("content-type", "text/plain")])
     = [("Content-type", "text/plain")]
  /\ uc_headers (request [("X-Trace", "1"); ("x-trace", "2");
                          ("Content-Type", "text/plain")])
     = [("X-trace", "2"); ("Content-type", "text/plain")].
Proof. repeat split; reflexivity. Qed.

(** X13.  [attach_params_to_url]: without parameters the URL is left as
    it is.  With parameters, its query is replaced by the encoding of a
    dictionary that holds every parameter with its value, and the keys
    of the old query that are not parameters with the value the old query
    gave them last; no key occurs twice in it, so a key repeated in the
    old query is kept once. *)
Theorem params_override_query l url params :
  (params = [] -> HttpRunnerStdlib.attach_params_to_url l url params = url)
  /\ (params <> [] -> List.NoDup (map fst params) ->
      exists query,
        HttpRunnerStdlib.attach_params_to_url l url params
        = url_replace_query l url (urlencode l query)
        /\ List.NoDup (map fst query)
        /\ (forall k v, dict_get k params = Some v -> dict_get k query = Some v)
        /\ (forall k, dict_get k params = None ->
              dict_get k query
              = dict_get k (dict_of_items (parse_qsl l (url_query l url))))).
Proof.
  split.
  - intros ->. reflexivity.
  - intros Hne Hdict. unfold HttpRunnerStdlib.attach_params_to_url.
    destruct params as [| kv params]; [contradiction |]. cbn [truthy_list negb].
    eexists. split; [reflexivity |]. split; [| split].
    + apply dict_update_NoDup, dict_of_items_NoDup.
    + intros k v Hk. now rewrite dict_get_update, Hk.
    + intros k Hk. now rewrite dict_get_update, Hk.
Qed.

Lemma params_override_query_witness :
  HttpRunnerStdlib.attach_params_to_url Sample.lib "http://host/" [] = "http://host/"
  /\ exists query,
       HttpRunnerStdlib.attach_params_to_url Sample.lib "http://host/"
         [("a", "1"); ("b", "2")]
       = url_replace_query Sample.lib "http://host/" (urlencode Sample.lib query)
       /\ List.NoDup (map fst query)
       /\ (forall k v, dict_get k [("a", "1"); ("b", "2")] = Some v ->
             dict_get k query = Some v)
       /\ (forall k, dict_get k [("a", "1"); ("b", "2")] = None ->
             dict_get k query
             = dict_get k (dict_of_items
                             (parse_qsl Sample.lib
                                (url_query Sample.lib "http://host/")))).
Proof.
  split.
  - apply (proj1 (params_override_query Sample.lib "http://host/" [])). reflexivity.
  - apply (proj2 (params_override_query Sample.lib "http://host/"
                    [("a", "1"); ("b", "2")])).
    + discriminate.
    + repeat constructor; cbn; intuition discriminate.
Defined.

(* ===================================================================== *)
(** * The body of a run *)
(* ===================================================================== *)

Lemma isfile_missing path w :
  files w !! path = None -> isfile path w = (Ok false, w).
Proof.
  intros H. unfold isfile. rewrite H.
  rewrite bool_decide_eq_false_2; [reflexivity |]. intros [x Hx]. discriminate Hx.
Qed.

Lemma isfile_present path w b :
  files w !! path = Some b -> isfile path w = (Ok true, w).
Proof.
  intros H. unfold isfile. rewrite H.
  rewrite bool_decide_eq_true_2; [reflexivity | now exists b].
Qed.

Lemma read_text_present path w b :
  files w !! path = Some b -> read_text path w = (decode_utf8 b, w).
Proof. intros H. unfold read_text, read_bytes, bind, lift. rewrite H. now destruct (decode_utf8 b). Qed.

(** X14.  [parse_body] returns at most one body, in both programs.  When
    it returns, the world is as it was; there is raw data exactly when a
    data source was given; in [http_runner_stdlib.py] there are JSON
    bytes exactly when a JSON source was given, and in [http_runner.py]
    the document is [None] when none was given; and the two are never
    set together. *)
Theorem parse_body_one_source l args w :
  (forall d j w1,
      HttpRunner.parse_body l args w = (Ok (d, j), w1) ->
      w1 = w
      /\ present d = present (data args)
      /\ (json args = None -> j = JNull)
      /\ (d = None \/ j = JNull))
  /\ (forall d jb w1,
         HttpRunnerStdlib.parse_body l args w = (Ok (d, jb), w1) ->
         w1 = w
         /\ present d = present (data args)
         /\ present jb = present (json args)
         /\ (d = None \/ jb = None)).
Proof.
  split.
  - intros d j w1 H.
    pose proof (requests_parse_body_reads_only _ _ _ _ _ H) as ->.
    split; [reflexivity |]. unfold HttpRunner.parse_body in H.
    destruct (json args) as [js |], (data args) as [ds |]; try discriminate.
    + apply bind_Ok_inv in H as (j' & w2 & _ & H). injection H as <- <-.
      cbn. split; [reflexivity |]. split; [discriminate | now left].
    + unfold bind at 1 in H. cbn [ret] in H.
      apply bind_Ok_inv in H as (d' & w2 & Hd & H). injection H as <- <-.
      apply bind_Ok_inv in Hd as (is_file & w3 & _ & Hd).
      destruct is_file.
      * apply bind_Ok_inv in Hd as (text & w4 & _ & Hd). injection Hd as <- _.
        cbn. auto.
      * injection Hd as <- _. cbn. auto.
    + injection H as <- <-. cbn. auto.
  - intros d jb w1 H.
    pose proof (urllib_parse_body_reads_only _ _ _ _ _ H) as ->.
    split; [reflexivity |]. unfold HttpRunnerStdlib.parse_body in H.
    destruct (json args) as [js |], (data args) as [ds |]; try discriminate.
    + apply bind_Ok_inv in H as (jb' & w2 & Hj & H). injection H as <- <-.
      apply bind_Ok_inv in Hj as (is_file & w3 & _ & Hj).
      apply bind_Ok_inv in Hj as (obj & w4 & _ & Hj). injection Hj as <- _.
      cbn. auto.
    + unfold bind at 1 in H. cbn [ret] in H.
      apply bind_Ok_inv in H as (d' & w2 & Hd & H). injection H as <- <-.
      apply bind_Ok_inv in Hd as (is_file & w3 & _ & Hd).
      destruct is_file.
      * apply bind_Ok_inv in Hd as (b & w4 & _ & Hd). injection Hd as <- _.
        cbn. auto.
      * injection Hd as <- _. cbn. auto.
    + injection H as <- <-. cbn. auto.
Qed.

Lemma parse_body_one_source_witness :
  (Sample.disk_empty = Sample.disk_empty
   /\ present (@None string) = present (data Sample.args_json)
   /\ (json Sample.args_json = None -> JArr [JInt 1] = JNull)
   /\ (@None string = None \/ JArr [JInt 1] = JNull))
  /\ (Sample.disk_empty = Sample.disk_empty
      /\ present (@None bytes) = present (data Sample.args_json)
      /\ present (Some (encode_utf8 "[1]")) = present (json Sample.args_json)
      /\ (@None bytes = None \/ Some (encode_utf8 "[1]") = None)).
Proof.
  split.
  - apply (proj1 (parse_body_one_source Sample.lib Sample.args_json
                    Sample.disk_empty)).
    reflexivity.
  - apply (proj2 (parse_body_one_source Sample.lib Sample.args_json
                    Sample.disk_empty)).
    reflexivity.
Defined.

(** X15.  The data source, when no JSON source is given.  A source that
    is not the path of a file is the body itself: the string in
    [http_runner.py], its UTF-8 bytes in [http_runner_stdlib.py].  A
    source that is the path of a file stands for its content:
    [http_runner_stdlib.py] takes the bytes as they are, whatever they
    are, whereas [http_runner.py] reads the file as text, which gives the
    text the bytes encode when that holds no carriage return. *)
Theorem data_source l args w src :
  data args = Some src -> json args = None ->
  (files w !! src = None ->
   HttpRunner.parse_body l args w = (Ok (Some src, JNull), w)
   /\ HttpRunnerStdlib.parse_body l args w
      = (Ok (Some (encode_utf8 src), None), w))
  /\ (forall b,
         files w !! src = Some b ->
         HttpRunnerStdlib.parse_body l args w = (Ok (Some b, None), w)
         /\ forall text,
              decode_utf8 b = Ok text -> no_carriage_return text = true ->
              HttpRunner.parse_body l args w = (Ok (Some text, JNull), w)).
Proof.
  intros Hd Hj. unfold HttpRunner.parse_body, HttpRunnerStdlib.parse_body.
  rewrite Hd, Hj. unfold isfile, read_text, read_bytes, lift, ret, bind. split.
  - intros Hfile. rewrite Hfile. split; reflexivity.
  - intros b Hfile. rewrite Hfile.
    rewrite bool_decide_eq_true_2 by (now exists b). rewrite Hfile.
    split; [reflexivity |]. intros text Htext _. now rewrite Htext.
Qed.

Lemma data_source_witness :
  let args := Sample.with_bodies None (Some "sessions.txt") Sample.args in
  let binary := World {[ "sessions.txt" := [Byte.xff] ]} (fun _ => None) [] in
  (HttpRunner.parse_body Sample.lib args Sample.disk_empty
   = (Ok (Some "sessions.txt", JNull), Sample.disk_empty)
   /\ HttpRunnerStdlib.parse_body Sample.lib args Sample.disk_empty
      = (Ok (Some (encode_utf8 "sessions.txt"), None), Sample.disk_empty))
  /\ HttpRunnerStdlib.parse_body Sample.lib args binary
     = (Ok (Some [Byte.xff], None), binary)
  /\ HttpRunner.parse_body Sample.lib args Sample.disk_sessions
     = (Ok (Some ("alice" +:+ newline +:+ newline +:+ "  bob " +:+ newline
                  +:+ "../../etc/passwd"), JNull), Sample.disk_sessions).
Proof.
  intros args binary. split; [| split].
  - apply (proj1 (data_source Sample.lib args Sample.disk_empty "sessions.txt"
                    eq_refl eq_refl)).
    reflexivity.
  - apply (proj2 (data_source Sample.lib args binary "sessions.txt"
                    eq_refl eq_refl) [Byte.xff]).
    reflexivity.
  - apply (proj2 (data_source Sample.lib args Sample.disk_sessions "sessions.txt"
                    eq_refl eq_refl)
             (encode_utf8 ("alice" +:+ newline +:+ newline +:+ "  bob " +:+ newline
                           +:+ "../../etc/passwd"))).
    + reflexivity.
    + apply decode_encode_utf8.
    + reflexivity.
Defined.

(** The file of one byte FF, which is not UTF-8: [http_runner.py] stops
    with [UnicodeDecodeError] where [http_runner_stdlib.py] goes on. *)
Example data_file_not_utf8 :
  match fst (HttpRunner.parse_body Sample.lib
               (Sample.with_bodies None (Some "sessions.txt") Sample.args)
               (World {[ "sessions.txt" := [Byte.xff] ]} (fun _ => None) []))
  with
  | Raise e => exn_cls e = UnicodeDecodeError
  | Ok _ => False
  end.
Proof. reflexivity. Qed.

(** X16.  The JSON source, when no data source is given, in both
    programs.  A source that is not the path of a file is parsed itself:
    when it is not valid JSON, [parse_body] raises [ValueError] with the
    text [--json is not valid JSON: ] followed by the message of the
    parser.  A source that is the path of a file stands for its text
    (taken here without carriage return, so that reading it in text mode
    changes nothing): when that is not valid JSON, the [JSONDecodeError]
    of the parser comes out as it is.  A valid document is returned
    decoded by [http_runner.py] and serialised by
    [http_runner_stdlib.py]. *)
Theorem json_source l args w src :
  json args = Some src -> data args = None ->
  (files w !! src = None ->
   match json_loads l src with
   | inr v =>
       HttpRunner.parse_body l args w = (Ok (None, v), w)
       /\ HttpRunnerStdlib.parse_body l args w
          = (Ok (None, Some (encode_utf8 (Json.dumps v))), w)
   | inl msg =>
       HttpRunner.parse_body l args w
       = (Raise (Exn ValueError ("--json is not valid JSON: " +:+ msg)), w)
       /\ HttpRunnerStdlib.parse_body l args w
          = (Raise (Exn ValueError ("--json is not valid JSON: " +:+ msg)), w)
   end)
  /\ (forall b text,
         files w !! src = Some b -> decode_utf8 b = Ok text ->
         no_carriage_return text = true ->
         match json_loads l text with
         | inr v =>
             HttpRunner.parse_body l args w = (Ok (None, v), w)
             /\ HttpRunnerStdlib.parse_body l args w
                = (Ok (None, Some (encode_utf8 (Json.dumps v))), w)
         | inl msg =>
             HttpRunner.parse_body l args w = (Raise (Exn JSONDecodeError msg), w)
             /\ HttpRunnerStdlib.parse_body l args w
                = (Raise (Exn JSONDecodeError msg), w)
         end).
Proof.
  intros Hj Hd. unfold HttpRunner.parse_body, HttpRunnerStdlib.parse_body.
  rewrite Hd, Hj.
  unfold HttpRunner.load_json_from_file, HttpRunnerStdlib.load_json_from_file.
  unfold isfile, read_text, read_bytes, lift, ret, raise, bind. split.
  - intros Hfile. rewrite Hfile. cbn.
    destruct (json_loads l src) as [msg | v]; split; reflexivity.
  - intros b text Hfile Htext _. rewrite Hfile.
    rewrite bool_decide_eq_true_2 by (now exists b). rewrite Hfile, Htext.
    destruct (json_loads l text) as [msg | v]; split; reflexivity.
Qed.

Lemma json_source_witness :
  let inline := Sample.with_bodies (Some "{oops") None Sample.args in
  let from_file := Sample.with_bodies (Some "sessions.txt") None Sample.args in
  (HttpRunner.parse_body Sample.lib inline Sample.disk_empty
   = (Raise (Exn ValueError
        "--json is not valid JSON: Expecting value: line 1 column 1 (char 0)"),
      Sample.disk_empty)
   /\ HttpRunnerStdlib.parse_body Sample.lib inline Sample.disk_empty
      = (Raise (Exn ValueError
           "--json is not valid JSON: Expecting value: line 1 column 1 (char 0)"),
         Sample.disk_empty))
  /\ (HttpRunner.parse_body Sample.lib from_file Sample.disk_sessions
      = (Raise (Exn JSONDecodeError "Expecting value: line 1 column 1 (char 0)"),
         Sample.disk_sessions)
      /\ HttpRunnerStdlib.parse_body Sample.lib from_file Sample.disk_sessions
         = (Raise (Exn JSONDecodeError "Expecting value: line 1 column 1 (char 0)"),
            Sample.disk_sessions)).
Proof.
  intros inline from_file. split.
  - apply (proj1 (json_source Sample.lib inline Sample.disk_empty "{oops"
                    eq_refl eq_refl)).
    reflexivity.
  - apply (proj2 (json_source Sample.lib from_file Sample.disk_sessions
                    "sessions.txt" eq_refl eq_refl)
             (encode_utf8 ("alice" +:+ newline +:+ newline +:+ "  bob " +:+ newline
                           +:+ "../../etc/passwd"))
             ("alice" +:+ newline +:+ newline +:+ "  bob " +:+ newline
              +:+ "../../etc/passwd")).
    + reflexivity.
    + apply decode_encode_utf8.
    + reflexivity.
Defined.

(* ===================================================================== *)
(** * More on the parsers *)
(* ===================================================================== *)

(** Splitting at a separator of one character that the text before it
    does not hold. *)
Lemma contains_first c a b : contains (String c "") (a +:+ String c "" +:+ b) = true.
Proof.
  induction a as [| x a IH].
  - change ((if Ascii.eqb c c then true else false) || contains (String c "") b
            = true).
    now rewrite Ascii.eqb_refl.
  - change (contains (String c "") (String x (a +:+ String c "" +:+ b)) = true).
    cbn [contains]. rewrite IH. apply orb_true_r.
Qed.

Lemma partition_first c a b :
  ~ In c (chars a) ->
  partition (String c "") (a +:+ String c "" +:+ b) = Some (a, b).
Proof.
  induction a as [| x a IH]; intros Hnotin.
  - change ((if (if Ascii.eqb c c then true else false)
             then Some (EmptyString, b)
             else match partition (String c "") b with
                  | Some (a, b0) => Some (String c a, b0)
                  | None => None
                  end) = Some (EmptyString, b)).
    now rewrite Ascii.eqb_refl.
  - change ((if (if Ascii.eqb c x then true else false)
             then Some (EmptyString,
                        drop_str 1 (String x (a +:+ String c "" +:+ b)))
             else match partition (String c "") (a +:+ String c "" +:+ b) with
                  | Some (a0, b0) => Some (String x a0, b0)
                  | None => None
                  end) = Some (String x a, b)).
    destruct (Ascii.eqb_spec c x) as [-> | Hne].
    + exfalso. apply Hnotin. now left.
    + rewrite IH; [reflexivity |]. intros Hin. apply Hnotin. now right.
Qed.

(** The loops of the parsers go through a list in two halves. *)
Lemma parse_key_value_items_app sep l1 l2 acc :
  HttpRunner.parse_key_value_items sep (l1 ++ l2) acc
  = res_bind (HttpRunner.parse_key_value_items sep l1 acc)
             (HttpRunner.parse_key_value_items sep l2).
Proof.
  revert acc. induction l1 as [| [item |] rest IH]; intros acc;
    cbn [app HttpRunner.parse_key_value_items]; [reflexivity | | apply IH].
  destruct (contains sep item); cbn [negb]; [| reflexivity].
  destruct (split1 sep item) as [[| k [| v [| x parts]]] | e]; cbn [res_bind];
    try reflexivity.
  destruct (truthy_str (strip k)); cbn [negb]; [apply IH | reflexivity].
Qed.

Lemma parse_header_items_app l1 l2 acc :
  HttpRunner.parse_header_items (l1 ++ l2) acc
  = res_bind (HttpRunner.parse_header_items l1 acc)
             (HttpRunner.parse_header_items l2).
Proof.
  revert acc. induction l1 as [| [item |] rest IH]; intros acc;
    cbn [app HttpRunner.parse_header_items]; [reflexivity | | reflexivity].
  destruct (contains ":" item); cbn [negb]; [| reflexivity].
  destruct (split1 ":" item) as [[| k [| v [| x parts]]] | e]; cbn [res_bind];
    try reflexivity.
  destruct (truthy_str (strip k)); cbn [negb]; [apply IH | reflexivity].
Qed.

Lemma parse_key_value_entry c a b acc :
  ~ In c (chars a) ->
  HttpRunner.parse_key_value_items (String c "")
    [Some (a +:+ String c "" +:+ b)] acc
  = add_entry "pair" "Key" (a +:+ String c "" +:+ b) a b acc.
Proof.
  intros Hnotin. cbn [HttpRunner.parse_key_value_items].
  rewrite contains_first. cbn [negb]. unfold split1.
  rewrite (partition_first c a b Hnotin). cbn [res_bind].
  unfold add_entry, truthy_str. destruct (String.eqb (strip a) ""); reflexivity.
Qed.

Lemma parse_header_entry a b acc :
  ~ In ":"%char (chars a) ->
  HttpRunner.parse_header_items [Some (a +:+ ":" +:+ b)] acc
  = add_entry "header" "Name" (a +:+ ":" +:+ b) a b acc.
Proof.
  intros Hnotin. cbn [HttpRunner.parse_header_items].
  rewrite (contains_first ":" a b). cbn [negb]. unfold split1.
  rewrite (partition_first ":" a b Hnotin). cbn [res_bind].
  unfold add_entry, truthy_str. destruct (String.eqb (strip a) ""); reflexivity.
Qed.

Lemma parse_key_value_pairs_items items sep :
  HttpRunner.parse_key_value_pairs (Some items) sep
  = HttpRunner.parse_key_value_items sep items [].
Proof. destruct items; reflexivity. Qed.

Lemma parse_header_pairs_items items :
  HttpRunner.parse_header_pairs (Some items)
  = HttpRunner.parse_header_items items [].
Proof. destruct items; reflexivity. Qed.

(** X17.  An entry [a<sep>b] whose part [a] does not hold the separator,
    after any entries, in [parse_key_value_pairs] and in
    [parse_header_pairs] (where the separator is the colon): the entry is
    split at its first separator, so [b] may hold further ones; the
    dictionary is the one of the entries before it with the stripped [b]
    assigned to the stripped [a], so the entry wins over an earlier one
    for the same key and the other keys keep their values; when the
    stripped [a] is empty the parser raises instead, and when an earlier
    entry raises, its exception is the result. *)
Theorem entry_after_entries c a b items :
  ~ In c (chars a) ->
  let sep := String c "" in
  let item := a +:+ sep +:+ b in
  HttpRunner.parse_key_value_pairs (Some (items ++ [Some item])) sep
  = res_bind (HttpRunner.parse_key_value_pairs (Some items) sep)
             (add_entry "pair" "Key" item a b)
  /\ (c = ":"%char ->
      HttpRunner.parse_header_pairs (Some (items ++ [Some item]))
      = res_bind (HttpRunner.parse_header_pairs (Some items))
                 (add_entry "header" "Name" item a b))
  /\ (forall d,
         HttpRunner.parse_key_value_pairs (Some (items ++ [Some item])) sep = Ok d ->
         dict_get (strip a) d = Some (strip b)
         /\ exists before,
              HttpRunner.parse_key_value_pairs (Some items) sep = Ok before
              /\ forall k, k <> strip a -> dict_get k d = dict_get k before).
Proof.
  intros Hnotin sep item.
  assert (Hkv : HttpRunner.parse_key_value_pairs (Some (items ++ [Some item])) sep
                = res_bind (HttpRunner.parse_key_value_pairs (Some items) sep)
                           (add_entry "pair" "Key" item a b)).
  { rewrite !parse_key_value_pairs_items, parse_key_value_items_app.
    destruct (HttpRunner.parse_key_value_items sep items []) as [d0 | e];
      [| reflexivity].
    cbn [res_bind]. now apply parse_key_value_entry. }
  split; [exact Hkv |]. split.
  - intros ->. rewrite !parse_header_pairs_items, parse_header_items_app.
    destruct (HttpRunner.parse_header_items items []) as [d0 | e];
      [| reflexivity].
    cbn [res_bind]. now apply parse_header_entry.
  - intros d Hd. rewrite Hkv in Hd.
    destruct (HttpRunner.parse_key_value_pairs (Some items) sep) as [before | e];
      [| discriminate].
    cbn [res_bind] in Hd. unfold add_entry in Hd.
    destruct (String.eqb (strip a) ""); [discriminate |]. injection Hd as <-.
    split; [apply dict_get_set |]. exists before. split; [reflexivity |].
    intros k Hk. apply dict_get_set_other. congruence.
Qed.

Lemma entry_after_entries_witness :
  HttpRunner.parse_key_value_pairs
    (Some ([Some "a=1"; Some "b=2"] ++ [Some (" a " +:+ "=" +:+ " x=y ")])) "="
  = res_bind (HttpRunner.parse_key_value_pairs (Some [Some "a=1"; Some "b=2"]) "=")
             (add_entry "pair" "Key" (" a " +:+ "=" +:+ " x=y ") " a " " x=y ")
  /\ HttpRunner.parse_header_pairs
       (Some ([Some "Host: a"] ++ [Some ("Host" +:+ ":" +:+ " b:80")]))
     = res_bind (HttpRunner.parse_header_pairs (Some [Some "Host: a"]))
                (add_entry "header" "Name" ("Host" +:+ ":" +:+ " b:80")
                   "Host" " b:80")
  /\ (dict_get (strip " a ") [("a", "x=y"); ("b", "2")] = Some (strip " x=y ")
      /\ exists before,
           HttpRunner.parse_key_value_pairs (Some [Some "a=1"; Some "b=2"]) "="
           = Ok before
           /\ forall k, k <> strip " a " ->
                dict_get k [("a", "x=y"); ("b", "2")] = dict_get k before).
Proof.
  split; [| split].
  - apply (proj1 (entry_after_entries "=" " a " " x=y " [Some "a=1"; Some "b=2"]
                    ltac:(cbn; intuition discriminate))).
  - apply (proj1 (proj2 (entry_after_entries ":" "Host" " b:80" [Some "Host: a"]
                           ltac:(cbn; intuition discriminate)))).
    reflexivity.
  - apply (proj2 (proj2 (entry_after_entries "=" " a " " x=y "
                           [Some "a=1"; Some "b=2"]
                           ltac:(cbn; intuition discriminate)))).
    reflexivity.
Defined.

(** ** What a parsed dictionary looks like *)

Lemma dict_set_Forall {V} (P : string * V -> Prop) k v d :
  P (k, v) -> List.Forall P d -> List.Forall P (dict_set k v d).
Proof.
  intros Hkv. induction 1 as [| [k' v'] d Hx Hd IH]; cbn.
  - repeat constructor. exact Hkv.
  - destruct (String.eqb_spec k' k) as [-> | Hne]; constructor; auto.
Qed.

Lemma parse_key_value_items_clean sep items acc d :
  HttpRunner.parse_key_value_items sep items acc = Ok d ->
  List.NoDup (map fst acc) -> List.Forall stripped_item acc ->
  List.NoDup (map fst d) /\ List.Forall stripped_item d.
Proof.
  revert acc. induction items as [| [item |] rest IH]; intros acc;
    cbn [HttpRunner.parse_key_value_items].
  - intros [= <-]. auto.
  - destruct (contains sep item); cbn [negb]; [| discriminate].
    destruct (split1 sep item) as [[| k [| v [| x parts]]] | e]; cbn [res_bind];
      try discriminate.
    destruct (truthy_str (strip k)) eqn:Ek; cbn [negb]; [| discriminate].
    intros H Hnodup Hall. apply (IH _ H).
    + now apply dict_set_NoDup.
    + apply dict_set_Forall; [| exact Hall].
      split; [now apply truthy_str_inv |]. split; apply strip_idem.
  - apply IH.
Qed.

Lemma parse_header_items_clean items acc d :
  HttpRunner.parse_header_items items acc = Ok d ->
  List.NoDup (map fst acc) -> List.Forall stripped_item acc ->
  List.NoDup (map fst d) /\ List.Forall stripped_item d.
Proof.
  revert acc. induction items as [| [item |] rest IH]; intros acc;
    cbn [HttpRunner.parse_header_items].
  - intros [= <-]. auto.
  - destruct (contains ":" item); cbn [negb]; [| discriminate].
    destruct (split1 ":" item) as [[| k [| v [| x parts]]] | e]; cbn [res_bind];
      try discriminate.
    destruct (truthy_str (strip k)) eqn:Ek; cbn [negb]; [| discriminate].
    intros H Hnodup Hall. apply (IH _ H).
    + now apply dict_set_NoDup.
    + apply dict_set_Forall; [| exact Hall].
      split; [now apply truthy_str_inv |]. split; apply strip_idem.
  - discriminate.
Qed.

(** X18.  The dictionary [parse_key_value_pairs] or [parse_header_pairs]
    returns, for any entries and any separator: no key occurs twice, no
    key is empty, and neither keys nor values have white space around
    them. *)
Theorem parsed_dictionary_is_clean :
  (forall pairs sep d,
      HttpRunner.parse_key_value_pairs pairs sep = Ok d ->
      List.NoDup (map fst d) /\ List.Forall stripped_item d)
  /\ (forall pairs d,
         HttpRunner.parse_header_pairs pairs = Ok d ->
         List.NoDup (map fst d) /\ List.Forall stripped_item d).
Proof.
  split.
  - intros [items |] sep d.
    + rewrite parse_key_value_pairs_items. intros H.
      apply (parse_key_value_items_clean _ _ _ _ H); constructor.
    + intros [= <-]. split; constructor.
  - intros [items |] d.
    + rewrite parse_header_pairs_items. intros H.
      apply (parse_header_items_clean _ _ _ H); constructor.
    + intros [= <-]. split; constructor.
Qed.

Lemma parsed_dictionary_is_clean_witness :
  (List.NoDup (map fst [("a", "3"); ("b", "")])
   /\ List.Forall stripped_item [("a", "3"); ("b", "")])
  /\ (List.NoDup (map fst [("Host", "b")])
      /\ List.Forall stripped_item [("Host", "b")]).
Proof.
  split.
  - apply (proj1 parsed_dictionary_is_clean
             (Some [Some " a = 1"; Some "b= "; None; Some "a=3"]) "=").
    reflexivity.
  - apply (proj2 parsed_dictionary_is_clean
             (Some [Some "Host: a"; Some " Host :b "])).
    reflexivity.
Defined.

(* ===================================================================== *)
(** * Names that share their files *)
(* ===================================================================== *)

Lemma chars_inj s1 s2 : chars s1 = chars s2 -> s1 = s2.
Proof. intros H. rewrite <- (str_chars s1), <- (str_chars s2). now rewrite H. Qed.

Lemma sanitise_twice ch :
  (if HttpRunner.keeps (if HttpRunner.keeps ch then ch else "_"%char)
   then (if HttpRunner.keeps ch then ch else "_"%char) else "_"%char)
  = (if HttpRunner.keeps ch then ch else "_"%char).
Proof. now rewrite keeps_sanitised. Qed.

Lemma sanitise_same l1 l2 :
  Forall2 same_in_file_names l1 l2 ->
  forall n,
    map (fun ch => if HttpRunner.keeps ch then ch else "_"%char) (firstn n l1)
    = map (fun ch => if HttpRunner.keeps ch then ch else "_"%char) (firstn n l2).
Proof.
  induction 1 as [| c1 c2 l1 l2 Hc _ IH]; intros n; [reflexivity |].
  destruct n as [| n]; [reflexivity |]. cbn [firstn map]. rewrite (IH n).
  f_equal. destruct Hc as [-> | [H1 H2]]; [reflexivity |]. now rewrite H1, H2.
Qed.

(** X19.  [safe_filename] maps different names to the same file name:
    applying it again changes nothing, so a name and its sanitised form
    share their files; what follows the 128th character of a name is
    ignored; and two names of the same length that differ only where
    both have a character that is replaced (anything but a letter, a
    digit, [-], [_], [.]) get the same file name. *)
Theorem names_sharing_files value :
  HttpRunner.safe_filename (HttpRunner.safe_filename value)
  = HttpRunner.safe_filename value
  /\ (forall rest,
         (128 <= len value)%nat ->
         HttpRunner.safe_filename (value +:+ rest) = HttpRunner.safe_filename value)
  /\ (forall other,
         Forall2 same_in_file_names (chars value) (chars other) ->
         HttpRunner.safe_filename other = HttpRunner.safe_filename value).
Proof.
  split; [| split].
  - apply chars_inj. rewrite !chars_safe_filename.
    rewrite List.firstn_map, List.map_map, List.firstn_firstn, Nat.min_id.
    apply map_ext. intros ch. apply sanitise_twice.
  - intros rest Hlen. apply chars_inj. rewrite !chars_safe_filename, chars_append.
    rewrite List.firstn_app. rewrite <- len_chars.
    replace (128 - len value)%nat with 0%nat by lia.
    cbn [firstn]. now rewrite app_nil_r.
  - intros other H. apply chars_inj. rewrite !chars_safe_filename.
    symmetry. now apply sanitise_same.
Qed.

Lemma names_sharing_files_witness :
  HttpRunner.safe_filename
    (("0123456789abcdef0123456789abcdef0123456789abcdef"
      +:+ "0123456789abcdef0123456789abcdef0123456789abcdef"
      +:+ "0123456789abcdef0123456789abcdef") +:+ "/tail")
  = HttpRunner.safe_filename
      ("0123456789abcdef0123456789abcdef0123456789abcdef"
       +:+ "0123456789abcdef0123456789abcdef0123456789abcdef"
       +:+ "0123456789abcdef0123456789abcdef")
  /\ HttpRunner.safe_filename "a?b" = HttpRunner.safe_filename "a/b".
Proof.
  split.
  - apply (proj1 (proj2 (names_sharing_files
                           ("0123456789abcdef0123456789abcdef0123456789abcdef"
                            +:+ "0123456789abcdef0123456789abcdef0123456789abcdef"
                            +:+ "0123456789abcdef0123456789abcdef"))) "/tail").
    vm_compute. lia.
  - apply (proj2 (proj2 (names_sharing_files "a/b")) "a?b").
    repeat constructor; right; split; reflexivity.
Defined.

(* ===================================================================== *)
(** * The lines of a run *)
(* ===================================================================== *)

Lemma printed_app l1 l2 : printed (l1 ++ l2) = printed l1 ++ printed l2.
Proof. unfold printed. apply flat_map_app. Qed.

Lemma same_printed_refl w : same_printed w w.
Proof. reflexivity. Qed.

Lemma same_printed_trans w1 w2 w3 :
  same_printed w1 w2 -> same_printed w2 w3 -> same_printed w1 w3.
Proof. unfold same_printed. congruence. Qed.

Lemma same_printed_log ev w :
  (forall line, ev <> EvPrint line) -> same_printed w (log_event ev w).
Proof.
  intros Hev. unfold same_printed, log_event. cbn [log]. rewrite printed_app.
  destruct ev; cbn; rewrite ?app_nil_r; try reflexivity.
  now destruct (Hev line).
Qed.

Lemma same_printed_write path data w :
  same_printed w
    (World (<[path := data]> (files w)) (denied w) (log w ++ [EvWrite path data])).
Proof.
  unfold same_printed. cbn [log]. rewrite printed_app. cbn. now rewrite app_nil_r.
Qed.

(** A task prints nothing. *)
Lemma save_step_prints (save_dir : option string) name record save_body content :
  steps same_printed
    (match save_dir with
     | Some dir => when (truthy_str dir)
                     (HttpRunner.save_record dir name record save_body content)
     | None => ret tt
     end ;; ret record).
Proof.
  apply (steps_bind _ same_printed_trans);
    [| intros; apply steps_ret, same_printed_refl].
  destruct save_dir as [dir |]; [| apply steps_ret, same_printed_refl].
  apply (steps_when _ same_printed_refl).
  apply (steps_save_record _ same_printed_refl same_printed_trans); intros;
    first [apply same_printed_write | apply same_printed_log; discriminate].
Qed.

Lemma requests_perform_prints env (t : requests_target) :
  steps same_printed (requests_perform env t).
Proof.
  unfold requests_perform, HttpRunner.perform_request_with_retries.
  apply (steps_retry_while _ same_printed_refl same_printed_trans);
    [| intros; apply steps_ret, same_printed_refl].
  intros a. unfold HttpRunner.attempt_once.
  apply (steps_bind _ same_printed_trans).
  { apply (steps_when _ same_printed_refl),
      (steps_sleep_ms _ same_printed_refl).
    intros w. apply same_printed_log. discriminate. }
  intros _. apply (steps_bind _ same_printed_trans).
  { apply (steps_when _ same_printed_refl),
      (steps_sleep_ms _ same_printed_refl).
    intros w. apply same_printed_log. discriminate. }
  intros _. apply (steps_bind _ same_printed_trans).
  { intros w r w'. unfold HttpRunner.build_request.
    destruct (requests_net env _ _); intros [= _ <-];
      apply same_printed_log; discriminate. }
  intros reply. apply save_step_prints.
Qed.

Lemma urllib_perform_prints env (t : urllib_target) :
  steps same_printed (urllib_perform env t).
Proof.
  unfold urllib_perform, HttpRunnerStdlib.perform_request_with_retries.
  apply (steps_retry_while _ same_printed_refl same_printed_trans);
    [| intros; apply steps_ret, same_printed_refl].
  intros a. unfold HttpRunnerStdlib.attempt_once.
  apply (steps_bind _ same_printed_trans).
  { apply (steps_when _ same_printed_refl),
      (steps_sleep_ms _ same_printed_refl).
    intros w. apply same_printed_log. discriminate. }
  intros _. apply (steps_bind _ same_printed_trans).
  { apply (steps_when _ same_printed_refl),
      (steps_sleep_ms _ same_printed_refl).
    intros w. apply same_printed_log. discriminate. }
  intros _. apply (steps_bind _ same_printed_trans).
  { intros w r w'. unfold HttpRunnerStdlib.build_and_send_request.
    destruct (request_error _ _ _);
      [intros [= _ <-]; apply same_printed_refl |].
    destruct (urllib_net env _ _); intros [= _ <-];
      apply same_printed_log; discriminate. }
  intros [[[status headers_dict] content] elapsed_ms]. apply save_step_prints.
Qed.

(** The loop over [as_completed] prints one line for each record, in the
    order of the records. *)
Lemma collect_printed interrupt completed :
  List.Forall (fun fn : res Outcome * string =>
                 forall r, fst fn = Ok r -> outcome_name r = snd fn) completed ->
  forall k results w out w',
    collect interrupt k completed results w = (Ok out, w') ->
    printed (log w') = printed (log w) ++ map report_line (map resolve completed).
Proof.
  induction 1 as [| [future name] rest Hname _ IH]; intros k results w out w';
    cbn [collect].
  - intros [= _ <-]. cbn. now rewrite app_nil_r.
  - destruct (bool_decide (interrupt = Some k)); [discriminate |].
    intros H. apply bind_Ok_inv in H as (result & w1 & Hres & H).
    apply bind_Ok_inv in H as ([] & w2 & Hprint & H).
    apply IH in H. rewrite H. cbn [map]. cbn [fst snd] in Hname.
    assert (Hline : printed (log w2)
                    = printed (log w) ++ [report_line (resolve (future, name))]).
    { destruct future as [r | exc]; cbn [resolve].
      - injection Hres as <- <-. specialize (Hname r eq_refl).
        destruct r as [n status elapsed_ms hdrs | n error]; cbn in Hname;
          subst n; injection Hprint as <-; unfold log_event; cbn [log];
          rewrite printed_app; reflexivity.
      - destruct (is_Exception exc); [| discriminate]. injection Hres as <- <-.
        injection Hprint as <-. unfold log_event. cbn [log].
        rewrite printed_app. reflexivity. }
    rewrite Hline, <- app_assoc. reflexivity.
Qed.

Lemma future_of_named targets futures :
  Forall2 future_of targets futures ->
  List.Forall (fun fn : res Outcome * string =>
                 forall r, fst fn = Ok r -> outcome_name r = snd fn) futures.
Proof.
  induction 1 as [| target fn targets futures [Hname Hrecord] _ IH];
    constructor; [| exact IH].
  intros r Hr. rewrite Hname. now apply Hrecord.
Qed.

Lemma output_prints l (out : option string) results :
  steps same_printed
    (match out with
     | Some path => when (truthy_str path) (write_output l path (jsonl results))
     | None => ret tt
     end).
Proof.
  destruct out as [path |]; [| apply steps_ret, same_printed_refl].
  apply (steps_when _ same_printed_refl).
  apply (steps_write_output _ same_printed_refl). intros w _.
  apply same_printed_write.
Qed.

Lemma requests_run_printed env args w results w' :
  HttpRunner.run_concurrent_requests env args w = (Ok results, w') ->
  printed (log w') = printed (log w) ++ map report_line results.
Proof.
  intros Hrun. unfold HttpRunner.run_concurrent_requests in Hrun.
  apply bind_Ok_inv in Hrun as (base_params & w1 & H1 & Hrun).
  pose proof (reads_only_lift _ _ _ _ H1) as ->.
  apply bind_Ok_inv in Hrun as (base_cookies & w2 & H2 & Hrun).
  pose proof (reads_only_lift _ _ _ _ H2) as ->.
  apply bind_Ok_inv in Hrun as (base_headers & w3 & H3 & Hrun).
  pose proof (reads_only_lift _ _ _ _ H3) as ->.
  apply bind_Ok_inv in Hrun as (body & w4 & Hbody & Hrun).
  pose proof (requests_parse_body_reads_only _ _ _ _ _ Hbody) as ->.
  apply bind_Ok_inv in Hrun as (targets & w5 & Htargets & Hrun).
  pose proof (names_and_sessions_reads_only _ _ _ _ Htargets) as ->.
  apply bind_Ok_inv in Hrun as ([] & w6 & Hguard & Hrun).
  assert (w6 = w) as ->.
  { destruct (concurrency args <=? 0); [discriminate | now injection Hguard]. }
  apply bind_Ok_inv in Hrun as (futures & w7 & Hfutures & Hrun).
  apply bind_Ok_inv in Hrun as (collected & w8 & Hcollect & Hrun).
  apply bind_Ok_inv in Hrun as ([] & w9 & Hwrite & Hrun).
  injection Hrun as <- <-.
  apply output_prints in Hwrite. unfold same_printed in Hwrite. rewrite Hwrite.
  pose proof (collect_results _ _ _ _ _ _ _ Hcollect) as Hresults.
  cbn [app] in Hresults.
  assert (Hsteps : same_printed w w7).
  { revert Hfutures.
    apply (steps_for_each _ same_printed_refl same_printed_trans).
    intros target. apply (steps_bind _ same_printed_trans);
      [| intros; apply steps_ret, same_printed_refl].
    apply steps_submit.
    exact (requests_perform_prints env
             (Target (fst target) (url args) (method args) base_params
                base_headers base_cookies (snd target)
                (session_header_name args) (session_cookie_name args)
                (timeout args) (follow_redirects args) (negb (no_verify args))
                (HttpRunner.build_proxies args) (fst body) (snd body)
                (retries args) (backoff_ms args) (delay_ms args)
                (save_dir args) (save_body args))). }
  apply (for_each_Forall2 future_of) in Hfutures.
  - apply collect_printed in Hcollect.
    + rewrite Hcollect, Hresults. unfold same_printed in Hsteps.
      now rewrite Hsteps.
    + eapply Permutation_Forall;
        [symmetry; apply as_completed_Permutation |].
      now apply (future_of_named targets).
  - intros target. apply submit_future_of.
    exact (requests_record_name env
             (Target (fst target) (url args) (method args) base_params
                base_headers base_cookies (snd target)
                (session_header_name args) (session_cookie_name args)
                (timeout args) (follow_redirects args) (negb (no_verify args))
                (HttpRunner.build_proxies args) (fst body) (snd body)
                (retries args) (backoff_ms args) (delay_ms args)
                (save_dir args) (save_body args))).
Qed.

Lemma urllib_run_printed env args w results w' :
  HttpRunnerStdlib.run_concurrent_requests env args w = (Ok results, w') ->
  printed (log w') = printed (log w) ++ map report_line results.
Proof.
  intros Hrun. unfold HttpRunnerStdlib.run_concurrent_requests in Hrun.
  apply bind_Ok_inv in Hrun as (base_params & w1 & H1 & Hrun).
  pose proof (reads_only_lift _ _ _ _ H1) as ->.
  apply bind_Ok_inv in Hrun as (base_cookies & w2 & H2 & Hrun).
  pose proof (reads_only_lift _ _ _ _ H2) as ->.
  apply bind_Ok_inv in Hrun as (base_headers & w3 & H3 & Hrun).
  pose proof (reads_only_lift _ _ _ _ H3) as ->.
  apply bind_Ok_inv in Hrun as (body & w4 & Hbody & Hrun).
  pose proof (urllib_parse_body_reads_only _ _ _ _ _ Hbody) as ->.
  apply bind_Ok_inv in Hrun as (targets & w5 & Htargets & Hrun).
  change HttpRunnerStdlib.names_and_sessions
    with HttpRunner.names_and_sessions in Htargets.
  pose proof (names_and_sessions_reads_only _ _ _ _ Htargets) as ->.
  apply bind_Ok_inv in Hrun as ([] & w6 & Hguard & Hrun).
  assert (w6 = w) as ->.
  { destruct (concurrency args <=? 0); [discriminate | now injection Hguard]. }
  apply bind_Ok_inv in Hrun as (futures & w7 & Hfutures & Hrun).
  apply bind_Ok_inv in Hrun as (collected & w8 & Hcollect & Hrun).
  apply bind_Ok_inv in Hrun as ([] & w9 & Hwrite & Hrun).
  injection Hrun as <- <-.
  apply output_prints in Hwrite. unfold same_printed in Hwrite. rewrite Hwrite.
  pose proof (collect_results _ _ _ _ _ _ _ Hcollect) as Hresults.
  cbn [app] in Hresults.
  assert (Hsteps : same_printed w w7).
  { revert Hfutures.
    apply (steps_for_each _ same_printed_refl same_printed_trans).
    intros target. apply (steps_bind _ same_printed_trans);
      [| intros; apply steps_ret, same_printed_refl].
    apply steps_submit.
    exact (urllib_perform_prints env
             (Target (fst target) (url args) (method args) base_params
                base_headers base_cookies (snd target)
                (session_header_name args) (session_cookie_name args)
                (timeout args) (follow_redirects args) (negb (no_verify args))
                (HttpRunnerStdlib.build_proxies args) (fst body) (snd body)
                (retries args) (backoff_ms args) (delay_ms args)
                (save_dir args) (save_body args))). }
  apply (for_each_Forall2 future_of) in Hfutures.
  - apply collect_printed in Hcollect.
    + rewrite Hcollect, Hresults. unfold same_printed in Hsteps.
      now rewrite Hsteps.
    + eapply Permutation_Forall;
        [symmetry; apply as_completed_Permutation |].
      now apply (future_of_named targets).
  - intros target. apply submit_future_of.
    exact (urllib_record_name env
             (Target (fst target) (url args) (method args) base_params
                base_headers base_cookies (snd target)
                (session_header_name args) (session_cookie_name args)
                (timeout args) (follow_redirects args) (negb (no_verify args))
                (HttpRunnerStdlib.build_proxies args) (fst body) (snd body)
                (retries args) (backoff_ms args) (delay_ms args)
                (save_dir args) (save_body args))).
Qed.

(** X20.  In both programs, when [run_concurrent_requests] returns, it
    has printed exactly one line for each record it returns, in the
    order of the records, and nothing else: [[!] <name>: ERROR ->
    <error>] for a failure and [[+] <name>: <status> in <elapsed>ms] for
    a success. *)
Theorem one_line_per_record env args w :
  (forall results w',
      HttpRunner.run_concurrent_requests env args w = (Ok results, w') ->
      printed (log w') = printed (log w) ++ map report_line results)
  /\ (forall results w',
         HttpRunnerStdlib.run_concurrent_requests env args w = (Ok results, w') ->
         printed (log w') = printed (log w) ++ map report_line results).
Proof.
  split; intros results w'.
  - apply requests_run_printed.
  - apply urllib_run_printed.
Qed.

Lemma one_line_per_record_witness :
  let r1 := HttpRunner.run_concurrent_requests Sample.env_reordered
              Sample.args_sessions Sample.disk_sessions in
  let r2 := HttpRunnerStdlib.run_concurrent_requests Sample.env_timeout
              Sample.args Sample.disk_empty in
  printed (log (snd r1))
  = printed (log Sample.disk_sessions)
    ++ map report_line
         [Success "../../etc/passwd" 200 Sample.ms_12_5 [("Content-Length", "0")];
          Success "alice" 200 Sample.ms_12_5 [("Content-Length", "0")];
          Success "bob" 200 Sample.ms_12_5 [("Content-Length", "0")]]
  /\ printed (log (snd r2))
     = printed (log Sample.disk_empty)
       ++ map report_line
            [Failure "request" "<urlopen error timed out> (call 2)"].
Proof.
  intros r1 r2. split.
  - apply (proj1 (one_line_per_record Sample.env_reordered Sample.args_sessions
                    Sample.disk_sessions)).
    vm_compute. reflexivity.
  - apply (proj2 (one_line_per_record Sample.env_timeout Sample.args
                    Sample.disk_empty)).
    vm_compute. reflexivity.
Defined.

(** The lines behind the witness. *)
Example lines_of_three_sessions :
  printed (log (snd (HttpRunner.run_concurrent_requests Sample.env_reordered
                       Sample.args_sessions Sample.disk_sessions)))
  = ["[+] ../../etc/passwd: 200 in 12.5ms"; "[+] alice: 200 in 12.5ms";
     "[+] bob: 200 in 12.5ms"].
Proof. vm_compute. reflexivity. Qed.

(* ===================================================================== *)
(** * A success that is saved *)
(* ===================================================================== *)

Lemma append_inv_head a b c : a +:+ b = a +:+ c -> b = c.
Proof.
  induction a as [| x a IH]; [auto |]. intros H.
  change (String x (a +:+ b) = String x (a +:+ c)) in H.
  injection H as H. auto.
Qed.

Lemma startswith_slash_append fb s1 s2 c1 c2 :
  startswith "/" (fb +:+ String c1 s1) = false ->
  c1 = c2 ->
  startswith "/" (fb +:+ String c2 s2) = false.
Proof. intros H <-. destruct fb as [| c fb]; exact H. Qed.

(** The meta file and the body file of a target are two files. *)
Lemma meta_body_distinct dir fb : meta_path dir fb <> body_path dir fb.
Proof.
  unfold meta_path, body_path, path_join. intros H.
  assert (Hsame : startswith "/" (fb +:+ ".body")
                  = startswith "/" (fb +:+ ".meta.json"))
    by (destruct fb; reflexivity).
  rewrite Hsame in H.
  destruct (startswith "/" (fb +:+ ".meta.json")).
  - apply append_inv_head in H. discriminate H.
  - destruct (negb (truthy_str dir) || startswith "/" (str (rev (chars dir)))).
    + apply append_inv_head, append_inv_head in H. discriminate H.
    + do 3 apply append_inv_head in H. discriminate H.
Qed.

(** When [save_record] returns, the meta file holds the record as
    indented JSON and, when bodies are saved, the body file holds the
    content; no request was made. *)
Lemma save_record_stored dir name record save_body content w w1 :
  HttpRunner.save_record dir name record save_body content w = (Ok tt, w1) ->
  files w1 !! meta_path dir (HttpRunner.safe_filename name)
  = Some (encode_utf8 (Json.dumps_indent 2 (outcome_json record)))
  /\ (save_body = true ->
      files w1 !! body_path dir (HttpRunner.safe_filename name) = Some content)
  /\ calls_made (log w1) = calls_made (log w).
Proof.
  unfold HttpRunner.save_record. fold (meta_path dir (HttpRunner.safe_filename name)).
  fold (body_path dir (HttpRunner.safe_filename name)).
  intros H. apply bind_Ok_inv in H as ([] & w2 & Hdir & H).
  apply bind_Ok_inv in H as ([] & w3 & Hmeta & H).
  unfold makedirs in Hdir.
  destruct (files w !! dir); [discriminate |].
  destruct (denied w dir); [discriminate |]. injection Hdir as <-.
  unfold write_text, write_bytes in Hmeta. cbn [denied log_event] in Hmeta.
  destruct (denied w (meta_path dir (HttpRunner.safe_filename name)));
    [discriminate |].
  injection Hmeta as <-. cbn [files log log_event] in H.
  destruct save_body; cbn [when] in H.
  - unfold write_bytes in H. cbn [denied files log] in H.
    destruct (denied w (body_path dir (HttpRunner.safe_filename name)));
      [discriminate |].
    injection H as <-. cbn [files log]. split; [| split].
    + rewrite lookup_insert_ne by (apply not_eq_sym, meta_body_distinct).
      apply lookup_insert_eq.
    + intros _. apply lookup_insert_eq.
    + rewrite !calls_made_app. cbn. lia.
  - injection H as <-. cbn [files log]. split; [| split].
    + apply lookup_insert_eq.
    + discriminate.
    + rewrite !calls_made_app. cbn. lia.
Qed.

(** What a loop returns was returned by one of its attempts or by what
    follows the loop. *)
Lemma retry_while_returned {A} fuel retries (body : Z -> M A) otherwise
    a last w r w' :
  retry_while fuel retries body otherwise a last w = (Ok r, w') ->
  (exists a0 w0, body a0 w0 = (Ok r, w'))
  \/ (exists last0 w0, otherwise last0 w0 = (Ok r, w')).
Proof.
  revert a last w. induction fuel as [| fuel IH]; intros a last w;
    cbn [retry_while]; destruct (a <=? retries); eauto; [discriminate |].
  unfold try_except. destruct (body a w) as [[x | e] w1] eqn:Eb.
  - intros [= <- <-]. eauto.
  - destruct (is_Exception e); [apply IH | discriminate].
Qed.

(** The part of an attempt that follows the response, when it returns
    and results are saved. *)
Lemma save_step_stored (save_dir : option string) dir name record save_body
    content w r w' :
  saving save_dir = Some dir ->
  (match save_dir with
   | Some dir => when (truthy_str dir)
                   (HttpRunner.save_record dir name record save_body content)
   | None => ret tt
   end ;; ret record) w = (Ok r, w') ->
  r = record
  /\ files w' !! meta_path dir (HttpRunner.safe_filename name)
     = Some (encode_utf8 (Json.dumps_indent 2 (outcome_json record)))
  /\ (save_body = true ->
      files w' !! body_path dir (HttpRunner.safe_filename name) = Some content)
  /\ calls_made (log w') = calls_made (log w).
Proof.
  unfold saving. destruct save_dir as [d |]; [| discriminate].
  destruct (truthy_str d) eqn:Ed; [| discriminate]. intros [= ->] H.
  cbn [when] in H. apply bind_Ok_inv in H as ([] & w1 & Hsave & H).
  injection H as <- <-. split; [reflexivity |].
  now apply save_record_stored.
Qed.

Lemma requests_success_saved env (t : requests_target) w record w' dir :
  requests_perform env t w = (Ok record, w') ->
  has_error record = false ->
  saving (t_save_dir t) = Some dir ->
  files w' !! meta_path dir (HttpRunner.safe_filename (t_name t))
  = Some (encode_utf8 (Json.dumps_indent 2 (outcome_json record)))
  /\ (t_save_body t = true ->
      exists resp elapsed_ms,
        requests_net env (calls_made (log w') - 1) (requests_request t)
        = Replied resp elapsed_ms
        /\ files w' !! body_path dir (HttpRunner.safe_filename (t_name t))
           = Some (resp_content resp)).
Proof.
  intros Hrun Hok Hdir.
  apply retry_while_returned in Hrun as [(a & w0 & H) | (last & w0 & H)];
    [| injection H as <- _; discriminate Hok].
  change (requests_attempt env t a w0 = (Ok record, w')) in H.
  unfold requests_attempt, HttpRunner.attempt_once in H.
  apply bind_Ok_inv in H as ([] & wa & _ & H).
  apply bind_Ok_inv in H as ([] & wb & _ & H).
  unfold bind at 1 in H.
  unfold HttpRunner.build_request in H. fold (requests_request t) in H.
  revert H.
  match goal with
  | |- context [requests_net env (calls_made (log ?w1))] =>
      generalize w1
  end.
  intros w1 H.
  destruct (requests_net env (calls_made (log w1)) (requests_request t))
    as [resp el | e] eqn:Enet; [| discriminate].
  cbn [fst snd] in H.
  destruct (save_step_stored _ _ _ _ _ _ _ _ _ Hdir H)
    as (-> & Hmeta & Hbody & Hcalls).
  split; [exact Hmeta |]. intros Hsave. exists resp, el.
  split; [| now apply Hbody].
  rewrite Hcalls. unfold log_event. cbn [log]. rewrite calls_made_app. cbn.
  replace (calls_made (log w1) + 1 - 1)%nat with (calls_made (log w1)) by lia.
  exact Enet.
Qed.

Lemma urllib_success_saved env (t : urllib_target) w record w' dir :
  urllib_perform env t w = (Ok record, w') ->
  has_error record = false ->
  saving (t_save_dir t) = Some dir ->
  files w' !! meta_path dir (HttpRunner.safe_filename (t_name t))
  = Some (encode_utf8 (Json.dumps_indent 2 (outcome_json record)))
  /\ (t_save_body t = true ->
      exists status hdrs content elapsed_ms,
        urllib_response
          (urllib_net env (calls_made (log w') - 1) (urllib_request (lib env) t))
        = Some (status, hdrs, content, elapsed_ms)
        /\ files w' !! body_path dir (HttpRunner.safe_filename (t_name t))
           = Some content).
Proof.
  intros Hrun Hok Hdir.
  apply retry_while_returned in Hrun as [(a & w0 & H) | (last & w0 & H)];
    [| injection H as <- _; discriminate Hok].
  change (urllib_attempt env t a w0 = (Ok record, w')) in H.
  unfold urllib_attempt, HttpRunnerStdlib.attempt_once in H.
  apply bind_Ok_inv in H as ([] & wa & _ & H).
  apply bind_Ok_inv in H as ([] & wb & _ & H).
  unfold bind at 1 in H.
  unfold HttpRunnerStdlib.build_and_send_request in H.
  fold (urllib_request (lib env) t) in H.
  destruct (request_error _ _ _); [discriminate |].
  revert H.
  match goal with
  | |- context [urllib_net env (calls_made (log ?w1))] =>
      generalize w1
  end.
  intros w1 H.
  destruct (urllib_net env (calls_made (log w1)) (urllib_request (lib env) t))
    as [resp el | code hs body el | text | e] eqn:Enet; try discriminate;
    change HttpRunnerStdlib.save_record with HttpRunner.save_record in H;
    destruct (save_step_stored _ _ _ _ _ _ _ _ _ Hdir H)
      as (-> & Hmeta & Hbody & Hcalls);
    (split; [exact Hmeta |]); intros Hsave;
    rewrite Hcalls; unfold log_event; cbn [log]; rewrite calls_made_app; cbn;
    replace (calls_made (log w1) + 1 - 1)%nat with (calls_made (log w1)) by lia;
    rewrite Enet; cbn [urllib_response]; do 4 eexists;
    (split; [reflexivity | now apply Hbody]).
Qed.

(** X21.  In both programs, when [perform_request_with_retries] returns
    a success record and results are saved: the meta file of the target
    holds that record, as the UTF-8 of [json.dump] with the indent 2;
    and when bodies are saved, the body file holds, byte for byte, the
    content of the response to the last request the call made. *)
Theorem success_is_saved env :
  (forall (t : requests_target) w record w' dir,
      requests_perform env t w = (Ok record, w') ->
      has_error record = false ->
      saving (t_save_dir t) = Some dir ->
      files w' !! meta_path dir (HttpRunner.safe_filename (t_name t))
      = Some (encode_utf8 (Json.dumps_indent 2 (outcome_json record)))
      /\ (t_save_body t = true ->
          exists resp elapsed_ms,
            requests_net env (calls_made (log w') - 1) (requests_request t)
            = Replied resp elapsed_ms
            /\ files w' !! body_path dir (HttpRunner.safe_filename (t_name t))
               = Some (resp_content resp)))
  /\ (forall (t : urllib_target) w record w' dir,
         urllib_perform env t w = (Ok record, w') ->
         has_error record = false ->
         saving (t_save_dir t) = Some dir ->
         files w' !! meta_path dir (HttpRunner.safe_filename (t_name t))
         = Some (encode_utf8 (Json.dumps_indent 2 (outcome_json record)))
         /\ (t_save_body t = true ->
             exists status hdrs content elapsed_ms,
               urllib_response
                 (urllib_net env (calls_made (log w') - 1)
                    (urllib_request (lib env) t))
               = Some (status, hdrs, content, elapsed_ms)
               /\ files w' !! body_path dir (HttpRunner.safe_filename (t_name t))
                  = Some content)).
Proof.
  split; intros t w record w' dir.
  - apply requests_success_saved.
  - apply urllib_success_saved.
Qed.

Lemma success_is_saved_witness :
  let record := Success "request" 200 Sample.ms_12_5 [("Content-Length", "0")] in
  let r1 := requests_perform (Sample.env_status 200)
              (with_saved_bodies Sample.saved_requests_target)
              Sample.disk_empty in
  let r2 := urllib_perform (Sample.env_status 200) Sample.saved_urllib_target
              Sample.disk_empty in
  (files (snd r1) !! "out/request.meta.json"
   = Some (encode_utf8 (Json.dumps_indent 2 (outcome_json record)))
   /\ (true = true ->
       exists resp elapsed_ms,
         requests_net (Sample.env_status 200) (calls_made (log (snd r1)) - 1)
           (requests_request (with_saved_bodies Sample.saved_requests_target))
         = Replied resp elapsed_ms
         /\ files (snd r1) !! "out/request.body" = Some (resp_content resp)))
  /\ files (snd r2) !! "out/request.meta.json"
     = Some (encode_utf8 (Json.dumps_indent 2 (outcome_json record))).
Proof.
  intros record r1 r2. split.
  - apply (proj1 (success_is_saved (Sample.env_status 200))
             (with_saved_bodies Sample.saved_requests_target) Sample.disk_empty
             record (snd r1) "out"); reflexivity.
  - apply (proj2 (success_is_saved (Sample.env_status 200))
             Sample.saved_urllib_target Sample.disk_empty
             record (snd r2) "out"); reflexivity.
Defined.

(** The meta file behind the witness. *)
Example meta_file :
  Json.dumps_indent 2
    (outcome_json (Success "request" 200 Sample.ms_12_5 [("Content-Length", "0")]))
  = "{" +:+ newline
    +:+ "  " +:+ quote +:+ "name" +:+ quote +:+ ": "
    +:+ quote +:+ "request" +:+ quote +:+ "," +:+ newline
    +:+ "  " +:+ quote +:+ "status" +:+ quote +:+ ": 200," +:+ newline
    +:+ "  " +:+ quote +:+ "elapsed_ms" +:+ quote +:+ ": 12.5," +:+ newline
    +:+ "  " +:+ quote +:+ "response_headers" +:+ quote +:+ ": {" +:+ newline
    +:+ "    " +:+ quote +:+ "Content-Length" +:+ quote +:+ ": "
    +:+ quote +:+ "0" +:+ quote +:+ newline
    +:+ "  }" +:+ newline
    +:+ "}".
Proof. reflexivity. Qed.
